(** * World Engine IDE: the gated patch pipeline

    A shallow embedding of the authorization pipeline of the repository:
    - [editor_engine.py]: unified diff generation and strict application,
    - [learning_model.py]: the moving-window proficiency tracker and the
      capability gate,
    - [main.py]: the write-token authority, the workspace path check and
      the [/edit] and [/submit] request handlers,
    - [code_evaluator.py]: the static score of a piece of code,
    - [data_processor.py]: the tables of the audit log.

    A call that an exception leaves returns [None], or the answer
    [ServerError] for a request handler.

    Python [str] values are modelled by [string]; a character is a code
    point below 256, so the model covers Latin-1 texts.  On that range the
    line boundaries of [str.splitlines], the white space of [str.strip] and
    the digits matched by [\d] are exactly the ones listed below.  Python
    [int] values that count list elements are [nat]; clock values are [Z];
    Python [float] values are IEEE binary64 ([PrimFloat]). *)

From Stdlib Require Import ZArith List String Ascii Bool Lia DecimalString.
From Stdlib Require DecimalNat.
From Stdlib Require Import Floats Uint63.
From stdpp Require Import gmap strings list.

Set Warnings "-clear-no-such-hyp,-inexact-float".

(** ** Python string and list primitives *)

Module Py.

Definition code (c : ascii) : nat := nat_of_ascii c.

(** Line boundaries of [str.splitlines] below U+0100:
    LF, VT, FF, CR, FS, GS, RS and NEL. *)
Definition is_linebreak (c : ascii) : bool :=
  match code c with
  | 10 | 11 | 12 | 13 | 28 | 29 | 30 | 133 => true
  | _ => false
  end.

Definition is_cr (c : ascii) : bool := Nat.eqb (code c) 13.
Definition is_lf (c : ascii) : bool := Nat.eqb (code c) 10.

(** [str.isspace] below U+0100. *)
Definition is_space (c : ascii) : bool :=
  match code c with
  | 9 | 10 | 11 | 12 | 13 | 28 | 29 | 30 | 31 | 32 | 133 | 160 => true
  | _ => false
  end.

(** [\d] of [re] on [str] patterns, below U+0100: the ten ASCII digits. *)
Definition is_digit (c : ascii) : bool :=
  (48 <=? code c)%nat && (code c <=? 57)%nat.

Definition starts_with_lf (s : string) : bool :=
  match s with
  | String c _ => is_lf c
  | EmptyString => false
  end.

(** [s.splitlines(keepends)].  A CR directly followed by LF is one
    boundary: the CR joins the line that the LF ends. *)
Fixpoint splitlines (keepends : bool) (s : string) : list string :=
  match s with
  | EmptyString => []
  | String c s' =>
      let rest := splitlines keepends s' in
      if is_cr c && starts_with_lf s' then
        match rest with
        | l :: ls => (if keepends then String c l else l) :: ls
        | [] => []
        end
      else if is_linebreak c then
        (if keepends then String c EmptyString else EmptyString) :: rest
      else
        match rest with
        | l :: ls => String c l :: ls
        | [] => [String c EmptyString]
        end
  end.

Fixpoint lstrip (s : string) : string :=
  match s with
  | String c s' => if is_space c then lstrip s' else s
  | EmptyString => EmptyString
  end.

(** [s.rstrip(chars)]: the trailing characters that satisfy [p] are removed. *)
Fixpoint rstrip_with (p : ascii → bool) (s : string) : string :=
  match s with
  | String c s' =>
      match rstrip_with p s' with
      | EmptyString => if p c then EmptyString else String c EmptyString
      | r => String c r
      end
  | EmptyString => EmptyString
  end.

Definition rstrip (s : string) : string := rstrip_with is_space s.

(** [s.strip()] *)
Definition strip (s : string) : string := rstrip (lstrip s).

(** [s.startswith(p)] *)
Definition startswith (s p : string) : bool := String.prefix p s.

(** [sep.join(l)] *)
Fixpoint join (sep : string) (l : list string) : string :=
  match l with
  | [] => EmptyString
  | [x] => x
  | x :: xs => x +:+ sep +:+ join sep xs
  end.

(** The number that a string of ASCII digits writes. *)
Definition int_of_digits (s : string) : nat :=
  fold_left (fun acc c => (10 * acc + (code c - 48))%nat)
            (list_ascii_of_string s) 0%nat.

(** [sys.get_int_max_str_digits()]: the longest digit string that [int]
    converts, leading zeros included. *)
Definition int_max_str_digits : nat := 4300.

(** [int(s)] on a string of ASCII digits; [None] is the ValueError that
    CPython raises for a string of more than [int_max_str_digits]
    digits. *)
Definition int_of_str (s : string) : option nat :=
  if (int_max_str_digits <? String.length s)%nat then None
  else Some (int_of_digits s).

(** [str(n)] for a non-negative [int]. *)
Definition str_of_nat (n : nat) : string :=
  NilEmpty.string_of_uint (Nat.to_uint n).

(** [str(z)] for an int. *)
Definition str_of_int (z : Z) : string :=
  if (z <? 0)%Z then "-" +:+ str_of_nat (Z.to_nat (- z))
  else str_of_nat (Z.to_nat z).

(** [l[lo:hi]] for indices that are not negative. *)
Definition slice {A} (l : list A) (lo hi : nat) : list A :=
  take (hi - lo) (drop lo l).

(** [l[i:]] for any integer [i]: a negative index counts from the end
    and is clamped at the start of the list. *)
Definition slice_from {A} (l : list A) (i : Z) : list A :=
  if (i <? 0)%Z then drop (Z.to_nat (Z.of_nat (length l) + i)) l
  else drop (Z.to_nat i) l.

End Py.

(** ** difflib.unified_diff

    The standard library function that [generate_unified_diff] calls.  Its
    formatting is translated from CPython's [difflib.py].  The line
    matching, [SequenceMatcher(None, a, b).get_grouped_opcodes(3)], is not
    translated: the functions below take its result, the groups of
    opcodes [(tag, i1, i2, j1, j2)], as an argument. *)

Module Difflib.

Inductive tag := Equal | Replace | Delete | Insert.

Definition opcode : Type := tag * nat * nat * nat * nat.

(** [_format_range_unified(start, stop)] *)
Definition format_range_unified (start stop : nat) : string :=
  let beginning := (start + 1)%nat in
  let length := (stop - start)%nat in
  if (length =? 1)%nat then Py.str_of_nat beginning
  else
    let beginning := if (length =? 0)%nat then (beginning - 1)%nat else beginning in
    Py.str_of_nat beginning +:+ "," +:+ Py.str_of_nat length.

Definition opcode_lines (a b : list string) (op : opcode) : list string :=
  let '(t, i1, i2, j1, j2) := op in
  match t with
  | Equal => map (String " "%char) (Py.slice a i1 i2)
  | Replace =>
      map (String "-"%char) (Py.slice a i1 i2)
      ++ map (String "+"%char) (Py.slice b j1 j2)
  | Delete => map (String "-"%char) (Py.slice a i1 i2)
  | Insert => map (String "+"%char) (Py.slice b j1 j2)
  end.

(** One hunk: the [@@] line built from the first and the last opcode of
    the group, then the lines of every opcode.  A group is never empty. *)
Definition group_lines (a b : list string) (lineterm : string)
           (group : list opcode) : list string :=
  match group, last group with
  | (_, i1, _, j1, _) :: _, Some (_, _, i2, _, j2) =>
      ("@@ -" +:+ format_range_unified i1 i2
         +:+ " +" +:+ format_range_unified j1 j2 +:+ " @@" +:+ lineterm)
      :: concat (map (opcode_lines a b) group)
  | _, _ => []
  end.

(** [unified_diff(a, b, fromfile, tofile, lineterm=lineterm)], with no
    file dates: the two file lines are emitted before the first hunk. *)
Definition unified_diff (groups : list (list opcode)) (a b : list string)
           (fromfile tofile lineterm : string) : list string :=
  match groups with
  | [] => []
  | _ =>
      ("--- " +:+ fromfile +:+ lineterm)
      :: ("+++ " +:+ tofile +:+ lineterm)
      :: concat (map (group_lines a b lineterm) groups)
  end.

End Difflib.

(** ** editor_engine.py *)

Module EditorEngine.

(** The error texts of [apply_unified_diff], with the values that the
    source formats into them. *)
Inductive ErrorKind :=
| InvalidHunkHeader (line : string)
    (* "Invalid diff hunk header at line: ..." *)
| InvalidHunkOrder
    (* "Overlapping or out-of-order hunks." *)
| MalformedDiffLine
    (* "Malformed diff line (empty)." *)
| ContextMismatch (expected : string) (got : option string)
    (* "Context mismatch. Expected ..., got ...." *)
| RemovalMismatch (expected : string) (got : option string)
    (* "Removal mismatch. Expected ..., got ...." *)
| UnknownPrefix (prefix : ascii) (line : string)
    (* "Unknown diff prefix ... in line ...." *)
| HunkOldCountMismatch (header consumed : nat)
    (* "Hunk old line count mismatch: header ..., consumed ...." *)
| HunkNewCountMismatch (header produced : nat).
    (* "Hunk new line count mismatch: header ..., produced ...." *)

Record PatchResult := mkPatchResult {
  ok : bool;
  diff : string;
  new_text : option string;
  error : option ErrorKind;
}.

Definition LF : string := String (ascii_of_nat 10) EmptyString.

(** *** [generate_unified_diff], with the default file names *)
Section Generate.
(** [SequenceMatcher(None, a, b).get_grouped_opcodes(3)] *)
Variable get_grouped_opcodes :
  list string → list string → list (list Difflib.opcode).

Definition generate_unified_diff (old_text new_text : string) : string :=
  let old_lines := Py.splitlines true old_text in
  let new_lines := Py.splitlines true new_text in
  let diff_lines :=
    Difflib.unified_diff (get_grouped_opcodes old_lines new_lines)
                         old_lines new_lines
                         "a/code.py" "b/code.py" EmptyString in
  match diff_lines with
  | [] => EmptyString
  | _ => Py.join LF diff_lines +:+ LF
  end.
End Generate.

(** *** The hunk header pattern
    [^@@ -(\d+)(?:,(\d+))? \+(\d+)(?:,(\d+))? @@], matched at the start
    of the line.  The four groups are returned as the source reads them;
    an optional group that does not take part is [None]. *)

Fixpoint span_digits (s : string) : string * string :=
  match s with
  | String c s' =>
      if Py.is_digit c then
        let '(d, r) := span_digits s' in (String c d, r)
      else (EmptyString, s)
  | EmptyString => (EmptyString, EmptyString)
  end.

Definition expect (p s : string) : option string :=
  if String.prefix p s
  then Some (String.substring (String.length p) (String.length s - String.length p) s)
  else None.

(** [(\d+)] *)
Definition digits1 (s : string) : option (string * string) :=
  match span_digits s with
  | (EmptyString, _) => None
  | (d, r) => Some (d, r)
  end.

(** [(?:,(\d+))?] *)
Definition opt_count (s : string) : option string * string :=
  match expect "," s with
  | Some r =>
      match digits1 r with
      | Some (d, r') => (Some d, r')
      | None => (None, s)
      end
  | None => (None, s)
  end.

Definition hunk_re_match (line : string)
  : option (string * option string * string * option string) :=
  r0 ← expect "@@ -" line;
  '(g1, r1) ← digits1 r0;
  let '(g2, r2) := opt_count r1 in
  r3 ← expect " +" r2;
  '(g3, r4) ← digits1 r3;
  let '(g4, r5) := opt_count r4 in
  _ ← expect " @@" r5;
  Some (g1, g2, g3, g4).

(** [int(g or "1")] *)
Definition int_or_1 (g : option string) : option nat :=
  match g with
  | Some d => Py.int_of_str d
  | None => Some 1%nat
  end.

(** [old_pos >= len(old_lines) or old_lines[old_pos] != content] *)
Definition line_differs (old_lines : list string) (old_pos : nat)
           (content : string) : bool :=
  (length old_lines <=? old_pos)%nat
  || negb (String.eqb (nth old_pos old_lines EmptyString) content).

(** What the loops of [apply_unified_diff] come to: the error that is
    returned, or the lines of the new text; [None] where [int] raises
    while a hunk header is read, and the exception leaves the method. *)
Definition Outcome : Type := option (ErrorKind + list string).

(** *** The inner loop of [apply_unified_diff]: the body of one hunk.
    [next_hunk] is the rest of the outer loop; it is entered at the line
    that ends the hunk (a line that starts with ["@@ "], or the end of
    the diff) once both counts have been checked. *)
Section HunkBody.
Variable old_lines : list string.
Variables old_count new_count : nat.
Variable next_hunk : list string → list string → nat → Outcome.

Definition end_of_hunk (consumed produced : nat) (k : Outcome) : Outcome :=
  if negb (old_count =? consumed)%nat then
    Some (inl (HunkOldCountMismatch old_count consumed))
  else if negb (new_count =? produced)%nat then
    Some (inl (HunkNewCountMismatch new_count produced))
  else k.

Fixpoint hunk_body (lines out : list string)
         (old_pos consumed produced : nat) {struct lines}
  : Outcome :=
  match lines with
  | [] => end_of_hunk consumed produced (next_hunk lines out old_pos)
  | line :: lines' =>
      if Py.startswith line "@@ " then
        end_of_hunk consumed produced (next_hunk lines out old_pos)
      else if Py.startswith line "\ No newline at end of file" then
        hunk_body lines' out old_pos consumed produced
      else
        match line with
        | EmptyString => Some (inl MalformedDiffLine)
        | String prefix tail =>
            let content := tail +:+ LF in
            if Ascii.eqb prefix " "%char then
              if line_differs old_lines old_pos content then
                Some (inl (ContextMismatch content (old_lines !! old_pos)))
              else
                hunk_body lines' (out ++ [content])
                          (S old_pos) (S consumed) (S produced)
            else if Ascii.eqb prefix "-"%char then
              if line_differs old_lines old_pos content then
                Some (inl (RemovalMismatch content (old_lines !! old_pos)))
              else
                hunk_body lines' out (S old_pos) (S consumed) produced
            else if Ascii.eqb prefix "+"%char then
              hunk_body lines' (out ++ [content])
                        old_pos consumed (S produced)
            else Some (inl (UnknownPrefix prefix line))
        end
  end.
End HunkBody.

(** The four numbers of a hunk header, [int(m.group(1))],
    [int(m.group(2) or "1")], [int(m.group(3))] and
    [int(m.group(4) or "1")]; [None] where one of the calls raises. *)
Definition header_numbers
           (groups : string * option string * string * option string)
  : option (nat * nat * nat * nat) :=
  let '(g1, g2, g3, g4) := groups in
  old_start ← Py.int_of_str g1;
  old_count ← int_or_1 g2;
  new_start ← Py.int_of_str g3;
  new_count ← int_or_1 g4;
  Some (old_start, old_count, new_start, new_count).

(** *** The outer loop: one iteration per hunk header. *)
Fixpoint apply_hunks (old_lines lines out : list string) (old_pos : nat)
         {struct lines} : Outcome :=
  match lines with
  | [] => Some (inr (out ++ Py.slice_from old_lines (Z.of_nat old_pos)))
  | header :: rest =>
      match hunk_re_match header with
      | None => Some (inl (InvalidHunkHeader header))
      | Some groups =>
          match header_numbers groups with
          | None => None
          | Some (old_start, old_count, new_start, new_count) =>
              if (Z.of_nat old_start - 1 <? Z.of_nat old_pos)%Z then
                Some (inl InvalidHunkOrder)
              else
                let target_old_index := (old_start - 1)%nat in
                hunk_body old_lines old_count new_count
                          (fun lines' out' old_pos' =>
                             apply_hunks old_lines lines' out' old_pos')
                          rest
                          (out ++ Py.slice old_lines old_pos target_old_index)
                          target_old_index 0 0
          end
      end
  end.

(** The optional ["--- "] and ["+++ "] lines. *)
Definition skip_line (p : string) (lines : list string) : list string :=
  match lines with
  | l :: rest => if Py.startswith l p then rest else lines
  | [] => lines
  end.

(** [EditorEngine.apply_unified_diff]; [None] where an exception leaves
    it. *)
Definition apply_unified_diff (old_text diff_text : string)
  : option PatchResult :=
  if String.eqb (Py.strip diff_text) EmptyString then
    Some (mkPatchResult true diff_text (Some old_text) None)
  else
    let old_lines := Py.splitlines true old_text in
    let lines := Py.splitlines false diff_text in
    let lines := skip_line "+++ " (skip_line "--- " lines) in
    match apply_hunks old_lines lines [] 0 with
    | None => None
    | Some (inl e) => Some (mkPatchResult false diff_text None (Some e))
    | Some (inr out) =>
        Some (mkPatchResult true diff_text (Some (Py.join EmptyString out)) None)
    end.

End EditorEngine.

(** ** tests/test_editor_engine.py

    [TestEditorEngine.test_generate_and_apply]: the diff of the two texts
    is not empty, it applies, and the result is the new text. *)

Module EditorTests.
Import EditorEngine.

Definition test_old : string := "def f():" +:+ LF +:+ "    return 1" +:+ LF.
Definition test_new : string := "def f(x):" +:+ LF +:+ "    return x" +:+ LF.

Definition test_generate_and_apply
  (gro : list string → list string → list (list Difflib.opcode)) : bool :=
  let diff := generate_unified_diff gro test_old test_new in
  negb (String.eqb diff EmptyString)
  && match apply_unified_diff test_old diff with
     | Some pr => ok pr && bool_decide (new_text pr = Some test_new)
     | None => false
     end.

(** A diff written by hand: every line ends in a line feed, with no blank
    line in between. *)
Definition hand_diff : string :=
  "--- a/code.py" +:+ LF +:+ "+++ b/code.py" +:+ LF +:+ "@@ -1,2 +1,2 @@" +:+ LF
  +:+ " a" +:+ LF +:+ "-b" +:+ LF +:+ "+c" +:+ LF.

(** A hunk with the context line [" a"] whose old start is the number 1
    written with [n] digits: [n - 1] zeros and a 1. *)
Definition long_header_diff (n : nat) : string :=
  "@@ -" +:+ string_of_list_ascii (repeat "0"%char (n - 1)) +:+ "1 +1 @@" +:+ LF
  +:+ " a" +:+ LF.

End EditorTests.

(** ** Mutable objects: a state monad

    A method of an object is a function from the object's state to a
    result and the state it leaves. *)

Module State.

Definition M (S A : Type) : Type := S → A * S.

Definition ret {S A} (a : A) : M S A := λ s, (a, s).
Definition bind {S A B} (m : M S A) (k : A → M S B) : M S B :=
  λ s, let '(a, s') := m s in k a s'.
Definition get {S} : M S S := λ s, (s, s).
Definition put {S} (s : S) : M S unit := λ _, (tt, s).
Definition modify {S} (f : S → S) : M S unit := λ s, (tt, f s).

(** Run a method of a component object inside the enclosing one. *)
Definition zoom {S T A} (proj : S → T) (inj : T → S → S) (m : M T A) : M S A :=
  λ s, let '(a, t') := m (proj s) in (a, inj t' s).

Definition eval {S A} (m : M S A) (s : S) : A := fst (m s).
Definition exec {S A} (m : M S A) (s : S) : S := snd (m s).

#[global] Instance state_ret {S} : MRet (M S) := λ A, @ret S A.
#[global] Instance state_bind {S} : MBind (M S) := λ A B k m, @bind S A B m k.

End State.

(** ** learning_model.py *)

Module Learning.
Import State.

(** *** Floating point helpers *)

(** [float(n)] for a list length. *)
Definition float_of_nat (n : nat) : float :=
  PrimFloat.of_uint63 (Uint63.of_Z (Z.of_nat n)).

(** [sum(l)] on floats: the additions from left to right, from zero. *)
Definition py_sum (l : list float) : float := fold_left PrimFloat.add l 0%float.

(** [a >= b] *)
Definition ge (a b : float) : bool := PrimFloat.leb b a.

(** [min(a, b)] and [max(a, b)]: the first argument unless the second is
    strictly smaller (larger). *)
Definition py_min (a b : float) : float := if PrimFloat.ltb b a then b else a.
Definition py_max (a b : float) : float := if PrimFloat.ltb a b then b else a.

(** *** Configuration, as loaded from config.json *)

Record Standards := mkStandards {
  moving_window_size : option Z;
  weights : gmap string float;
  combo_weights : gmap string float;
  min_tokens_for_full_clarity : option Z;
}.

Record KeywordSpec := mkKeywordSpec {
  keywords : list string;
  weight : option float;
}.

Record CodePolicy := mkCodePolicy {
  policy_weights : gmap string float;
  max_complexity : option Z;
  forbidden_imports : list string;
  dangerous_builtins : list string;
  pass_threshold : option float;
}.

Record CapabilityGating := mkCapabilityGating {
  actions : gmap string string;
  intent_default_action : gmap string string;
}.

(** *** Results *)

(** The lines that [CodeEvaluator.evaluate] appends to [stderr], with the
    values that the source formats into them. *)
Inductive Message :=
| AstError (e : string)                    (* "AST error: ..." *)
| ForbiddenImports (bad : list string)     (* "Forbidden imports: [...]" *)
| DangerousBuiltins (bad : list string)    (* "Dangerous builtins used: [...]" *)
| ComplexityAbove (complexity : nat) (max_complexity : Z)
                                           (* "Complexity ... > max ..." *)
| CompileError (e : string).               (* "Compile error: ..." *)

(** The [meta] dictionary: a key is [None] until it is set. *)
Record Meta := mkMeta {
  meta_ast_nodes : option nat;
  meta_complexity : option nat;
  meta_tests_present : option bool;
}.

(** The dataclass [CodeEvalResult] of code_evaluator.py. *)
Record CodeEvalResult := mkCodeEvalResult {
  ce_ok : bool;
  ce_score : float;
  ce_breakdown : gmap string float;
  ce_stdout : string;
  ce_stderr : list Message;
  ce_meta : Meta;
}.

(** The dictionary that [_score_intent] returns: five fixed keys. *)
Record IntentBreakdown := mkIntentBreakdown {
  correctness : float;
  clarity : float;
  safety : float;
  confidence : float;
  intent_total : float;
}.

Record ScoreReport := mkScoreReport {
  text : string;
  predicted_intent : string;
  expected_intent : option string;
  requested_action : string;
  required_unlock : string;
  allowed : bool;
  total_score : float;
  breakdown : gmap string float;
  unlocks : gmap string bool;
  unlocks_before : gmap string bool;
  code_eval : option CodeEvalResult;
}.

(** *** The scorer

    The intent classifier and the static code evaluator produce the score
    of a submission; the gate only consumes the score.  They are an
    interface here: [_tokenize], [_predict_intent] and [_score_intent] of
    [LearningModel], and [CodeEvaluator.evaluate], which returns [None]
    where an exception leaves it. *)
Class Scorer := {
  _tokenize : string → list string;
  _predict_intent : list (string * KeywordSpec) → list string → string * float;
  _score_intent :
    Standards → list (string * KeywordSpec) →
    string → option string → float → list string → IntentBreakdown;
  code_evaluator_evaluate :
    CodePolicy → string → option string → option CodeEvalResult;
}.

(** *** The model object *)

Record LearningModel := mkLearningModel {
  standards : Standards;
  thresholds : gmap string float;
  keyword_map : list (string * KeywordSpec);
  code_policy : CodePolicy;
  capability_gating : CapabilityGating;
  window_size : Z;
  recent_scores : list float;
  current_percent : float;
  unlocked : gmap string bool;
}.

Definition set_recent_scores (v : list float) (self : LearningModel) :=
  mkLearningModel (standards self) (thresholds self) (keyword_map self)
                  (code_policy self) (capability_gating self)
                  (window_size self) v (current_percent self) (unlocked self).

Definition set_current_percent (v : float) (self : LearningModel) :=
  mkLearningModel (standards self) (thresholds self) (keyword_map self)
                  (code_policy self) (capability_gating self)
                  (window_size self) (recent_scores self) v (unlocked self).

Definition set_unlocked (v : gmap string bool) (self : LearningModel) :=
  mkLearningModel (standards self) (thresholds self) (keyword_map self)
                  (code_policy self) (capability_gating self)
                  (window_size self) (recent_scores self) (current_percent self) v.

(** [LearningModel.__init__] *)
Definition init (standards : Standards) (thresholds : gmap string float)
           (keyword_map : list (string * KeywordSpec)) (code_policy : CodePolicy)
           (capability_gating : CapabilityGating) : LearningModel :=
  mkLearningModel standards thresholds keyword_map code_policy capability_gating
    (default 50%Z (moving_window_size standards))
    [] 0%float
    (<["assist_mode" := false]>
       (<["minor_edits" := false]>
          (<["refactor_lint" := false]>
             (<["autonomous_editing" := false]> ∅)))).

(** [LearningModel.update_config] *)
Definition update_config (standards : Standards) (thresholds : gmap string float)
           (keyword_map : list (string * KeywordSpec)) (code_policy : CodePolicy)
           (capability_gating : CapabilityGating) : M LearningModel unit :=
  modify (λ self,
    mkLearningModel standards thresholds keyword_map code_policy capability_gating
      (default 50%Z (moving_window_size standards))
      (recent_scores self) (current_percent self) (unlocked self)).

(** [LearningModel._compute_unlocks] *)
Definition _compute_unlocks (self : LearningModel) (percent : float)
  : gmap string bool :=
  <["assist_mode" :=
      ge percent (default 0.50%float (thresholds self !! "assist_mode"))]>
  (<["minor_edits" :=
      ge percent (default 0.70%float (thresholds self !! "minor_edits"))]>
  (<["refactor_lint" :=
      ge percent (default 0.90%float (thresholds self !! "refactor_lint"))]>
  (<["autonomous_editing" :=
      ge percent (default 1.00%float (thresholds self !! "autonomous_editing"))]>
   ∅))).

(** [LearningModel._resolve_required_unlock] *)
Definition _resolve_required_unlock (self : LearningModel)
           (predicted_intent : string) (requested_action : option string)
  : string * string :=
  let actions_map := actions (capability_gating self) in
  let defaults := intent_default_action (capability_gating self) in
  let action :=
    match Py.strip (default EmptyString requested_action) with
    | EmptyString =>
        default (default "assist" (defaults !! "unknown"))
                (defaults !! predicted_intent)
    | a => a
    end in
  let action := if decide (is_Some (actions_map !! action)) then action else "assist" in
  let required_unlock := default "assist_mode" (actions_map !! action) in
  (action, required_unlock).

(** [LearningModel.is_allowed] *)
Definition is_allowed (required_unlock : string) : M LearningModel bool :=
  self ← get;
  mret (default false (unlocked self !! required_unlock)).

(** The mean of a window, as both [evaluate] and [update_progress] compute
    it: [sum(l) / max(1, len(l))]. *)
Definition mean (l : list float) : float :=
  (py_sum l / float_of_nat (Nat.max 1 (length l)))%float.

Definition nonblank (s : option string) : bool :=
  match s with
  | Some c => negb (String.eqb c EmptyString)
              && negb (String.eqb (Py.strip c) EmptyString)
  | None => false
  end.

(** [LearningModel.evaluate]; [None] where the exception of the code
    evaluator leaves it. *)
Definition evaluate `{Scorer} (text : string)
           (expected_intent code tests requested_action : option string)
  : M LearningModel (option ScoreReport) :=
  self ← get;
  let tokens := _tokenize text in
  let '(pred, conf) := _predict_intent (keyword_map self) tokens in
  let '(action, required_unlock) :=
    _resolve_required_unlock self pred requested_action in
  (* Gate based on proficiency so far (before scoring this request). *)
  let before_scores := Py.slice_from (recent_scores self) (- window_size self) in
  let percent_before :=
    match before_scores with
    | [] => 0%float
    | _ => mean before_scores
    end in
  let unlocks_before := _compute_unlocks self percent_before in
  let allowed := default false (unlocks_before !! required_unlock) in
  let intent_breakdown :=
    _score_intent (standards self) (keyword_map self)
                  pred expected_intent conf tokens in
  let evaluated :=
    if nonblank code
    then Some <$> code_evaluator_evaluate (code_policy self)
                                          (default EmptyString code) tests
    else Some None in
  match evaluated with
  | None => mret None
  | Some code_eval =>
      let code_score := ce_score <$> code_eval in
      let combo := combo_weights (standards self) in
      let w_intent := default 0.50%float (combo !! "intent") in
      let w_code :=
        match code_score with
        | Some _ => default 0.50%float (combo !! "code")
        | None => 0%float
        end in
      let total_score :=
        match code_score with
        | None => intent_total intent_breakdown
        | Some cs =>
            if PrimFloat.leb w_code 0 then intent_total intent_breakdown
            else
              let denom := (w_intent + w_code)%float in
              if PrimFloat.leb denom 0 then intent_total intent_breakdown
              else
                py_max 0 (py_min 1 ((w_intent * intent_total intent_breakdown
                                     + w_code * cs) / denom))%float
        end in
      let breakdown : gmap string float :=
        <["intent_total" := intent_total intent_breakdown]>
        (<["total" := total_score]>
        (<["correctness" := correctness intent_breakdown]>
        (<["clarity" := clarity intent_breakdown]>
        (<["safety" := safety intent_breakdown]>
        (<["confidence" := confidence intent_breakdown]> ∅))))) in
      let breakdown :=
        match code_eval with
        | Some ce => <["code_score" := ce_score ce]> breakdown
        | None => breakdown
        end in
      let tmp_scores :=
        Py.slice_from (recent_scores self ++ [total_score]) (- window_size self) in
      let percent := mean tmp_scores in
      let unlocks := _compute_unlocks self percent in
      mret (Some (mkScoreReport text pred expected_intent action required_unlock
                                allowed total_score breakdown unlocks
                                unlocks_before code_eval))
  end.

(** [LearningModel.update_progress] *)
Definition update_progress (report : ScoreReport) : M LearningModel unit :=
  modify (λ self,
    set_recent_scores (recent_scores self ++ [total_score report]) self);;
  self ← get;
  (if (window_size self <? Z.of_nat (length (recent_scores self)))%Z then
     put (set_recent_scores
            (Py.slice_from (recent_scores self) (- window_size self)) self)
   else mret tt);;
  modify (λ self, set_current_percent (mean (recent_scores self)) self);;
  modify (λ self,
    set_unlocked (_compute_unlocks self (current_percent self)) self).

End Learning.

(** ** main.py: the write-token authority *)

Module Token.

(** A value that [json.loads] finds under a key of the payload object;
    arrays and nested objects are [JOther]. *)
Inductive jval :=
| JNull
| JBool (b : bool)
| JInt (z : Z)
| JFloat (f : float)
| JStr (s : string)
| JOther.

(** What [json.loads] returns: an object, or some other JSON value. *)
Inductive json :=
| JObject (m : gmap string jval)
| JNotObject.

(** The payload that [issue_write_token] signs. *)
Record Payload := mkPayload {
  p_v : Z;
  p_op : string;
  p_ru : string;
  p_iat : Z;
  p_exp : Z;
  p_nonce : string;
  p_fn : string;
  p_base_hash : string;
  p_diff_hash : string;
}.

Definition payload_dict (p : Payload) : gmap string jval :=
  <["v" := JInt (p_v p)]>
  (<["op" := JStr (p_op p)]>
  (<["ru" := JStr (p_ru p)]>
  (<["iat" := JInt (p_iat p)]>
  (<["exp" := JInt (p_exp p)]>
  (<["nonce" := JStr (p_nonce p)]>
  (<["fn" := JStr (p_fn p)]>
  (<["base_hash" := JStr (p_base_hash p)]>
  (<["diff_hash" := JStr (p_diff_hash p)]> ∅)))))))).

(** The standard library functions that the authority calls.  Byte
    strings are [string]s too.  A decoder returns [None] where the
    Python function raises. *)
Class Lib := {
  (* hashlib.sha256(b).hexdigest() *)
  sha256_hexdigest : string → string;
  (* hmac.new(key, msg, hashlib.sha256).digest() *)
  hmac_sha256 : string → string → string;
  (* base64.urlsafe_b64encode(b) *)
  urlsafe_b64encode : string → string;
  (* base64.urlsafe_b64decode(b) *)
  urlsafe_b64decode : string → option string;
  (* json.dumps(payload, separators=(",", ":"), sort_keys=True).encode("utf-8") *)
  json_dumps : Payload → string;
  (* json.loads(b.decode("utf-8")) *)
  json_loads : string → option json;
}.

Definition is_pad (c : ascii) : bool := Ascii.eqb c "="%char.
Definition is_dot (c : ascii) : bool := Ascii.eqb c "."%char.

(** The alphabet of [urlsafe_b64encode], padding included. *)
Definition is_b64url (c : ascii) : bool :=
  let n := Py.code c in
  ((65 <=? n) && (n <=? 90) || (97 <=? n) && (n <=? 122)
   || (48 <=? n) && (n <=? 57) || (n =? 45) || (n =? 95) || (n =? 61))%nat.

Fixpoint forallb_string (p : ascii → bool) (s : string) : bool :=
  match s with
  | String c s' => p c && forallb_string p s'
  | EmptyString => true
  end.

(** [b.rstrip(b"=")] *)
Definition rstrip_pad (s : string) : string := Py.rstrip_with is_pad s.

(** ["=" * n] *)
Fixpoint repeat_pad (n : nat) : string :=
  match n with
  | O => EmptyString
  | S n' => String "="%char (repeat_pad n')
  end.

(** What the documentation of these functions promises, as far as the
    authority relies on it. *)
Class LibLaws `{Lib} : Prop := {
  b64_roundtrip x :
    let s := rstrip_pad (urlsafe_b64encode x) in
    urlsafe_b64decode (s +:+ repeat_pad ((4 - String.length s mod 4) mod 4))
    = Some x;
  b64_alphabet x : forallb_string is_b64url (urlsafe_b64encode x) = true;
  b64_nonempty x : x ≠ EmptyString → rstrip_pad (urlsafe_b64encode x) ≠ EmptyString;
  json_roundtrip p : json_loads (json_dumps p) = Some (JObject (payload_dict p));
  json_nonempty p : json_dumps p ≠ EmptyString;
  hmac_nonempty key msg : hmac_sha256 key msg ≠ EmptyString;
}.

(** [s.encode("utf-8")] for code points below 256. *)
Fixpoint utf8_encode (s : string) : string :=
  match s with
  | String c s' =>
      let n := Py.code c in
      if (n <? 128)%nat then String c (utf8_encode s')
      else String (ascii_of_nat (192 + n / 64))
             (String (ascii_of_nat (128 + n mod 64)) (utf8_encode s'))
  | EmptyString => EmptyString
  end.

(** [sha256_text] *)
Definition sha256_text `{Lib} (s : string) : string :=
  sha256_hexdigest (utf8_encode s).

(** [App.issue_write_token]; the clock and the nonce are read from the
    environment: [now] is [int(time.time())] and [nonce] is
    [secrets.token_urlsafe(12)]. *)
Definition issue_write_token `{Lib} (write_token_secret : string) (ttl : Z)
           (now : Z) (nonce : string)
           (op required_unlock filename base_code diff_text : string)
  : string * Z :=
  let payload :=
    mkPayload 1 op required_unlock now (now + ttl) nonce filename
              (sha256_text base_code) (sha256_text diff_text) in
  let raw := json_dumps payload in
  let payload_b64 := rstrip_pad (urlsafe_b64encode raw) in
  let sig := hmac_sha256 write_token_secret payload_b64 in
  let sig_b64 := rstrip_pad (urlsafe_b64encode sig) in
  (payload_b64 +:+ "." +:+ sig_b64, ttl).

(** [token.split(".", 1)] for a token that contains a dot. *)
Fixpoint split_dot (s : string) : option (string * string) :=
  match s with
  | String c s' =>
      if is_dot c then Some (EmptyString, s')
      else '(a, b) ← split_dot s'; Some (String c a, b)
  | EmptyString => None
  end.

(** [_b64url_decode]: [encode("ascii")] raises on a character above 127. *)
Definition _b64url_decode `{Lib} (s : string) : option string :=
  let pad := repeat_pad ((4 - String.length s mod 4) mod 4) in
  if forallb_string (λ c, (Py.code c <? 128)%nat) (s +:+ pad)
  then urlsafe_b64decode (s +:+ pad)
  else None.

(** [x != 1], [x != s] and [isinstance(x, int)] on what [payload.get]
    returns; a Python [bool] is an [int], and [1.0 == 1]. *)
Definition py_eq_one (x : option jval) : bool :=
  match x with
  | Some (JInt z) => (z =? 1)%Z
  | Some (JBool b) => b
  | Some (JFloat f) => PrimFloat.eqb f 1%float
  | _ => false
  end.

Definition py_eq_str (x : option jval) (s : string) : bool :=
  match x with
  | Some (JStr t) => String.eqb t s
  | _ => false
  end.

Definition as_int (x : option jval) : option Z :=
  match x with
  | Some (JInt z) => Some z
  | Some (JBool b) => Some (if b then 1 else 0)%Z
  | _ => None
  end.

(** [App.verify_write_token]; [now] is [int(time.time())].  The result is
    [None] where an exception leaves the method: [payload.get] on a JSON
    value that is not an object. *)
Definition verify_write_token `{Lib} (write_token_secret : string) (now : Z)
           (token op required_unlock filename base_code diff_text : string)
  : option (bool * option string) :=
  match split_dot token with
  | None => Some (false, Some "missing_or_malformed")
  | Some (payload_part, sig_part) =>
      if String.eqb payload_part EmptyString || String.eqb sig_part EmptyString then
        Some (false, Some "missing_or_malformed")
      else
        match _b64url_decode payload_part, _b64url_decode sig_part with
        | Some payload_raw, Some sig =>
            let expected_sig := hmac_sha256 write_token_secret payload_part in
            if negb (String.eqb sig expected_sig) then
              Some (false, Some "bad_signature")
            else
              match json_loads payload_raw with
              | None => Some (false, Some "bad_payload")
              | Some JNotObject => None
              | Some (JObject payload) =>
                  if negb (py_eq_one (payload !! "v")) then
                    Some (false, Some "bad_version")
                  else if negb (py_eq_str (payload !! "op") op) then
                    Some (false, Some "bad_op")
                  else if negb (py_eq_str (payload !! "ru") required_unlock) then
                    Some (false, Some "wrong_unlock")
                  else if negb (py_eq_str (payload !! "fn") filename) then
                    Some (false, Some "wrong_filename")
                  else if negb (py_eq_str (payload !! "base_hash")
                                          (sha256_text base_code)) then
                    Some (false, Some "wrong_base")
                  else if negb (py_eq_str (payload !! "diff_hash")
                                          (sha256_text diff_text)) then
                    Some (false, Some "wrong_diff")
                  else
                    match as_int (payload !! "exp") with
                    | None => Some (false, Some "bad_exp")
                    | Some exp =>
                        if (exp <? now)%Z then Some (false, Some "expired")
                        else Some (true, None)
                    end
              end
        | _, _ => Some (false, Some "bad_base64")
        end
  end.

End Token.

(** ** The strict application of a diff, as the specification words it

    A second, declarative reading of [apply_unified_diff] (spec 4.3,
    steps 1 to 6), against which the loops above are compared: the diffs
    that are consistent with a base text, and the ways in which a diff
    that is not consistent fails. *)

Module DiffSpec.
Import EditorEngine.

Record Hunk := mkHunk {
  h_old_start : nat;
  h_old_count : nat;
  h_new_start : nat;
  h_new_count : nat;
  h_body : list string;
}.

Definition is_header_start (line : string) : bool := Py.startswith line "@@ ".

Definition is_marker (line : string) : bool :=
  Py.startswith line "\ No newline at end of file".

(** What a header line says: the pattern matches it and [int] reads its
    four numbers. *)
Definition reads (header : string) (h : nat * nat * nat * nat) : Prop :=
  ∃ groups, hunk_re_match header = Some groups ∧ header_numbers groups = Some h.

(** The lines of one hunk end where the diff ends or where the next line
    starts with ["@@ "]. *)
Definition hunk_ends (body rest : list string) : Prop :=
  Forall (λ l, is_header_start l = false) body ∧
  (rest = [] ∨ ∃ l r, rest = l :: r ∧ is_header_start l = true).

(** The diff lines, after the optional file lines, are a sequence of
    hunks: a header line that the pattern matches, then the lines up to
    the next line that starts with ["@@ "]. *)
Inductive parses : list string → list Hunk → Prop :=
| parses_nil : parses [] []
| parses_cons header old_start old_count new_start new_count body rest hs :
    reads header (old_start, old_count, new_start, new_count) →
    hunk_ends body rest →
    parses rest hs →
    parses (header :: body ++ rest)
           (mkHunk old_start old_count new_start new_count body :: hs).

(** [body_applies old_lines pos body pos' consumed produced emitted]:
    walking [body] from line [pos] of the old text, every context and
    every removal line equals the old line it stands for; [consumed] old
    lines are passed, [produced] lines are [emitted], and the cursor ends
    at [pos']. *)
Inductive body_applies (old_lines : list string)
  : nat → list string → nat → nat → nat → list string → Prop :=
| body_done pos :
    body_applies old_lines pos [] pos 0 0 []
| body_marker pos line body pos' c p e :
    is_marker line = true →
    body_applies old_lines pos body pos' c p e →
    body_applies old_lines pos (line :: body) pos' c p e
| body_context pos tail body pos' c p e :
    old_lines !! pos = Some (tail +:+ LF) →
    body_applies old_lines (S pos) body pos' c p e →
    body_applies old_lines pos (String " "%char tail :: body)
                 pos' (S c) (S p) ((tail +:+ LF) :: e)
| body_removal pos tail body pos' c p e :
    old_lines !! pos = Some (tail +:+ LF) →
    body_applies old_lines (S pos) body pos' c p e →
    body_applies old_lines pos (String "-"%char tail :: body)
                 pos' (S c) p e
| body_addition pos tail body pos' c p e :
    body_applies old_lines pos body pos' c p e →
    body_applies old_lines pos (String "+"%char tail :: body)
                 pos' c (S p) ((tail +:+ LF) :: e).

(** [hunks_apply old_lines pos hs out]: from cursor [pos], the hunks
    [hs] are in order, each body applies at the declared start with the
    declared counts, and [out] is the old text from [pos] on with every
    hunk applied. *)
Inductive hunks_apply (old_lines : list string)
  : nat → list Hunk → list string → Prop :=
| hunks_done pos :
    hunks_apply old_lines pos [] (drop pos old_lines)
| hunks_next pos h hs pos' e out :
    (1 ≤ h_old_start h)%nat →
    (pos ≤ h_old_start h - 1)%nat →
    body_applies old_lines (h_old_start h - 1) (h_body h) pos'
                 (h_old_count h) (h_new_count h) e →
    hunks_apply old_lines pos' hs out →
    hunks_apply old_lines pos (h :: hs)
                (Py.slice old_lines pos (h_old_start h - 1) ++ e ++ out).

(** How an application that gives no new text ends: with the
    ValueError of [int] on a header number of more than 4300 digits, or
    with an error that is returned. *)
Inductive Stop :=
| IntTooLong
| Refused (e : ErrorKind).

(** [body_stops old_lines pos body e]: walking [body] from line [pos] of
    the old text, the lines before some line pass (a context or removal
    line equals the old line at the cursor, which moves on), and that
    line fails the check that [e] names, at the old line that the cursor
    has reached. *)
Inductive body_stops (old_lines : list string)
  : nat → list string → ErrorKind → Prop :=
| stops_empty pos body :
    body_stops old_lines pos (EmptyString :: body) MalformedDiffLine
| stops_context pos tail body :
    old_lines !! pos ≠ Some (tail +:+ LF) →
    body_stops old_lines pos (String " "%char tail :: body)
               (ContextMismatch (tail +:+ LF) (old_lines !! pos))
| stops_removal pos tail body :
    old_lines !! pos ≠ Some (tail +:+ LF) →
    body_stops old_lines pos (String "-"%char tail :: body)
               (RemovalMismatch (tail +:+ LF) (old_lines !! pos))
| stops_prefix pos c tail body :
    is_marker (String c tail) = false →
    c ≠ " "%char → c ≠ "-"%char → c ≠ "+"%char →
    body_stops old_lines pos (String c tail :: body)
               (UnknownPrefix c (String c tail))
| stops_after_marker pos line body e :
    is_marker line = true →
    body_stops old_lines pos body e →
    body_stops old_lines pos (line :: body) e
| stops_after_context pos tail body e :
    old_lines !! pos = Some (tail +:+ LF) →
    body_stops old_lines (S pos) body e →
    body_stops old_lines pos (String " "%char tail :: body) e
| stops_after_removal pos tail body e :
    old_lines !! pos = Some (tail +:+ LF) →
    body_stops old_lines (S pos) body e →
    body_stops old_lines pos (String "-"%char tail :: body) e
| stops_after_addition pos tail body e :
    body_stops old_lines pos body e →
    body_stops old_lines pos (String "+"%char tail :: body) e.

(** [diff_stops old_lines pos lines how]: from cursor [pos], the hunks
    before some hunk apply, each at its declared start and with its
    declared counts, and that hunk fails: its header does not match, a
    number of its header is too long for [int], it starts before the
    cursor, a line of its body fails, or its body applies with other
    counts than the header declares (the old count is checked first). *)
Inductive diff_stops (old_lines : list string)
  : nat → list string → Stop → Prop :=
| stops_header pos header rest :
    hunk_re_match header = None →
    diff_stops old_lines pos (header :: rest)
               (Refused (InvalidHunkHeader header))
| stops_int pos header rest groups :
    hunk_re_match header = Some groups →
    header_numbers groups = None →
    diff_stops old_lines pos (header :: rest) IntTooLong
| stops_order pos header rest old_start old_count new_start new_count :
    reads header (old_start, old_count, new_start, new_count) →
    (old_start = 0 ∨ old_start - 1 < pos)%nat →
    diff_stops old_lines pos (header :: rest) (Refused InvalidHunkOrder)
| stops_body pos header old_start old_count new_start new_count body rest e :
    reads header (old_start, old_count, new_start, new_count) →
    (1 ≤ old_start)%nat → (pos ≤ old_start - 1)%nat →
    hunk_ends body rest →
    body_stops old_lines (old_start - 1) body e →
    diff_stops old_lines pos (header :: body ++ rest) (Refused e)
| stops_old_count pos header old_start old_count new_start new_count
                  body rest pos' consumed produced emitted :
    reads header (old_start, old_count, new_start, new_count) →
    (1 ≤ old_start)%nat → (pos ≤ old_start - 1)%nat →
    hunk_ends body rest →
    body_applies old_lines (old_start - 1) body pos' consumed produced emitted →
    old_count ≠ consumed →
    diff_stops old_lines pos (header :: body ++ rest)
               (Refused (HunkOldCountMismatch old_count consumed))
| stops_new_count pos header old_start old_count new_start new_count
                  body rest pos' produced emitted :
    reads header (old_start, old_count, new_start, new_count) →
    (1 ≤ old_start)%nat → (pos ≤ old_start - 1)%nat →
    hunk_ends body rest →
    body_applies old_lines (old_start - 1) body pos' old_count produced emitted →
    new_count ≠ produced →
    diff_stops old_lines pos (header :: body ++ rest)
               (Refused (HunkNewCountMismatch new_count produced))
| stops_later pos header old_start old_count new_start new_count
              body rest pos' emitted how :
    reads header (old_start, old_count, new_start, new_count) →
    (1 ≤ old_start)%nat → (pos ≤ old_start - 1)%nat →
    hunk_ends body rest →
    body_applies old_lines (old_start - 1) body pos' old_count new_count emitted →
    diff_stops old_lines pos' rest how →
    diff_stops old_lines pos (header :: body ++ rest) how.

(** What [apply_unified_diff] comes to when the application stops. *)
Definition stopped (diff_text : string) (how : Stop) : option PatchResult :=
  match how with
  | IntTooLong => None
  | Refused e => Some (mkPatchResult false diff_text None (Some e))
  end.

(** [consistent old_text diff_text out]: the whole diff is consistent
    with the base text, and [out] are the lines of the new text. *)
Definition consistent (old_text diff_text : string) (out : list string) : Prop :=
  ∃ hs,
    parses (skip_line "+++ " (skip_line "--- " (Py.splitlines false diff_text))) hs ∧
    hunks_apply (Py.splitlines true old_text) 0 hs out.

End DiffSpec.

(** ** The gate, as the specification words it *)

Module LearningSpec.
Import State Learning.

(** A scorer for examples: every submission is classified as "unknown" and scores 1.0. *)
Definition perfect_scorer : Scorer := {|
  _tokenize := λ _, [];
  _predict_intent := λ _ _, ("unknown", 1%float);
  _score_intent := λ _ _ _ _ _ _, mkIntentBreakdown 1 1 1 1 1;
  code_evaluator_evaluate :=
    λ _ _ _, Some (mkCodeEvalResult true 1 ∅ "" [] (mkMeta None None None));
|}.

Definition default_gating : CapabilityGating :=
  mkCapabilityGating
    (<["assist" := "assist_mode"]> (<["minor_edit" := "minor_edits"]>
      (<["refactor" := "refactor_lint"]> (<["autonomous_edit" := "autonomous_editing"]> ∅))))
    (<["unknown" := "assist"]> ∅).

Definition empty_policy : CodePolicy := mkCodePolicy ∅ None [] [] None.

Definition fresh_model (w : option Z) (th : gmap string float) : LearningModel :=
  init (mkStandards w ∅ ∅ None) th [] empty_policy default_gating.

(** The proficiency that [evaluate] gates on. *)
Definition percent_before (self : LearningModel) : float :=
  let before_scores := Py.slice_from (recent_scores self) (- window_size self) in
  match before_scores with
  | [] => 0%float
  | _ => mean before_scores
  end.

Definition four_tiers : gset string :=
  {[ "assist_mode"; "minor_edits"; "refactor_lint"; "autonomous_editing" ]}.

(** The window that [update_progress] keeps. *)
Definition fold_in (w : Z) (scores : list float) (s : float) : list float :=
  let l := scores ++ [s] in
  if (w <? Z.of_nat (length l))%Z then Py.slice_from l (- w) else l.

(** The states that the methods of the class produce. *)
Inductive reachable : LearningModel → Prop :=
| reach_init st th km cp cg :
    reachable (init st th km cp cg)
| reach_update_progress self report :
    reachable self → reachable (exec (update_progress report) self)
| reach_update_config self st th km cp cg :
    reachable self → reachable (exec (update_config st th km cp cg) self).

(** All the folds of a list of reports, in order. *)
Definition update_all (reports : list ScoreReport) (self : LearningModel)
  : LearningModel :=
  foldl (λ s r, exec (update_progress r) s) self reports.

Definition half_threshold : gmap string float := <["assist_mode" := 0.5%float]> ∅.

End LearningSpec.

(** ** main.py: the application object and the [/edit] handler *)

Module Server.
Import State.

(** *** Paths

    [pathlib.Path] on a POSIX system: an absolute flag and the parts
    between slashes; empty parts and ["."] are dropped when the path is
    built, [".."] is kept until the path is resolved. *)

Fixpoint split_slash (s : string) : list string :=
  match s with
  | EmptyString => [EmptyString]
  | String c s' =>
      if Ascii.eqb c "/"%char then EmptyString :: split_slash s'
      else
        match split_slash s' with
        | part :: rest => String c part :: rest
        | [] => [String c EmptyString]
        end
  end.

Record PurePath := mkPurePath {
  is_absolute : bool;
  parts : list string;
}.

(** [Path(filename)] *)
Definition Path (filename : string) : PurePath :=
  mkPurePath (Py.startswith filename "/")
             (filter (λ part, part ≠ EmptyString ∧ part ≠ ".") (split_slash filename)).

(** *** The operating system and the matcher of difflib

    The file system is a state of type [FS]; an operation returns [None]
    where the Python call raises.  Paths are the parts of an absolute
    path. *)
Class OS := {
  FS : Type;
  (* Path.resolve(): symbolic links and ".." are resolved against the file system *)
  resolve : FS → list string → option (list string);
  (* Path.exists() *)
  path_exists : FS → list string → bool;
  (* Path.read_text(encoding="utf-8") *)
  read_text : FS → list string → option string;
  (* Path.mkdir(parents=True, exist_ok=True) *)
  mkdir_parents : FS → list string → option FS;
  (* Path.write_text(text, encoding="utf-8") *)
  write_text : FS → list string → string → option FS;
  (* SequenceMatcher(None, a, b).get_grouped_opcodes(3) *)
  get_grouped_opcodes : list string → list string → list (list Difflib.opcode);
}.

(** *** Configuration: [python_module.patch_editing] of config.json.
    A field is [None] when the key is absent. *)
Record PatchCfg := mkPatchCfg {
  max_new_code_chars : option Z;
  require_code_eval_pass : option bool;
  require_write_token : option bool;
  write_token_ttl_seconds : option Z;
  workspace_root_cfg : option string;
  write_to_file : option bool;
  max_changes_by_required_unlock : option (gmap string Z);
}.

(** *** The audit store: the rows of the [patches] table *)
Inductive PatchMeta :=
| MetaApply (error : option EditorEngine.ErrorKind)  (* {"op": "apply", "error": ...} *)
| MetaGenerateBlocked                                 (* {"op": "generate", "blocked": True} *)
| MetaGenerateCodeEvalNotOk      (* {"op": "generate", "blocked_reason": "code_eval_not_ok"} *)
| MetaGenerate.                                       (* {"op": "generate"} *)

Record PatchRow := mkPatchRow {
  row_requested_action : string;
  row_required_unlock : string;
  row_allowed : bool;
  row_old_hash : string;
  row_new_hash : string;
  row_diff_text : string;
  row_meta : PatchMeta;
}.

(** *** The effects of a request, in program order *)
Inductive Event :=
| EvReadText (target : list string)
| EvDiffStats (required_unlock diff_text : string) (total_changes : nat)
| EvIssueToken (required_unlock diff_text token : string)
| EvVerifyToken (token : string) (ok : bool)
| EvLogPatch (row : PatchRow)
| EvMkdir (target : list string)
| EvWriteText (target : list string) (text : string).

Section Handler.
Context `{Learning.Scorer} `{Token.Lib} `{OS}.

(** *** The application object [APP]: the model, the configuration, the
    signing secret, the resolved workspace root, the rows of the audit
    store, the file system, and the effects so far. *)
Record App := mkApp {
  model : Learning.LearningModel;
  patch_cfg : PatchCfg;
  write_token_secret : string;
  workspace_root : list string;
  data : list PatchRow;
  fs : FS;
  trace : list Event;
}.

Definition set_model (m : Learning.LearningModel) (app : App) : App :=
  mkApp m (patch_cfg app) (write_token_secret app) (workspace_root app)
        (data app) (fs app) (trace app).

Definition set_data (d : list PatchRow) (app : App) : App :=
  mkApp (model app) (patch_cfg app) (write_token_secret app) (workspace_root app)
        d (fs app) (trace app).

Definition set_fs (f : FS) (app : App) : App :=
  mkApp (model app) (patch_cfg app) (write_token_secret app) (workspace_root app)
        (data app) f (trace app).

Definition set_trace (t : list Event) (app : App) : App :=
  mkApp (model app) (patch_cfg app) (write_token_secret app) (workspace_root app)
        (data app) (fs app) t.

Definition emit (e : Event) : M App unit :=
  modify (λ app, set_trace (trace app ++ [e]) app).

(** [App.resolve_workspace_path]; [None] where it raises. *)
Definition resolve_workspace_path (fs : FS) (workspace_root : list string)
           (filename : string) : option (list string) :=
  let p := Path filename in
  if is_absolute p then None
  else
    target ← resolve fs (workspace_root ++ parts p);
    (* target.relative_to(self.workspace_root) *)
    if bool_decide (workspace_root `prefix_of` target) then Some target
    else None.

(** [DataProcessor.log_patch] *)
Definition log_patch (row : PatchRow) : M App unit :=
  modify (λ app, set_data (data app ++ [row]) app);;
  emit (EvLogPatch row).

(** [Handler._diff_stats]: (additions, deletions) *)
Definition _diff_stats (diff_text : string) : nat * nat :=
  fold_left
    (λ '(additions, deletions) line,
       if String.eqb line EmptyString then (additions, deletions)
       else if Py.startswith line "+++" || Py.startswith line "---"
               || Py.startswith line "@@" then (additions, deletions)
       else if Py.startswith line "+" then (S additions, deletions)
       else if Py.startswith line "-" then (additions, S deletions)
       else (additions, deletions))
    (Py.splitlines false diff_text) (0, 0)%nat.

Definition total_changes (stats : nat * nat) : nat := (stats.1 + stats.2)%nat.

(** [Handler._max_changes_for_unlock]; the configured values are integers. *)
Definition _max_changes_for_unlock (patch_cfg : PatchCfg)
           (required_unlock : string) : option Z :=
  default ∅ (max_changes_by_required_unlock patch_cfg) !! required_unlock.

(** The body of a POST /edit request; [Some s] is a key that is present
    ([null] reads as the empty string). *)
Record EditRequest := mkEditRequest {
  req_text : option string;
  req_expected_intent : option string;
  req_requested_action : option string;
  req_tests : option string;
  req_filename : option string;
  req_diff : option string;
  req_base_code : option string;
  req_write_token : option string;
  req_old_code : option string;
  req_new_code : option string;
}.

(** What one request reads from the environment: [int(time.time())] and
    [secrets.token_urlsafe(12)]. *)
Record Env := mkEnv {
  env_now : Z;
  env_nonce : string;
}.

(** The replies of [_send_json]; [state] and [message] are left out.
    [ServerError] is the case where an exception leaves [do_POST]: the
    handler sends no reply. *)
Inductive Response :=
| CapabilityLocked (report : Learning.ScoreReport)
| PatchTooLarge (filename : string) (stats : nat * nat) (report : Learning.ScoreReport)
| WriteTokenRequired (reason : option string) (report : Learning.ScoreReport)
| PatchApplyFailed (details : option EditorEngine.ErrorKind)
| FileWriteFailed (filename : string)
| Applied (new_code filename : string) (wrote_file : bool) (stats : nat * nat)
          (report : Learning.ScoreReport)
| FileReadFailed (filename : string)
| NewCodeTooLarge (max_chars : Z)
| ProvideOldAndNew
| CodeEvalBlocked (report : Learning.ScoreReport)
| Generated (filename base_code diff : string) (write_token : option string)
            (expires_in_sec : option Z) (stats : nat * nat)
            (report : Learning.ScoreReport)
| ServerError.

(** The status code of the reply; 0 where none is sent. *)
Definition status (r : Response) : Z :=
  match r with
  | CapabilityLocked _ | PatchTooLarge _ _ _ => 403
  | WriteTokenRequired _ _ => 401
  | Applied _ _ _ _ _ | Generated _ _ _ _ _ _ _ => 200
  | ServerError => 0
  | _ => 400
  end.

Definition error_text (r : Response) : option string :=
  match r with
  | CapabilityLocked _ => Some "Capability locked"
  | PatchTooLarge _ _ _ => Some "patch_too_large"
  | WriteTokenRequired _ _ => Some "write_token_required"
  | PatchApplyFailed _ => Some "Patch apply failed"
  | FileWriteFailed _ => Some "file_write_failed"
  | FileReadFailed _ => Some "file_read_failed"
  | NewCodeTooLarge max_chars =>
      Some ("new_code too large (>" +:+ Py.str_of_int max_chars +:+ " chars).")
  | ProvideOldAndNew => Some "Provide old_code and new_code."
  | CodeEvalBlocked _ =>
      Some "Code evaluation did not pass; patch generation blocked by policy."
  | Applied _ _ _ _ _ | Generated _ _ _ _ _ _ _ | ServerError => None
  end.

(** [x.strip() or None] on [req.get(key) or ""] *)
Definition strip_or_none (x : option string) : option string :=
  match Py.strip (default EmptyString x) with
  | EmptyString => None
  | s => Some s
  end.

(** [APP.model.evaluate(...)] *)
Definition model_evaluate (text : string)
           (expected_intent code tests requested_action : option string)
  : M App (option Learning.ScoreReport) :=
  zoom model set_model
       (Learning.evaluate text expected_intent code tests requested_action).

Definition op_name : string := "edit_apply_unified_diff".

(** The ceiling check that both flows make once the stats are computed. *)
Definition over_ceiling (patch_cfg : PatchCfg) (required_unlock : string)
           (stats : nat * nat) : bool :=
  match _max_changes_for_unlock patch_cfg required_unlock with
  | Some max_changes => (max_changes <? Z.of_nat (total_changes stats))%Z
  | None => false
  end.

(** *** [do_POST], path [/edit], with [diff] and [base_code] in the body:
    the patch-application flow *)
Definition edit_apply (env : Env) (req : EditRequest)
           (text : string) (expected_intent requested_action : option string)
           (filename : string) : M App Response :=
  let base_code := default EmptyString (req_base_code req) in
  let diff_text := default EmptyString (req_diff req) in
  let write_token := default EmptyString (req_write_token req) in
  evaluated ← model_evaluate text expected_intent None None requested_action;
  match evaluated with
  | None => mret ServerError
  | Some report =>
  if negb (Learning.allowed report) then mret (CapabilityLocked report)
  else
    let stats := _diff_stats diff_text in
    emit (EvDiffStats (Learning.required_unlock report) diff_text
                      (total_changes stats));;
    app ← get;
    if over_ceiling (patch_cfg app) (Learning.required_unlock report) stats then
      mret (PatchTooLarge filename stats report)
    else
      let verdict :=
        if default true (require_write_token (patch_cfg app)) then
          Token.verify_write_token (write_token_secret app) (env_now env)
            write_token op_name (Learning.required_unlock report)
            filename base_code diff_text
        else Some (true, None) in
      match verdict with
      | None => mret ServerError
      | Some (false, why) =>
          emit (EvVerifyToken write_token false);;
          mret (WriteTokenRequired why report)
      | Some (true, _) =>
          (if default true (require_write_token (patch_cfg app))
           then emit (EvVerifyToken write_token true) else mret tt);;
          match EditorEngine.apply_unified_diff base_code diff_text with
          | None => mret ServerError
          | Some pr =>
          match EditorEngine.ok pr, EditorEngine.new_text pr with
          | true, Some new_text =>
              log_patch (mkPatchRow (Learning.requested_action report)
                                    (Learning.required_unlock report) true
                                    (Token.sha256_text base_code)
                                    (Token.sha256_text new_text)
                                    diff_text (MetaApply None));;
              if default true (write_to_file (patch_cfg app)) then
                app ← get;
                match resolve_workspace_path (fs app) (workspace_root app) filename with
                | None => mret (FileWriteFailed filename)
                | Some target =>
                    let parent := take (length target - 1) target in
                    emit (EvMkdir parent);;
                    match mkdir_parents (fs app) parent with
                    | None => mret (FileWriteFailed filename)
                    | Some fs1 =>
                        modify (set_fs fs1);;
                        emit (EvWriteText target new_text);;
                        match write_text fs1 target new_text with
                        | None => mret (FileWriteFailed filename)
                        | Some fs2 =>
                            modify (set_fs fs2);;
                            mret (Applied new_text filename true stats report)
                        end
                    end
                end
              else mret (Applied new_text filename false stats report)
          | _, _ =>
              log_patch (mkPatchRow (Learning.requested_action report)
                                    (Learning.required_unlock report) true
                                    (Token.sha256_text base_code)
                                    (Token.sha256_text base_code)
                                    diff_text (MetaApply (EditorEngine.error pr)));;
              mret (PatchApplyFailed (EditorEngine.error pr))
          end
          end
      end
  end.

(** *** The patch-generation flow *)

(** [if not old_code and filename:] the old code is read from the
    workspace file when the request carries none.  The result is the old
    code and the read that was made; [None] where the block raises. *)
Definition read_old_code (fs : FS) (workspace_root : list string)
           (filename old_code : string) : option (string * list Event) :=
  if String.eqb old_code EmptyString then
    match resolve_workspace_path fs workspace_root filename with
    | None => None
    | Some target =>
        if path_exists fs target
        then (λ t, (t, [EvReadText target])) <$> read_text fs target
        else Some (old_code, [])
    end
  else Some (old_code, []).

Definition edit_generate (env : Env) (req : EditRequest)
           (text : string) (expected_intent requested_action : option string)
           (filename : string) : M App Response :=
  let old_code := default EmptyString (req_old_code req) in
  let new_code := default EmptyString (req_new_code req) in
  app ← get;
  match read_old_code (fs app) (workspace_root app) filename old_code with
  | None => mret (FileReadFailed filename)
  | Some (old_code, reads) =>
      modify (λ app, set_trace (trace app ++ reads) app);;
      let max_chars := default 200000%Z (max_new_code_chars (patch_cfg app)) in
      if (max_chars <? Z.of_nat (String.length new_code))%Z then
        mret (NewCodeTooLarge max_chars)
      else if String.eqb old_code EmptyString && String.eqb new_code EmptyString then
        mret ProvideOldAndNew
      else
        evaluated ← model_evaluate text expected_intent (Some old_code)
                                   (req_tests req) requested_action;
        match evaluated with
        | None => mret ServerError
        | Some report =>
        if negb (Learning.allowed report) then
          log_patch (mkPatchRow (Learning.requested_action report)
                                (Learning.required_unlock report) false
                                (Token.sha256_text old_code)
                                (Token.sha256_text old_code)
                                EmptyString MetaGenerateBlocked);;
          mret (CapabilityLocked report)
        else if default true (require_code_eval_pass (patch_cfg app))
                && negb (from_option Learning.ce_ok false (Learning.code_eval report))
        then
          log_patch (mkPatchRow (Learning.requested_action report)
                                (Learning.required_unlock report) true
                                (Token.sha256_text old_code)
                                (Token.sha256_text old_code)
                                EmptyString MetaGenerateCodeEvalNotOk);;
          mret (CodeEvalBlocked report)
        else
          let diff_text :=
            EditorEngine.generate_unified_diff get_grouped_opcodes old_code new_code in
          let old_h := Token.sha256_text old_code in
          let new_h := Token.sha256_text new_code in
          let stats := _diff_stats diff_text in
          emit (EvDiffStats (Learning.required_unlock report) diff_text
                            (total_changes stats));;
          if over_ceiling (patch_cfg app) (Learning.required_unlock report) stats then
            mret (PatchTooLarge filename stats report)
          else
            minted ←
              (if default true (require_write_token (patch_cfg app)) then
                 let '(token, ttl) :=
                   Token.issue_write_token
                     (write_token_secret app)
                     (default 120%Z (write_token_ttl_seconds (patch_cfg app)))
                     (env_now env) (env_nonce env) op_name
                     (Learning.required_unlock report) filename old_code diff_text in
                 emit (EvIssueToken (Learning.required_unlock report) diff_text token);;
                 mret (Some token, Some ttl)
               else mret (None, None));
            log_patch (mkPatchRow (Learning.requested_action report)
                                  (Learning.required_unlock report) true
                                  old_h new_h diff_text MetaGenerate);;
            mret (Generated filename old_code diff_text minted.1 minted.2 stats report)
        end
  end.

(** [str(req.get("filename") or "output_script.py")] *)
Definition request_filename (req : EditRequest) : string :=
  match default EmptyString (req_filename req) with
  | EmptyString => "output_script.py"
  | f => f
  end.

(** *** [do_POST], path [/edit], from the parsed body on *)
Definition do_POST_edit (env : Env) (req : EditRequest) : M App Response :=
  let text :=
    match Py.strip (default EmptyString (req_text req)) with
    | EmptyString => "(no-text)"
    | t => t
    end in
  let expected_intent := strip_or_none (req_expected_intent req) in
  let requested_action := strip_or_none (req_requested_action req) in
  let filename := request_filename req in
  match req_diff req, req_base_code req with
  | Some _, Some _ => edit_apply env req text expected_intent requested_action filename
  | _, _ => edit_generate env req text expected_intent requested_action filename
  end.

End Handler.

End Server.

(** ** A stand-in for the library functions of the token authority

    An implementation of [Token.Lib] that computes, for the examples:
    values are packed through their [Countable] encoding. *)

Module TokenToy.
Import Token.

Fixpoint bits (p : positive) : string :=
  match p with
  | xH => EmptyString
  | xO p' => String "0"%char (bits p')
  | xI p' => String "1"%char (bits p')
  end.

Fixpoint unbits (s : string) : option positive :=
  match s with
  | EmptyString => Some xH
  | String c s' =>
      p ← unbits s';
      if Ascii.eqb c "0"%char then Some (xO p)
      else if Ascii.eqb c "1"%char then Some (xI p)
      else None
  end.

Definition pack `{Countable A} (tag : ascii) (x : A) : string :=
  String tag (bits (encode x)).

Definition unpack `{Countable A} (tag : ascii) (s : string) : option A :=
  match s with
  | String c r => if Ascii.eqb c tag then unbits r ≫= decode else None
  | EmptyString => None
  end.

Definition payload_tuple (p : Payload) :=
  (p_v p, p_op p, p_ru p, p_iat p, p_exp p, p_nonce p, p_fn p,
   p_base_hash p, p_diff_hash p).

Definition tuple_payload
  (t : Z * string * string * Z * Z * string * string * string * string) : Payload :=
  let '(v, op, ru, iat, exp, nonce, fn, bh, dh) := t in
  mkPayload v op ru iat exp nonce fn bh dh.

Definition toy_lib : Lib := {|
  sha256_hexdigest := λ b, b;
  hmac_sha256 := λ key msg, String "h"%char (key +:+ msg);
  urlsafe_b64encode := pack "B"%char;
  urlsafe_b64decode := λ s, unpack "B"%char (rstrip_pad s);
  json_dumps := λ p, pack "J"%char (payload_tuple p);
  json_loads := λ s, (λ t, JObject (payload_dict (tuple_payload t))) <$> unpack "J"%char s;
|}.

End TokenToy.

(** ** The effects of a request, as the specification words them *)

Module ServerSpec.
Import Server.

(** The effects of one request: what it appended to the trace. *)
Definition new_events `{OS} (app app' : App) : list Event :=
  drop (length (trace app)) (trace app').

(** A read of a workspace file. *)
Definition is_read (e : Event) : Prop :=
  match e with EvReadText _ => True | _ => False end.

(** A change of the file system: a directory made, a file written. *)
Definition is_fs_effect (e : Event) : Prop :=
  match e with EvMkdir _ | EvWriteText _ _ => True | _ => False end.

(** A reply that reports an error: a status from 400 to 499 and an error
    text. *)
Definition is_error_reply (r : Response) : Prop :=
  is_Some (error_text r) ∧ (400 ≤ status r < 500)%Z.

End ServerSpec.

(** ** A stand-in for the operating system, and an application for
    the examples *)

Module ServerToy.
Import State Server.

(** [Path.resolve()] without symbolic links: [".."] removes the part
    before it. *)
Definition normalize (parts : list string) : list string :=
  foldl (λ acc part,
           if String.eqb part ".." then take (length acc - 1) acc
           else acc ++ [part])
        [] parts.

(** Files are a map from paths to texts; the matcher replaces the whole
    text when the texts differ. *)
Definition toy_os : OS := {|
  FS := gmap (list string) string;
  resolve := λ _ p, Some (normalize p);
  path_exists := λ fs p, bool_decide (is_Some (fs !! p));
  read_text := λ fs p, fs !! p;
  mkdir_parents := λ fs _, Some fs;
  write_text := λ fs p t, Some (<[p := t]> fs);
  get_grouped_opcodes := λ a b,
    if bool_decide (a = b) then []
    else [[(Difflib.Replace, 0, length a, 0, length b)]]%nat;
|}.

Definition toy_cfg (write_to_file require_write_token : option bool) : PatchCfg :=
  mkPatchCfg None None require_write_token None None write_to_file
             (Some (<["minor_edits" := 1%Z]> ∅)).

Definition score_report (s : float) : Learning.ScoreReport :=
  Learning.mkScoreReport "" "" None "" "" false s ∅ ∅ ∅ None.

(** A model with no history, and one whose single score is 1.0. *)
Definition novice : Learning.LearningModel := LearningSpec.fresh_model None ∅.
Definition expert : Learning.LearningModel :=
  exec (Learning.update_progress (score_report 1%float)) novice.

Definition toy_app (m : Learning.LearningModel) (cfg : PatchCfg)
  : @App toy_os :=
  @mkApp toy_os m cfg "secret" ["srv"; "workspace"] [] ∅ [].

Definition toy_env : Env := mkEnv 1000 "nonce".

Definition LF : string := EditorEngine.LF.

(** A request that applies a two-line diff to ["a\n"]. *)
Definition apply_request (action filename : string) : EditRequest :=
  mkEditRequest (Some "please edit") None (Some action) None (Some filename)
                (Some ("@@ -1 +1 @@" +:+ LF +:+ "-a" +:+ LF +:+ "+b" +:+ LF))
                (Some ("a" +:+ LF)) None None None.

(** A request that applies a diff whose header has a number of 4301
    digits. *)
Definition long_number_request (filename : string) : EditRequest :=
  mkEditRequest (Some "please edit") None (Some "refactor") None (Some filename)
                (Some (EditorTests.long_header_diff 4301))
                (Some ("a" +:+ LF)) None None None.

(** A request that asks for the diff from ["a\n"] to ["b\n"]. *)
Definition generate_request (action filename : string) : EditRequest :=
  mkEditRequest (Some "please edit") None (Some action) None (Some filename)
                None None None (Some ("a" +:+ LF)) (Some ("b" +:+ LF)).

Definition run_toy (req : EditRequest) (app : @App toy_os)
  : Response * @App toy_os :=
  @do_POST_edit LearningSpec.perfect_scorer TokenToy.toy_lib toy_os
                toy_env req app.

End ServerToy.

(** ** learning_model.py: the intent classifier

    [_tokenize], [_predict_intent], [_score_intent] and [_authority_level]
    of [LearningModel], behind the [Scorer] interface above. *)

Module Intent.
Import Learning.

(** [ch.lower()] below U+0100: the ASCII capitals and the capitals of
    Latin-1 (U+00C0 to U+00DE without the multiplication sign) move up by
    32; every other character is its own lower case. *)
Definition lower (c : ascii) : ascii :=
  let n := Py.code c in
  if ((65 <=? n) && (n <=? 90)
      || (192 <=? n) && (n <=? 222) && negb (n =? 215))%nat
  then ascii_of_nat (n + 32)
  else c.

(** [s.lower()] *)
Fixpoint str_lower (s : string) : string :=
  match s with
  | String c s' => String (lower c) (str_lower s')
  | EmptyString => EmptyString
  end.

(** [ch.isalnum()] below U+0100: digits and ASCII letters, the ordinal
    indicators, the micro sign, the superscript digits, the three vulgar
    fractions, and the Latin-1 letters. *)
Definition isalnum (c : ascii) : bool :=
  let n := Py.code c in
  ((48 <=? n) && (n <=? 57) || (65 <=? n) && (n <=? 90)
   || (97 <=? n) && (n <=? 122)
   || (n =? 170) || (n =? 178) || (n =? 179) || (n =? 181)
   || (n =? 185) || (n =? 186) || (188 <=? n) && (n <=? 190)
   || (192 <=? n) && (n <=? 214) || (216 <=? n) && (n <=? 246)
   || (248 <=? n) && (n <=? 255))%nat.

(** [ch.isalnum() or ch in ("_", "-")] *)
Definition is_word_char (ch : ascii) : bool :=
  isalnum ch || Ascii.eqb ch "_"%char || Ascii.eqb ch "-"%char.

(** The loop of [_tokenize]: [buf] are the tokens so far, [w] the
    characters of the token being read. *)
Fixpoint tokenize_loop (s : string) (buf : list string) (w : string)
  : list string :=
  match s with
  | String ch s' =>
      if is_word_char ch then tokenize_loop s' buf (w +:+ String ch EmptyString)
      else if negb (String.eqb w EmptyString)
      then tokenize_loop s' (buf ++ [w]) EmptyString
      else tokenize_loop s' buf w
  | EmptyString =>
      if negb (String.eqb w EmptyString) then buf ++ [w] else buf
  end.

(** [LearningModel._tokenize] *)
Definition _tokenize (text : string) : list string :=
  tokenize_loop (str_lower text) [] EmptyString.

(** [a / b] on two list lengths (exact below 2^53). *)
Definition truediv (a b : nat) : float :=
  (float_of_nat a / float_of_nat b)%float.

(** [set(spec.get("keywords") or [])]: the distinct keywords. *)
Definition kws_of (spec : KeywordSpec) : list string :=
  remove_dups (keywords spec).

(** [sum(1 for t in tokens if t in kws)] *)
Definition count_hits (kws tokens : list string) : nat :=
  length (filter (λ t, t ∈ kws) tokens).

(** [LearningModel._predict_intent]; [keyword_map] are the items of the
    dictionary in its order. *)
Definition _predict_intent (keyword_map : list (string * KeywordSpec))
           (tokens : list string) : string * float :=
  let '(best_intent, best_score) :=
    fold_left
      (λ '(best_intent, best_score) '(intent, spec),
         let kws := kws_of spec in
         let weight := default 1.0%float (weight spec) in
         match kws with
         | [] => (best_intent, best_score)
         | _ =>
             let hits := count_hits kws tokens in
             let raw := truediv hits (Nat.max 1 (length kws)) in
             let score := (raw * weight)%float in
             if PrimFloat.ltb best_score score then (intent, score)
             else (best_intent, best_score)
         end)
      keyword_map ("unknown", 0.0%float) in
  (best_intent, py_min 1.0 best_score).

(** [self.keyword_map.get(predicted_intent, {})] on the items of the
    dictionary: keys are distinct. *)
Fixpoint keyword_map_get (keyword_map : list (string * KeywordSpec))
         (key : string) : option KeywordSpec :=
  match keyword_map with
  | (k, spec) :: rest =>
      if String.eqb k key then Some spec else keyword_map_get rest key
  | [] => None
  end.

(** [LearningModel._score_intent] *)
Definition _score_intent (standards : Standards)
           (keyword_map : list (string * KeywordSpec))
           (predicted_intent : string) (expected_intent : option string)
           (confidence : float) (tokens : list string) : IntentBreakdown :=
  let weights := weights standards in
  let w_correct := default 0.55%float (weights !! "correctness") in
  let w_clarity := default 0.20%float (weights !! "clarity") in
  let w_safety := default 0.15%float (weights !! "safety") in
  let w_conf := default 0.10%float (weights !! "confidence") in
  let correctness :=
    match expected_intent with
    | None => 0.5%float
    | Some e => if String.eqb predicted_intent e then 1.0%float else 0.0%float
    end in
  let min_tokens := default 4%Z (min_tokens_for_full_clarity standards) in
  let token_factor :=
    py_min 1.0 (truediv (length tokens) (Z.to_nat (Z.max 1 min_tokens))) in
  let kws :=
    match keyword_map_get keyword_map predicted_intent with
    | Some spec => kws_of spec
    | None => []
    end in
  let any_hit :=
    match kws with
    | [] => 0.0%float
    | _ => if existsb (λ t, bool_decide (t ∈ kws)) tokens
           then 1.0%float else 0.0%float
    end in
  let clarity := (0.5 * token_factor + 0.5 * any_hit)%float in
  let safety := 1.0%float in
  let conf_score := py_max 0.0 (py_min 1.0 confidence) in
  let total :=
    (w_correct * correctness + w_clarity * clarity
     + w_safety * safety + w_conf * conf_score)%float in
  mkIntentBreakdown correctness clarity safety conf_score
                    (py_max 0.0 (py_min 1.0 total)).

(** The scorer of [LearningModel]: the three methods above and the code
    evaluator that the model owns. *)
Section Scorer.
Variable code_evaluator_evaluate :
  CodePolicy → string → option string → option CodeEvalResult.

Definition scorer : Scorer := {|
  Learning._tokenize := _tokenize;
  Learning._predict_intent := _predict_intent;
  Learning._score_intent := _score_intent;
  Learning.code_evaluator_evaluate := code_evaluator_evaluate;
|}.
End Scorer.

(** What [_authority_level] returns. *)
Record Authority := mkAuthority {
  level : string;
  range : float * float;
  capabilities : list string;
}.

(** [LearningModel._authority_level] *)
Definition _authority_level (self : LearningModel) (percent : float)
  : Authority :=
  let t_assist := default 0.50%float (thresholds self !! "assist_mode") in
  let t_junior := default 0.70%float (thresholds self !! "minor_edits") in
  let t_senior := default 0.90%float (thresholds self !! "refactor_lint") in
  let t_arch := default 1.00%float (thresholds self !! "autonomous_editing") in
  if ge percent t_arch then
    mkAuthority "Architect" (t_arch, 1.0%float) ["autonomous_edit"]
  else if ge percent t_senior then
    mkAuthority "Senior Dev" (t_senior, t_arch) ["refactor"; "lint"]
  else if ge percent t_junior then
    mkAuthority "Junior Dev" (t_junior, t_senior) ["minor_edit"]
  else if ge percent t_assist then
    mkAuthority "Advisor" (t_assist, t_junior) ["assist"]
  else
    mkAuthority "Observer" (0.0%float, t_assist) [].

End Intent.

(** ** What the facts about the intent scorer speak of *)

Module IntentSpec.
Import Learning Intent.
Import Token (forallb_string).

(** A token: not empty, made of word characters, in lower case. *)
Definition is_token (t : string) : Prop :=
  t ≠ EmptyString ∧ forallb_string is_word_char t = true ∧ str_lower t = t.

Definition is_part (w : string) : Prop :=
  forallb_string is_word_char w = true ∧ str_lower w = w.

(** The state of the loop of [_predict_intent] is the initial one, or an
    intent of the map with a score above zero. *)
Definition predict_inv (keys : list string) (st : string * float) : Prop :=
  st = ("unknown", 0.0%float) ∨ (st.1 ∈ keys ∧ PrimFloat.ltb 0 st.2 = true).

(** The body of the loop of [_predict_intent]. *)
Definition predict_step (tokens : list string)
  : string * float → string * KeywordSpec → string * float :=
  λ '(best_intent, best_score) '(intent, spec),
    let kws := kws_of spec in
    let weight := default 1.0%float (weight spec) in
    match kws with
    | [] => (best_intent, best_score)
    | _ =>
        let hits := count_hits kws tokens in
        let raw := truediv hits (Nat.max 1 (length kws)) in
        let score := (raw * weight)%float in
        if PrimFloat.ltb best_score score then (intent, score)
        else (best_intent, best_score)
    end.

End IntentSpec.

(** ** code_evaluator.py

    [CodeEvaluator.evaluate].  The parser and the compiler of Python are
    an interface: [ast.parse] followed by [ast.walk] gives the nodes of
    the tree, of which the evaluator looks at the imports, the names, the
    function definitions and the loops. *)

Module CodeEval.
Import Learning.

Inductive Node :=
| Import (names : list string)          (* ast.Import: the name of every alias *)
| ImportFrom (module : option string)   (* ast.ImportFrom: node.module *)
| Name (id : string)                    (* ast.Name: node.id *)
| FunctionDef
| AsyncFunctionDef
| For
| While
| Other.

Class Python := {
  (* list(ast.walk(ast.parse(code))); [inl e] when ast.parse raises e *)
  ast_parse : string → string + list Node;
  (* compile(code, "<string>", "exec"): the exception, if one is raised *)
  py_compile : string → option string;
}.

(** An int as an exact binary number: the mantissa is as long as the
    int. *)
Definition exact_of_Z (z : Z) : spec_float :=
  match z with
  | Z0 => S754_zero false
  | Zpos p => S754_finite false p 0
  | Zneg p => S754_finite true p 0
  end.

(** [a / b] on ints: the float that is nearest to the quotient, ties to
    even; [None] is ZeroDivisionError.  (Python raises OverflowError
    where the quotient is beyond the floats; the quotients of
    [evaluate] are below the number of nodes of the tree.) *)
Definition int_truediv (a b : Z) : option float :=
  if (b =? 0)%Z then None
  else Some (SF2Prim (SFdiv prec emax (exact_of_Z a) (exact_of_Z b))).

(** The loop over the imports of the tree. *)
Definition imports_found (walk : list Node) : list string :=
  concat (map (λ node,
                 match node with
                 | Import names => names
                 | ImportFrom (Some module) =>
                     if String.eqb module EmptyString then [] else [module]
                 | _ => []
                 end) walk).

(** [imp == b or imp.startswith(b + ".")] *)
Definition import_matches (imp b : string) : bool :=
  String.eqb imp b || Py.startswith imp (b +:+ ".").

(** The distinct ids of the [ast.Name] nodes. *)
Definition names_of (walk : list Node) : list string :=
  remove_dups (concat (map (λ node,
                              match node with
                              | Name id => [id]
                              | _ => []
                              end) walk)).

Definition is_complex (node : Node) : bool :=
  match node with
  | FunctionDef | AsyncFunctionDef | For | While => true
  | _ => false
  end.

(** [CodeEvaluator.evaluate]; [None] where an exception leaves it. *)
Definition evaluate `{Python} (policy : CodePolicy) (code : string)
           (tests : option string) : option CodeEvalResult :=
  let weights := policy_weights policy in
  let max_complexity := default 20%Z (max_complexity policy) in
  let forbidden := forbidden_imports policy in
  let dangerous := dangerous_builtins policy in
  match ast_parse code with
  | inl e =>
      Some (mkCodeEvalResult false 0.0%float (<["ast_parse" := 0.0%float]> ∅)
                     EmptyString [AstError e] (mkMeta None None None))
  | inr walk =>
      let ast_nodes := length walk in
      ratio ← int_truediv (Z.of_nat ast_nodes)
                          (Z.max 1000 (max_complexity * 50));
      let ast_score := py_max 0.0 (py_min 1.0 (1.0 - ratio)%float) in
      let bad_imports :=
        filter (λ imp, existsb (import_matches imp) forbidden = true)
               (imports_found walk) in
      let stderr1 :=
        match bad_imports with
        | [] => []
        | _ => [ForbiddenImports bad_imports]
        end in
      let policy_score1 :=
        match bad_imports with
        | [] => 1.0%float
        | _ => 0.0%float
        end in
      let bad_builtins := filter (λ n, n ∈ dangerous) (names_of walk) in
      let stderr2 :=
        match bad_builtins with
        | [] => stderr1
        | _ => stderr1 ++ [DangerousBuiltins bad_builtins]
        end in
      let policy_score :=
        match bad_builtins with
        | [] => policy_score1
        | _ => 0.0%float
        end in
      let complexity := length (filter (λ n, is_complex n = true) walk) in
      '(stderr3, runtime_score) ←
        (if (max_complexity <? Z.of_nat complexity)%Z then
           excess ← int_truediv (Z.of_nat complexity - max_complexity)
                                max_complexity;
           Some (stderr2 ++ [ComplexityAbove complexity max_complexity],
                 py_max 0.0 (1.0 - excess)%float)
         else Some (stderr2, 1.0%float));
      let '(stderr4, compile_score) :=
        match py_compile code with
        | None => (stderr3, 1.0%float)
        | Some e => (stderr3 ++ [CompileError e], 0.0%float)
        end in
      let tests_present := nonblank tests in
      let tests_score := if tests_present then 1.0%float else 0.5%float in
      let w_ast := default 0.2%float (weights !! "ast_parse") in
      let w_compile := default 0.15%float (weights !! "compile") in
      let w_policy := default 0.2%float (weights !! "policy") in
      let w_runtime := default 0.25%float (weights !! "runtime") in
      let w_tests := default 0.2%float (weights !! "tests") in
      let score :=
        (w_ast * ast_score + w_compile * compile_score + w_policy * policy_score
         + w_runtime * runtime_score + w_tests * tests_score)%float in
      let score := py_max 0.0 (py_min 1.0 score) in
      let ok :=
        ge score (default 0.5%float (pass_threshold policy))
        && PrimFloat.ltb 0.0 policy_score
        && PrimFloat.ltb 0.0 compile_score in
      Some (mkCodeEvalResult ok score
              (<["ast_parse" := ast_score]>
               (<["compile" := compile_score]>
                (<["policy" := policy_score]>
                 (<["runtime" := runtime_score]>
                  (<["tests" := tests_score]> ∅)))))
              EmptyString stderr4
              (mkMeta (Some ast_nodes) (Some complexity) (Some tests_present)))
  end.

End CodeEval.

(** A stand-in for the parser, for the examples. *)
Module CodeEvalToy.
Import CodeEval.

Definition toy_python : Python := {|
  ast_parse code :=
    if String.eqb code "import os.path" then
      inr [Other; Import ["os.path"]; Other]
    else if String.eqb code "def f(): pass" then
      inr [Other; FunctionDef; Other; Other]
    else if String.eqb code "x = 1" then
      inr [Other; Other; Name "x"; Other; Other]
    else inl "invalid syntax";
  py_compile code := None;
|}.

Definition no_os : Learning.CodePolicy :=
  Learning.mkCodePolicy ∅ None ["os"] ["eval"] None.

Definition flat : Learning.CodePolicy :=
  Learning.mkCodePolicy ∅ (Some 0%Z) [] [] None.

End CodeEvalToy.

(** ** learning_model.py and code_evaluator.py together

    The scorer that a [LearningModel] has: its own classifier and the
    [CodeEvaluator] that [__init__] and [update_config] construct from
    the code policy. *)

Module ModelScorer.

Definition model_scorer `{CodeEval.Python} : Learning.Scorer :=
  Intent.scorer CodeEval.evaluate.

(** The model of the examples with a code policy whose [max_complexity]
    is 0. *)
Definition flat_model : Learning.LearningModel :=
  Learning.init (Learning.mkStandards None ∅ ∅ None) ∅ [] CodeEvalToy.flat
                LearningSpec.default_gating.

End ModelScorer.

(** ** data_processor.py

    The SQLite database of [DataProcessor]: the rows of its three tables.
    The [id] columns are left out; the JSON columns hold the value that
    is dumped.  Every method runs in one transaction ([with
    self._connect() as conn]): where a statement raises, the transaction
    is rolled back and the exception leaves the method ([None]). *)

Module DataStore.

Record EventRow := mkEventRow {
  ev_ts_utc : Z;
  ev_text : string;
  ev_predicted_intent : string;
  ev_expected_intent : option string;
  ev_score : float;
  ev_breakdown : gmap string float;
  ev_unlocks : gmap string bool;
}.

Record ProgressRow := mkProgressRow {
  pr_ts_utc : Z;
  cumulative_score : float;
  samples : Z;
}.

Record PatchRow := mkPatchRow {
  pa_ts_utc : Z;
  pa_row : Server.PatchRow;
}.

Record DB := mkDB {
  events : list EventRow;
  progress : option ProgressRow;   (* the row with id = 1 *)
  patches : list PatchRow;
}.

(** A database file that does not exist yet. *)
Definition empty : DB := mkDB [] None [].

(** SQLite binds a float that is not a number as NULL. *)
Definition is_nan (f : float) : bool := negb (PrimFloat.eqb f f).

(** [DataProcessor._init_db]: the tables are created when they are
    missing, and so is the progress row. *)
Definition _init_db (now : Z) (db : DB) : DB :=
  match progress db with
  | None => mkDB (events db) (Some (mkProgressRow now 0.0%float 0)) (patches db)
  | Some _ => db
  end.

(** [DataProcessor.log_event]; [now1] and [now2] are the two readings of
    the clock.  The [score] and [cumulative_score] columns are NOT NULL,
    and a NaN is bound as NULL.  A row keeps the float that was bound:
    SQLite reads a negative zero back as [0.0], which [==] does not tell
    from it. *)
Definition log_event (now1 now2 : Z) (text predicted_intent : string)
           (expected_intent : option string) (score : float)
           (breakdown : gmap string float) (unlocks : gmap string bool)
           (db : DB) : option DB :=
  if is_nan score then None
  else
    let events' :=
      events db ++ [mkEventRow now1 text predicted_intent expected_intent
                               score breakdown unlocks] in
    row ← progress db;
    let cumulative := (cumulative_score row + score)%float in
    let samples := (samples row + 1)%Z in
    if is_nan cumulative then None
    else Some (mkDB events' (Some (mkProgressRow now2 cumulative samples))
                    (patches db)).

(** [DataProcessor.log_patch] *)
Definition log_patch (now : Z) (row : Server.PatchRow) (db : DB) : DB :=
  mkDB (events db) (progress db) (patches db ++ [mkPatchRow now row]).

(** [DataProcessor.get_aggregate_progress] *)
Definition get_aggregate_progress (db : DB) : option (float * Z) :=
  row ← progress db;
  Some (cumulative_score row, samples row).

(** The calls that a process makes on its database. *)
Inductive Call :=
| CallInit (now : Z)
| CallLogEvent (now1 now2 : Z) (text predicted_intent : string)
               (expected_intent : option string) (score : float)
               (breakdown : gmap string float) (unlocks : gmap string bool)
| CallLogPatch (now : Z) (row : Server.PatchRow).

(** The database after a call; a call that raises leaves it as it was. *)
Definition after (db : DB) (c : Call) : DB :=
  match c with
  | CallInit now => _init_db now db
  | CallLogEvent now1 now2 text pred exp score bd un =>
      default db (log_event now1 now2 text pred exp score bd un db)
  | CallLogPatch now row => log_patch now row db
  end.

End DataStore.

(** ** main.py: [do_POST], path [/submit] *)

Module Submit.
Import State.

(** The parts of [APP] that the handler of [/submit] uses. *)
Record Trainer := mkTrainer {
  model : Learning.LearningModel;
  data : DataStore.DB;
}.

Definition set_model (m : Learning.LearningModel) (app : Trainer) : Trainer :=
  mkTrainer m (data app).

Definition set_data (d : DataStore.DB) (app : Trainer) : Trainer :=
  mkTrainer (model app) d.

(** The body of a POST /submit request. *)
Record SubmitRequest := mkSubmitRequest {
  req_text : option string;
  req_expected_intent : option string;
  req_requested_action : option string;
  req_code : option string;
  req_tests : option string;
}.

(** The replies; [state] is the model that [get_state] reads. *)
Inductive Response :=
| ProvideTextOrCode
| CapabilityLocked (report : Learning.ScoreReport) (state : Learning.LearningModel)
| Scored (report : Learning.ScoreReport) (state : Learning.LearningModel)
| ServerError.

(** The status code of the reply; 0 where none is sent. *)
Definition status (r : Response) : Z :=
  match r with
  | ProvideTextOrCode => 400
  | CapabilityLocked _ _ => 403
  | Scored _ _ => 200
  | ServerError => 0
  end.

(** [text or "(no-text)"] *)
Definition or_no_text (text : string) : string :=
  match text with
  | EmptyString => "(no-text)"
  | _ => text
  end.

(** The handler, from the parsed body on; [now1] and [now2] are the
    readings of the clock in [log_event]. *)
Definition do_POST_submit `{Learning.Scorer} (now1 now2 : Z)
           (req : SubmitRequest) : M Trainer Response :=
  let text := Py.strip (default EmptyString (req_text req)) in
  let expected_intent := Server.strip_or_none (req_expected_intent req) in
  let requested_action := Server.strip_or_none (req_requested_action req) in
  let code := req_code req in
  let tests := req_tests req in
  if String.eqb text EmptyString && negb (Learning.nonblank code) then
    mret ProvideTextOrCode
  else
    evaluated ← zoom model set_model
                     (Learning.evaluate (or_no_text text) expected_intent
                                        code tests requested_action);
    match evaluated with
    | None => mret ServerError
    | Some report =>
        app ← get;
        match DataStore.log_event now1 now2 (or_no_text text)
                                  (Learning.predicted_intent report)
                                  (Learning.expected_intent report)
                                  (Learning.total_score report)
                                  (Learning.breakdown report)
                                  (Learning.unlocks report) (data app) with
        | None => mret ServerError
        | Some db =>
            put (set_data db app);;
            zoom model set_model (Learning.update_progress report);;
            app ← get;
            if negb (Learning.allowed report) then
              mret (CapabilityLocked report (model app))
            else mret (Scored report (model app))
        end
    end.

(** The trainer after a request. *)
Definition submit `{Learning.Scorer} (app : Trainer)
           (call : Z * Z * SubmitRequest) : Trainer :=
  let '(now1, now2, req) := call in
  exec (do_POST_submit now1 now2 req) app.

(** [App.__init__], as far as the model and the data store go, on a
    database file that does not exist yet. *)
Definition fresh (now : Z) (standards : Learning.Standards)
           (thresholds : gmap string float)
           (keyword_map : list (string * Learning.KeywordSpec))
           (code_policy : Learning.CodePolicy)
           (capability_gating : Learning.CapabilityGating) : Trainer :=
  mkTrainer (Learning.init standards thresholds keyword_map code_policy
                           capability_gating)
            (DataStore._init_db now DataStore.empty).

End Submit.

(** ** What the facts about the store speak of *)

Module DataStoreSpec.
Import Learning DataStore.

(** The progress row agrees with the events table. *)
Definition consistent (db : DB) : Prop :=
  ∃ row, progress db = Some row ∧
         samples row = Z.of_nat (length (events db)) ∧
         cumulative_score row = py_sum (map ev_score (events db)).

(** The rows of the calls of [log_patch], in order. *)
Definition logged_patches (calls : list Call) : list PatchRow :=
  omap (λ c, match c with
             | CallLogPatch now row => Some (mkPatchRow now row)
             | _ => None
             end) calls.

End DataStoreSpec.

(** ** Diffs written by hand, for the properties of [apply_unified_diff] *)

Module PatchSpec.
Import EditorEngine.

(** A text without a line boundary: one line of a diff or of a file. *)
Definition one_line (s : string) : Prop :=
  Token.forallb_string (λ c, negb (Py.is_linebreak c)) s = true.

(** A hunk that adds one line in front of the first line of the old
    text. *)
Definition insert_hunk (content : string) : string :=
  "@@ -1,0 +1 @@" +:+ LF +:+ String "+"%char content +:+ LF.

(** One such hunk for every line. *)
Definition insert_diff (contents : list string) : string :=
  Py.join EmptyString (map insert_hunk contents).

(** The lines of a text, each with its line feed. *)
Definition text_of_lines (contents : list string) : string :=
  Py.join EmptyString (map (λ c, c +:+ LF) contents).

(** A line of a diff that neither adds nor removes. *)
Definition keeps (line : string) : Prop :=
  Py.startswith line "+" = false ∧ Py.startswith line "-" = false.

(** The diff lines that [apply_unified_diff] reads as hunks. *)
Definition hunk_lines (diff_text : string) : list string :=
  skip_line "+++ " (skip_line "--- " (Py.splitlines false diff_text)).

(** The lines of [insert_diff]: a header and an addition for every
    content. *)
Definition insert_lines (contents : list string) : list string :=
  concat (map (λ c, ["@@ -1,0 +1 @@"; String "+"%char c]) contents).

(** The step of [_diff_stats] on one line. *)
Definition stats_step : nat * nat → string → nat * nat :=
  λ '(additions, deletions) line,
    if String.eqb line EmptyString then (additions, deletions)
    else if Py.startswith line "+++" || Py.startswith line "---"
            || Py.startswith line "@@" then (additions, deletions)
    else if Py.startswith line "+" then (S additions, deletions)
    else if Py.startswith line "-" then (additions, S deletions)
    else (additions, deletions).

(** *** One hunk, written as [diff -u] writes it *)

Inductive Kind := Context | Removal | Addition.

Definition kind_prefix (k : Kind) : ascii :=
  match k with
  | Context => " "%char
  | Removal => "-"%char
  | Addition => "+"%char
  end.

Definition body_line (entry : Kind * string) : string :=
  String (kind_prefix entry.1) entry.2.

(** The lines of the body that the old text has, and the ones that the
    new text has. *)
Definition old_part (body : list (Kind * string)) : list string :=
  omap (λ '(k, c), match k with Addition => None | _ => Some c end) body.

Definition new_part (body : list (Kind * string)) : list string :=
  omap (λ '(k, c), match k with Removal => None | _ => Some c end) body.

Definition hunk_header (old_start old_count new_start new_count : nat) : string :=
  "@@ -" +:+ Py.str_of_nat old_start +:+ "," +:+ Py.str_of_nat old_count
  +:+ " +" +:+ Py.str_of_nat new_start +:+ "," +:+ Py.str_of_nat new_count
  +:+ " @@".

(** A number whose decimal digits [int] converts back. *)
Definition short (n : nat) : bool :=
  (String.length (Py.str_of_nat n) <=? Py.int_max_str_digits)%nat.

(** The diff of one hunk that starts after [before] lines. *)
Definition single_hunk_diff (before : nat) (body : list (Kind * string)) : string :=
  text_of_lines
    (hunk_header (before + 1) (length (old_part body))
                 (before + 1) (length (new_part body))
     :: map body_line body).

End PatchSpec.

(** ** Requests and an operating system for the facts about [/edit] *)

Module HandlerSpec.
Import State Server ServerSpec ServerToy.

(** The text, the expected intent and the requested action that the
    handler reads from the request. *)
Definition text_of (req : EditRequest) : string :=
  match Py.strip (default EmptyString (req_text req)) with
  | EmptyString => "(no-text)"
  | t => t
  end.

(** The request that applies a generated patch: the same text, intent
    and action, and the file name, the base, the diff and the token of
    the "generated" reply. *)
Definition apply_generated (greq : EditRequest) (fn base diff token : string)
  : EditRequest :=
  mkEditRequest (req_text greq) (req_expected_intent greq)
                (req_requested_action greq) None (Some fn)
                (Some diff) (Some base) (Some token) None None.

(** An operating system whose files are a list of paths and texts, the
    last write first. *)
Fixpoint files_get (fs : list (list string * string)) (p : list string) : option string :=
  match fs with
  | (q, t) :: rest => if bool_decide (q = p) then Some t else files_get rest p
  | [] => None
  end.

Definition list_os : OS := {|
  FS := list (list string * string);
  resolve := λ _ p, Some (normalize p);
  path_exists := λ fs p, bool_decide (is_Some (files_get fs p));
  read_text := files_get;
  mkdir_parents := λ fs _, Some fs;
  write_text := λ fs p t, Some ((p, t) :: fs);
  get_grouped_opcodes := λ a b,
    if bool_decide (a = b) then []
    else [[(Difflib.Replace, 0, length a, 0, length b)]]%nat;
|}.

Definition list_app (m : Learning.LearningModel) (cfg : PatchCfg) : @App list_os :=
  @mkApp list_os m cfg "secret" ["srv"; "workspace"] [] [] [].

Definition run_list (req : EditRequest) (app : @App list_os) :=
  @do_POST_edit LearningSpec.perfect_scorer TokenToy.toy_lib list_os toy_env req app.

End HandlerSpec.

(** * Theorems *)

(** ** Facts about the Python primitives *)

Module PyFacts.
Import Py.

Lemma slice_from_nat {A} (l : list A) (n : nat) :
  slice_from l (Z.of_nat n) = drop n l.
Proof.
  unfold slice_from.
  destruct (Z.ltb_spec (Z.of_nat n) 0); [lia|].
  by rewrite Nat2Z.id.
Qed.

End PyFacts.

(** ** Facts about the editor engine *)

Module EditorFacts.
Import EditorEngine EditorTests DiffSpec.

Lemma line_differs_false old_lines pos content :
  line_differs old_lines pos content = false ↔
  old_lines !! pos = Some content.
Proof.
  unfold line_differs. rewrite orb_false_iff, negb_false_iff.
  rewrite Nat.leb_gt, String.eqb_eq, nth_lookup. split.
  - intros [Hlt Hnth]. apply lookup_lt_is_Some in Hlt as [x Hx].
    rewrite Hx in Hnth |- *. simpl in Hnth. by subst.
  - intros H. split.
    + apply lookup_lt_is_Some. eauto.
    + by rewrite H.
Qed.

Lemma line_differs_true old_lines pos content :
  line_differs old_lines pos content = true ↔
  old_lines !! pos ≠ Some content.
Proof.
  rewrite <- line_differs_false. destruct (line_differs _ _ _); split; congruence.
Qed.

Lemma end_of_hunk_eq oc nc k : end_of_hunk oc nc oc nc k = k.
Proof. unfold end_of_hunk. by rewrite !Nat.eqb_refl. Qed.

Lemma end_of_hunk_old oc nc c p k :
  oc ≠ c →
  end_of_hunk oc nc c p k = Some (inl (HunkOldCountMismatch oc c)).
Proof.
  intros Hne. unfold end_of_hunk.
  by destruct (Nat.eqb_spec oc c).
Qed.

Lemma end_of_hunk_new oc nc p k :
  nc ≠ p →
  end_of_hunk oc nc oc p k = Some (inl (HunkNewCountMismatch nc p)).
Proof.
  intros Hne. unfold end_of_hunk. rewrite Nat.eqb_refl.
  by destruct (Nat.eqb_spec nc p).
Qed.

Lemma marker_not_content c tail :
  c = " "%char ∨ c = "-"%char ∨ c = "+"%char →
  is_marker (String c tail) = false.
Proof. intros [->|[->| ->]]; reflexivity. Qed.

(** The inner loop on a body that applies: it reaches the end of the
    hunk with the counts of the body. *)
Lemma hunk_body_applies old_lines oc nc k body rest pos pos' c' p' e :
  body_applies old_lines pos body pos' c' p' e →
  hunk_ends body rest →
  ∀ out c p,
    hunk_body old_lines oc nc k (body ++ rest) out pos c p
    = end_of_hunk oc nc (c + c') (p + p') (k rest (out ++ e) pos').
Proof.
  induction 1 as [pos|pos line body pos' c' p' e Hm Ha IH
                  |pos tail body pos' c' p' e Hl Ha IH
                  |pos tail body pos' c' p' e Hl Ha IH
                  |pos tail body pos' c' p' e Ha IH];
    intros [Hb Hr] out c p.
  - rewrite app_nil_r, !Nat.add_0_r. simpl.
    destruct Hr as [->|(l & r & -> & Hl)]; simpl.
    + done.
    + unfold is_header_start in Hl. by rewrite Hl.
  - apply Forall_cons in Hb as [Hh Hb]. simpl.
    unfold is_header_start in Hh. rewrite Hh.
    unfold is_marker in Hm. rewrite Hm. by apply IH.
  - apply Forall_cons in Hb as [Hh Hb].
    change ((String " " tail :: body) ++ rest) with (String " " tail :: body ++ rest).
    cbn [hunk_body]. unfold is_header_start in Hh. rewrite Hh.
    change (Py.startswith (String " " tail) "\ No newline at end of file") with false.
    cbn iota. change (Ascii.eqb " " " ") with true. cbn iota.
    apply line_differs_false in Hl. rewrite Hl.
    rewrite (IH (conj Hb Hr)). by rewrite <- app_assoc, !Nat.add_succ_r.
  - apply Forall_cons in Hb as [Hh Hb].
    change ((String "-" tail :: body) ++ rest) with (String "-" tail :: body ++ rest).
    cbn [hunk_body]. unfold is_header_start in Hh. rewrite Hh.
    change (Py.startswith (String "-" tail) "\ No newline at end of file") with false.
    cbn iota. change (Ascii.eqb "-" " ") with false.
    change (Ascii.eqb "-" "-") with true. cbn iota.
    apply line_differs_false in Hl. rewrite Hl.
    rewrite (IH (conj Hb Hr)). by rewrite !Nat.add_succ_r.
  - apply Forall_cons in Hb as [Hh Hb].
    change ((String "+" tail :: body) ++ rest) with (String "+" tail :: body ++ rest).
    cbn [hunk_body]. unfold is_header_start in Hh. rewrite Hh.
    change (Py.startswith (String "+" tail) "\ No newline at end of file") with false.
    cbn iota. change (Ascii.eqb "+" " ") with false.
    change (Ascii.eqb "+" "-") with false.
    change (Ascii.eqb "+" "+") with true. cbn iota.
    rewrite (IH (conj Hb Hr)). by rewrite <- app_assoc, !Nat.add_succ_r.
Qed.

(** The inner loop on a body that stops: it returns the error of the
    line that fails. *)
Lemma hunk_body_stops old_lines oc nc k body rest pos e :
  body_stops old_lines pos body e →
  Forall (λ l, is_header_start l = false) body →
  ∀ out c p,
    hunk_body old_lines oc nc k (body ++ rest) out pos c p = Some (inl e).
Proof.
  induction 1 as [pos body
                  |pos tail body Hl
                  |pos tail body Hl
                  |pos ch tail body Hm Hc1 Hc2 Hc3
                  |pos line body e Hm Hs IH
                  |pos tail body e Hl Hs IH
                  |pos tail body e Hl Hs IH
                  |pos tail body e Hs IH];
    intros Hb out c p; apply Forall_cons in Hb as [Hh Hb];
    unfold is_header_start in Hh.
  - done.
  - change ((String " " tail :: body) ++ rest) with (String " " tail :: body ++ rest).
    cbn [hunk_body]. rewrite Hh.
    change (Py.startswith (String " " tail) "\ No newline at end of file") with false.
    cbn iota. change (Ascii.eqb " " " ") with true. cbn iota.
    apply line_differs_true in Hl. by rewrite Hl.
  - change ((String "-" tail :: body) ++ rest) with (String "-" tail :: body ++ rest).
    cbn [hunk_body]. rewrite Hh.
    change (Py.startswith (String "-" tail) "\ No newline at end of file") with false.
    cbn iota. change (Ascii.eqb "-" " ") with false.
    change (Ascii.eqb "-" "-") with true. cbn iota.
    apply line_differs_true in Hl. by rewrite Hl.
  - change ((String ch tail :: body) ++ rest) with (String ch tail :: body ++ rest).
    cbn [hunk_body]. rewrite Hh.
    unfold is_marker in Hm. rewrite Hm. cbn iota.
    destruct (Ascii.eqb_spec ch " "%char); [done|].
    destruct (Ascii.eqb_spec ch "-"%char); [done|].
    by destruct (Ascii.eqb_spec ch "+"%char).
  - simpl. rewrite Hh. unfold is_marker in Hm. rewrite Hm. by apply IH.
  - change ((String " " tail :: body) ++ rest) with (String " " tail :: body ++ rest).
    cbn [hunk_body]. rewrite Hh.
    change (Py.startswith (String " " tail) "\ No newline at end of file") with false.
    cbn iota. change (Ascii.eqb " " " ") with true. cbn iota.
    apply line_differs_false in Hl. rewrite Hl. by apply IH.
  - change ((String "-" tail :: body) ++ rest) with (String "-" tail :: body ++ rest).
    cbn [hunk_body]. rewrite Hh.
    change (Py.startswith (String "-" tail) "\ No newline at end of file") with false.
    cbn iota. change (Ascii.eqb "-" " ") with false.
    change (Ascii.eqb "-" "-") with true. cbn iota.
    apply line_differs_false in Hl. rewrite Hl. by apply IH.
  - change ((String "+" tail :: body) ++ rest) with (String "+" tail :: body ++ rest).
    cbn [hunk_body]. rewrite Hh.
    change (Py.startswith (String "+" tail) "\ No newline at end of file") with false.
    cbn iota. change (Ascii.eqb "+" " ") with false.
    change (Ascii.eqb "+" "-") with false.
    change (Ascii.eqb "+" "+") with true. cbn iota. by apply IH.
Qed.

Lemma apply_hunks_cons old_lines header rest out pos :
  apply_hunks old_lines (header :: rest) out pos =
  match hunk_re_match header with
  | None => Some (inl (InvalidHunkHeader header))
  | Some groups =>
      match header_numbers groups with
      | None => None
      | Some (old_start, old_count, new_start, new_count) =>
          if (Z.of_nat old_start - 1 <? Z.of_nat pos)%Z then
            Some (inl InvalidHunkOrder)
          else
            hunk_body old_lines old_count new_count
                      (apply_hunks old_lines) rest
                      (out ++ Py.slice old_lines pos (old_start - 1))
                      (old_start - 1) 0 0
      end
  end.
Proof. reflexivity. Qed.

(** The outer loop at a header that reads as a hunk in order. *)
Lemma apply_hunks_reads old_lines header rest out pos
      old_start old_count new_start new_count :
  reads header (old_start, old_count, new_start, new_count) →
  (1 ≤ old_start)%nat → (pos ≤ old_start - 1)%nat →
  apply_hunks old_lines (header :: rest) out pos
  = hunk_body old_lines old_count new_count (apply_hunks old_lines) rest
              (out ++ Py.slice old_lines pos (old_start - 1))
              (old_start - 1) 0 0.
Proof.
  intros (groups & Hre & Hnum) H1 Hpos.
  rewrite apply_hunks_cons, Hre, Hnum.
  by destruct (Z.ltb_spec (Z.of_nat old_start - 1) (Z.of_nat pos)); [lia|].
Qed.

Lemma apply_hunks_complete old_lines lines hs :
  parses lines hs →
  ∀ out pos out',
    hunks_apply old_lines pos hs out' →
    apply_hunks old_lines lines out pos = Some (inr (out ++ out')).
Proof.
  induction 1 as [|header os oc ns nc body rest hs Hre Hends Hparse IH];
    intros out pos out' Happ.
  - inversion Happ; subst. simpl. by rewrite PyFacts.slice_from_nat.
  - inversion Happ as [|? ? ? pos' e out'' Hs1 Hs2 Ha Happ']; subst.
    simpl in Hs1, Hs2, Ha.
    rewrite (apply_hunks_reads _ _ _ _ _ _ _ _ _ Hre Hs1 Hs2).
    rewrite (hunk_body_applies _ _ _ _ _ _ _ _ _ _ _ Ha Hends).
    rewrite end_of_hunk_eq, (IH _ _ _ Happ'). by rewrite <- !app_assoc.
Qed.

(** The loops on a diff that stops. *)
Lemma apply_hunks_stops old_lines pos lines how :
  diff_stops old_lines pos lines how →
  ∀ out,
    apply_hunks old_lines lines out pos
    = match how with
      | IntTooLong => None
      | Refused e => Some (inl e)
      end.
Proof.
  induction 1 as [pos header rest Hre
                  |pos header rest groups Hre Hnum
                  |pos header rest os oc ns nc Hreads Hord
                  |pos header os oc ns nc body rest e Hreads H1 Hpos Hends Hstops
                  |pos header os oc ns nc body rest pos' c p e
                       Hreads H1 Hpos Hends Ha Hne
                  |pos header os oc ns nc body rest pos' p e
                       Hreads H1 Hpos Hends Ha Hne
                  |pos header os oc ns nc body rest pos' e how
                       Hreads H1 Hpos Hends Ha Hlater IH];
    intros out.
  - by rewrite apply_hunks_cons, Hre.
  - by rewrite apply_hunks_cons, Hre, Hnum.
  - destruct Hreads as (groups & Hre & Hnum).
    rewrite apply_hunks_cons, Hre, Hnum.
    by destruct (Z.ltb_spec (Z.of_nat os - 1) (Z.of_nat pos)); [|lia].
  - rewrite (apply_hunks_reads _ _ _ _ _ _ _ _ _ Hreads H1 Hpos).
    destruct Hends as [Hb _]. by apply hunk_body_stops.
  - rewrite (apply_hunks_reads _ _ _ _ _ _ _ _ _ Hreads H1 Hpos).
    rewrite (hunk_body_applies _ _ _ _ _ _ _ _ _ _ _ Ha Hends).
    by apply end_of_hunk_old.
  - rewrite (apply_hunks_reads _ _ _ _ _ _ _ _ _ Hreads H1 Hpos).
    rewrite (hunk_body_applies _ _ _ _ _ _ _ _ _ _ _ Ha Hends).
    by apply end_of_hunk_new.
  - rewrite (apply_hunks_reads _ _ _ _ _ _ _ _ _ Hreads H1 Hpos).
    rewrite (hunk_body_applies _ _ _ _ _ _ _ _ _ _ _ Ha Hends).
    rewrite end_of_hunk_eq. apply IH.
Qed.

(** The lines of a diff split at the first line that starts a header. *)
Lemma split_hunk (lines : list string) :
  ∃ body rest, lines = body ++ rest ∧ hunk_ends body rest.
Proof.
  induction lines as [|l lines (body & rest & -> & Hb & Hr)].
  - exists [], []. repeat split; [constructor|by left].
  - destruct (is_header_start l) eqn:Hl.
    + exists [], (l :: body ++ rest). repeat split; [constructor|].
      right. by exists l, (body ++ rest).
    + exists (l :: body), rest. repeat split; [by constructor|done].
Qed.

(** A body applies, or it stops at one of its lines. *)
Lemma body_total old_lines (body : list string) : ∀ pos,
  (∃ e, body_stops old_lines pos body e) ∨
  (∃ pos' c p e, body_applies old_lines pos body pos' c p e).
Proof.
  induction body as [|line body IH]; intros pos.
  { right. exists pos, 0%nat, 0%nat, []. constructor. }
  destruct (is_marker line) eqn:Hm.
  { destruct (IH pos) as [[e He]|(pos' & c & p & e & He)].
    - left. exists e. by apply stops_after_marker.
    - right. exists pos', c, p, e. by apply body_marker. }
  destruct line as [|ch tail].
  { left. eexists. apply stops_empty. }
  destruct (decide (old_lines !! pos = Some (tail +:+ LF))) as [Hl|Hl].
  - destruct (Ascii.eqb_spec ch " "%char) as [->|Hc1].
    { destruct (IH (S pos)) as [[e He]|(pos' & c & p & e & He)].
      - left. exists e. by apply stops_after_context.
      - right. exists pos', (S c), (S p), ((tail +:+ LF) :: e).
        by apply body_context. }
    destruct (Ascii.eqb_spec ch "-"%char) as [->|Hc2].
    { destruct (IH (S pos)) as [[e He]|(pos' & c & p & e & He)].
      - left. exists e. by apply stops_after_removal.
      - right. exists pos', (S c), p, e. by apply body_removal. }
    destruct (Ascii.eqb_spec ch "+"%char) as [->|Hc3].
    { destruct (IH pos) as [[e He]|(pos' & c & p & e & He)].
      - left. exists e. by apply stops_after_addition.
      - right. exists pos', c, (S p), ((tail +:+ LF) :: e).
        by apply body_addition. }
    left. eexists. by apply stops_prefix.
  - destruct (Ascii.eqb_spec ch " "%char) as [->|Hc1].
    { left. eexists. by apply stops_context. }
    destruct (Ascii.eqb_spec ch "-"%char) as [->|Hc2].
    { left. eexists. by apply stops_removal. }
    destruct (Ascii.eqb_spec ch "+"%char) as [->|Hc3].
    { destruct (IH pos) as [[e He]|(pos' & c & p & e & He)].
      - left. exists e. by apply stops_after_addition.
      - right. exists pos', c, (S p), ((tail +:+ LF) :: e).
        by apply body_addition. }
    left. eexists. by apply stops_prefix.
Qed.

(** A diff is consistent with the old text from a cursor on, or it
    stops. *)
Lemma diff_total old_lines : ∀ n lines, (length lines ≤ n)%nat →
  ∀ pos,
    (∃ hs out, parses lines hs ∧ hunks_apply old_lines pos hs out) ∨
    (∃ how, diff_stops old_lines pos lines how).
Proof.
  induction n as [|n IH]; intros lines Hlen pos.
  { destruct lines; [|simpl in Hlen; lia].
    left. exists [], (drop pos old_lines). split; constructor. }
  destruct lines as [|header lines].
  { left. exists [], (drop pos old_lines). split; constructor. }
  destruct (hunk_re_match header) as [groups|] eqn:Hre.
  2:{ right. eexists. by apply stops_header. }
  destruct (header_numbers groups) as [[[[os oc] ns] nc]|] eqn:Hnum.
  2:{ right. eexists. by eapply stops_int. }
  assert (reads header (os, oc, ns, nc)) as Hreads by by exists groups.
  destruct (decide (1 ≤ os ∧ pos ≤ os - 1)%nat) as [[H1 Hpos]|Hord].
  2:{ right. eexists. eapply stops_order; [exact Hreads|lia]. }
  destruct (split_hunk lines) as (body & rest & -> & Hends).
  destruct (body_total old_lines body (os - 1))
    as [[e He]|(pos' & c & p & e & He)].
  { right. eexists. by eapply stops_body. }
  destruct (decide (oc = c)) as [<-|Hc].
  2:{ right. eexists. by eapply stops_old_count. }
  destruct (decide (nc = p)) as [<-|Hp].
  2:{ right. eexists. by eapply stops_new_count. }
  destruct (IH rest) with (pos := pos') as [(hs & out & Hparse & Happ)|[how Hhow]].
  { simpl in Hlen. rewrite length_app in Hlen. lia. }
  - left. exists (mkHunk os oc ns nc body :: hs). eexists. split.
    + by apply parses_cons.
    + by apply (hunks_next old_lines pos (mkHunk os oc ns nc body) hs pos' e out).
  - right. exists how. by eapply stops_later.
Qed.

Lemma apply_hunks_sound old_lines lines out pos res :
  apply_hunks old_lines lines out pos = Some (inr res) →
  ∃ hs out', parses lines hs ∧ hunks_apply old_lines pos hs out' ∧
             res = out ++ out'.
Proof.
  intros Hrun.
  destruct (diff_total old_lines _ lines (le_n _) pos)
    as [(hs & out' & Hparse & Happ)|[how Hhow]].
  - exists hs, out'. split; [done|]. split; [done|].
    rewrite (apply_hunks_complete _ _ _ Hparse out pos out' Happ) in Hrun.
    by injection Hrun as <-.
  - rewrite (apply_hunks_stops _ _ _ _ Hhow) in Hrun. by destruct how.
Qed.

Lemma apply_hunks_stops_sound old_lines lines out pos :
  (apply_hunks old_lines lines out pos = None →
   diff_stops old_lines pos lines IntTooLong) ∧
  (∀ e, apply_hunks old_lines lines out pos = Some (inl e) →
        diff_stops old_lines pos lines (Refused e)).
Proof.
  destruct (diff_total old_lines _ lines (le_n _) pos)
    as [(hs & out' & Hparse & Happ)|[how Hhow]].
  - rewrite (apply_hunks_complete _ _ _ Hparse out pos out' Happ).
    split; [done|]. by intros e.
  - rewrite (apply_hunks_stops _ _ _ _ Hhow).
    destruct how as [|e']; split; try done.
    by intros e [= <-].
Qed.

(** X27: [apply_unified_diff] never partially applies.  A blank diff
    returns the old text.  For any other diff there are three
    ways out, and the diff and the old text decide which.  The diff is
    consistent with the old text (the lines parse into hunks, the hunks
    are in order, every context and every removal line equals the old
    line it stands for, and the lines consumed and produced equal the
    counts of the header): the result is [ok] with the complete new text
    and no error, and only then.  The diff stops at a check: the result
    is not [ok], it has no new text, and its error is the one of the
    first check that fails, at the line of the diff and of the old text
    where it fails.  A header with a number of more than 4300 digits is
    reached before any check fails: [int] raises and there is no result
    at all. *)
Theorem apply_unified_diff_strict (old_text diff_text : string) :
  let old_lines := Py.splitlines true old_text in
  let lines :=
    skip_line "+++ " (skip_line "--- " (Py.splitlines false diff_text)) in
  let r := apply_unified_diff old_text diff_text in
  (Py.strip diff_text = EmptyString →
     r = Some (mkPatchResult true diff_text (Some old_text) None)) ∧
  (Py.strip diff_text ≠ EmptyString →
     (∀ out, consistent old_text diff_text out →
        r = Some (mkPatchResult true diff_text
                                (Some (Py.join EmptyString out)) None)) ∧
     (∀ how, diff_stops old_lines 0 lines how ↔ r = stopped diff_text how) ∧
     (∀ pr, r = Some pr →
        diff pr = diff_text ∧
        (ok pr = true →
           ∃ out, consistent old_text diff_text out ∧
                  new_text pr = Some (Py.join EmptyString out) ∧
                  error pr = None) ∧
        (ok pr = false →
           new_text pr = None ∧
           ∃ e, error pr = Some e ∧
                diff_stops old_lines 0 lines (Refused e)))).
Proof.
  intros old_lines lines r. unfold r, apply_unified_diff, consistent.
  fold old_lines. fold lines.
  destruct (String.eqb_spec (Py.strip diff_text) EmptyString) as [Hs|Hs].
  { split; [done|]. by intros []. }
  split; [done|]. intros _.
  destruct (apply_hunks_stops_sound old_lines lines [] 0) as [Hnone Herr].
  split; [|split].
  - intros out (hs & Hp & Ha).
    rewrite (apply_hunks_complete _ _ _ Hp [] 0 out Ha). by rewrite app_nil_l.
  - intros how. split.
    + intros Hhow. rewrite (apply_hunks_stops _ _ _ _ Hhow). by destruct how.
    + destruct (apply_hunks old_lines lines [] 0) as [[e|out]|] eqn:Hrun.
      * destruct how as [|e']; [done|]. intros [= <-]. by apply Herr.
      * by destruct how.
      * destruct how as [|e']; [|done]. intros _. by apply Hnone.
  - intros pr Hpr.
    destruct (apply_hunks old_lines lines [] 0) as [[e|out]|] eqn:Hrun;
      [| |done]; injection Hpr as <-; cbn [diff ok new_text error].
    + split; [done|]. split; [done|]. intros _. split; [done|].
      exists e. split; [done|]. by apply Herr.
    + split; [done|]. split; [|done]. intros _.
      apply apply_hunks_sound in Hrun as (hs & out' & Hp & Ha & ->).
      rewrite app_nil_l. exists out'. split; [by exists hs|done].
Qed.

Lemma append_nil_r (s : string) : s +:+ EmptyString = s.
Proof.
  induction s as [|a s IH]; [done|].
  change (String a (s +:+ EmptyString) = String a s). by rewrite IH.
Qed.

Lemma append_cons c (s t : string) : String c s +:+ t = String c (s +:+ t).
Proof. reflexivity. Qed.

Lemma append_nil_l (t : string) : EmptyString +:+ t = t.
Proof. reflexivity. Qed.

Lemma join_empty_cons (x : string) xs :
  Py.join EmptyString (x :: xs) = x +:+ Py.join EmptyString xs.
Proof.
  destruct xs; simpl; [by rewrite append_nil_r|done].
Qed.

Lemma splitlines_nil keepends s :
  Py.splitlines keepends s = [] → s = EmptyString.
Proof.
  destruct s as [|c s]; [done|]. simpl.
  destruct (Py.is_cr c && Py.starts_with_lf s) eqn:Hcr.
  - apply andb_prop in Hcr as [_ Hlf].
    destruct s as [|c' s]; [done|]. simpl in Hlf |- *.
    assert (Py.is_cr c' = false) as ->.
    { unfold Py.is_lf, Py.is_cr in *. apply Nat.eqb_eq in Hlf. rewrite Hlf. done. }
    assert (Py.is_linebreak c' = true) as ->.
    { unfold Py.is_lf, Py.is_linebreak in *. apply Nat.eqb_eq in Hlf. rewrite Hlf. done. }
    simpl. done.
  - destruct (Py.is_linebreak c); [done|].
    by destruct (Py.splitlines keepends s).
Qed.

Lemma join_splitlines s :
  Py.join EmptyString (Py.splitlines true s) = s.
Proof.
  induction s as [|c s IH]; [done|].
  simpl. destruct (Py.is_cr c && Py.starts_with_lf s) eqn:Hcr.
  - destruct (Py.splitlines true s) as [|l ls] eqn:Hs.
    + apply splitlines_nil in Hs. subst s.
      apply andb_prop in Hcr as [_ Hlf]. done.
    + rewrite join_empty_cons in IH |- *. by rewrite append_cons, IH.
  - destruct (Py.is_linebreak c).
    + by rewrite join_empty_cons, append_cons, append_nil_l, IH.
    + destruct (Py.splitlines true s) as [|l ls] eqn:Hs.
      * apply splitlines_nil in Hs. by subst s.
      * rewrite join_empty_cons in IH |- *. by rewrite append_cons, IH.
Qed.

Lemma splitlines_keepends_inj s1 s2 :
  Py.splitlines true s1 = Py.splitlines true s2 → s1 = s2.
Proof.
  intros H. rewrite <- (join_splitlines s1), <- (join_splitlines s2). by rewrite H.
Qed.

Lemma append_LF_nonempty s : s +:+ LF ≠ EmptyString.
Proof. by destruct s. Qed.

Lemma generate_empty_iff gro old_text new_text :
  (∀ a b, gro a b = [] ↔ a = b) →
  generate_unified_diff gro old_text new_text = EmptyString ↔ old_text = new_text.
Proof.
  intros Hgro. unfold generate_unified_diff, Difflib.unified_diff.
  destruct (gro _ _) as [|g gs] eqn:Hg.
  - apply Hgro in Hg. apply splitlines_keepends_inj in Hg. done.
  - split.
    + intros H. by apply append_LF_nonempty in H.
    + intros ->. assert (gro (Py.splitlines true new_text) (Py.splitlines true new_text) = []) as Hnil
        by by apply Hgro.
      congruence.
Qed.

(** C3, at the input of the repository's own test: whenever the matcher
    reports what difflib reports for these two texts (no line in common:
    one replacement of lines 0..2 by lines 0..2), the diff that
    [generate_unified_diff] returns does not apply to the old text.
    Every content line keeps its line end and ["\n".join] adds another,
    so the diff has an empty line after the first content line, and
    [apply_unified_diff] returns "Malformed diff line (empty)." with no
    new text: [test_generate_and_apply] fails. *)
Theorem roundtrip_fails_on_test_input
  (gro : list string → list string → list (list Difflib.opcode)) :
  gro (Py.splitlines true test_old) (Py.splitlines true test_new)
    = [[(Difflib.Replace, 0, 2, 0, 2)]]%nat →
  let diff_text := generate_unified_diff gro test_old test_new in
  apply_unified_diff test_old diff_text
    = Some (mkPatchResult false diff_text None (Some MalformedDiffLine))
  ∧ test_generate_and_apply gro = false.
Proof.
  intros Hgro. unfold test_generate_and_apply, generate_unified_diff.
  rewrite Hgro. split; vm_compute; reflexivity.
Qed.

(** Two more inputs of the round trip.  A last line without a line end:
    the diff line ["-a"] is compared as ["a\n"] against the old line
    ["a"].  A new file: the header ["@@ -0,0 +1 @@"] places the hunk before
    the cursor. *)
Lemma roundtrip_fails_without_newline
  (gro : list string → list string → list (list Difflib.opcode)) :
  gro ["a"] ["b"] = [[(Difflib.Replace, 0, 1, 0, 1)]]%nat →
  error <$> apply_unified_diff "a" (generate_unified_diff gro "a" "b")
  = Some (Some (RemovalMismatch ("a" +:+ LF) (Some "a"))).
Proof.
  intros Hgro. unfold generate_unified_diff.
  change (Py.splitlines true "a") with ["a"].
  change (Py.splitlines true "b") with ["b"].
  rewrite Hgro. vm_compute. reflexivity.
Qed.

Lemma roundtrip_fails_on_new_file
  (gro : list string → list string → list (list Difflib.opcode)) :
  gro [] ["b" +:+ LF] = [[(Difflib.Insert, 0, 0, 0, 1)]]%nat →
  error <$> apply_unified_diff EmptyString
              (generate_unified_diff gro EmptyString ("b" +:+ LF))
  = Some (Some InvalidHunkOrder).
Proof.
  intros Hgro. unfold generate_unified_diff.
  change (Py.splitlines true EmptyString) with (@nil string).
  change (Py.splitlines true ("b" +:+ LF)) with ["b" +:+ LF].
  rewrite Hgro. vm_compute. reflexivity.
Qed.

Lemma roundtrip_fails_witness :
  let gro := λ _ _ : list string, [[(Difflib.Replace, 0, 2, 0, 2)]]%nat in
  let diff_text := generate_unified_diff gro test_old test_new in
  apply_unified_diff test_old diff_text
    = Some (mkPatchResult false diff_text None (Some MalformedDiffLine))
  ∧ test_generate_and_apply gro = false.
Proof.
  intros gro. apply (roundtrip_fails_on_test_input gro). reflexivity.
Defined.

(** The strictness theorem at a base text of one line: a consistent diff
    applies in full, and the same diff on a diverged base is refused with
    the mismatch it met, at the line where it met it. *)
Lemma apply_unified_diff_strict_witness :
  let diff_text := "@@ -1 +1 @@" +:+ LF +:+ "-a" +:+ LF +:+ "+b" +:+ LF in
  (∃ out, consistent ("a" +:+ LF) diff_text out ∧
          new_text <$> apply_unified_diff ("a" +:+ LF) diff_text
          = Some (Some (Py.join EmptyString out))) ∧
  diff_stops ["c" +:+ LF] 0 ["@@ -1 +1 @@"; "-a"; "+b"]
             (Refused (RemovalMismatch ("a" +:+ LF) (Some ("c" +:+ LF)))).
Proof.
  intros diff_text. split.
  - destruct (apply_unified_diff_strict ("a" +:+ LF) diff_text) as (_ & H).
    destruct H as (_ & _ & Hpr); [discriminate|].
    destruct (Hpr (mkPatchResult true diff_text (Some ("b" +:+ LF)) None))
      as (_ & (out & Hc & Hn & _) & _); [reflexivity|reflexivity|].
    exists out. split; [exact Hc|]. cbn [new_text] in Hn.
    rewrite <- Hn. reflexivity.
  - destruct (apply_unified_diff_strict ("c" +:+ LF) diff_text) as (_ & H).
    destruct H as (_ & Hstops & _); [discriminate|].
    apply (Hstops (Refused (RemovalMismatch ("a" +:+ LF) (Some ("c" +:+ LF))))).
    reflexivity.
Defined.

(** Small runs of [apply_unified_diff] on a diff written by hand. *)
Example apply_hand_diff :
  apply_unified_diff ("a" +:+ LF +:+ "b" +:+ LF) hand_diff
  = Some (mkPatchResult true hand_diff (Some ("a" +:+ LF +:+ "c" +:+ LF)) None).
Proof. vm_compute. done. Qed.

Example apply_hand_diff_on_changed_base :
  apply_unified_diff ("x" +:+ LF +:+ "b" +:+ LF) hand_diff
  = Some (mkPatchResult false hand_diff None
            (Some (ContextMismatch ("a" +:+ LF) (Some ("x" +:+ LF))))).
Proof. vm_compute. done. Qed.

Example apply_wrong_count :
  error <$> apply_unified_diff ("a" +:+ LF +:+ "b" +:+ LF)
              ("@@ -1,1 +1,2 @@" +:+ LF +:+ " a" +:+ LF +:+ "-b" +:+ LF +:+ "+c" +:+ LF)
  = Some (Some (HunkOldCountMismatch 1 2)).
Proof. vm_compute. done. Qed.

Example apply_blank_diff :
  let old := "a" +:+ LF +:+ "b" +:+ LF in
  apply_unified_diff old ("  " +:+ LF)
  = Some (mkPatchResult true ("  " +:+ LF) (Some old) None).
Proof. vm_compute. done. Qed.

(** C4, at a header that writes its old start with 4301 digits.  The
    hunk ["@@ -1 +1 @@"] with the context line [" a"] is refused on the
    old text ["b\n"] with a context mismatch.  With the old start written
    with 4300 zeros in front, the number is still 1 and the context line
    still does not match, yet no result with an error is returned:
    [int] raises on the header, and the exception leaves
    [apply_unified_diff]. *)
Theorem apply_raises_on_long_number :
  Py.int_of_digits (string_of_list_ascii (repeat "0"%char 4300) +:+ "1") = 1%nat ∧
  apply_unified_diff ("b" +:+ LF) (long_header_diff 1)
  = Some (mkPatchResult false (long_header_diff 1) None
            (Some (ContextMismatch ("a" +:+ LF) (Some ("b" +:+ LF))))) ∧
  apply_unified_diff ("b" +:+ LF) (long_header_diff 4301) = None.
Proof. vm_compute. done. Qed.

End EditorFacts.

(** ** Facts about the learning model *)

Module LearningFacts.
Import State Learning LearningSpec.

Lemma zero_not_ge_positive t : PrimFloat.ltb 0 t = true → ge 0 t = false.
Proof.
  unfold ge. rewrite FloatAxioms.ltb_spec, FloatAxioms.leb_spec.
  change (Prim2SF 0) with (S754_zero false).
  destruct (Prim2SF t) as [s|s| |s m e]; simpl; try discriminate;
    destruct s; simpl; auto; discriminate.
Qed.

Lemma compute_unlocks_dom self percent :
  dom (_compute_unlocks self percent) = four_tiers.
Proof.
  unfold _compute_unlocks, four_tiers. rewrite !dom_insert_L, dom_empty_L. set_solver.
Qed.

Lemma resolve_required_unlock_ext self self' pred req :
  capability_gating self' = capability_gating self →
  _resolve_required_unlock self' pred req = _resolve_required_unlock self pred req.
Proof. intros Hcg. unfold _resolve_required_unlock. by rewrite Hcg. Qed.

Lemma compute_unlocks_other self percent tier :
  tier ∉ four_tiers → _compute_unlocks self percent !! tier = None.
Proof.
  intros H. apply not_elem_of_dom. by rewrite compute_unlocks_dom.
Qed.

Section Evaluate.
Context `{Scorer}.

Lemma evaluate_state text exp code tests req self :
  exec (evaluate text exp code tests req) self = self.
Proof.
  unfold exec, evaluate, mbind, state_bind, bind, get.
  destruct (_predict_intent (keyword_map self) (_tokenize text)) as [pred conf].
  destruct (_resolve_required_unlock self pred req) as [action ru].
  cbn [fst snd]. by destruct (if nonblank code then _ else _).
Qed.

(** [evaluate] raises exactly where it calls the code evaluator and the
    code evaluator raises. *)
Lemma evaluate_none_iff text exp code tests req self :
  eval (evaluate text exp code tests req) self = None ↔
  nonblank code = true ∧
  code_evaluator_evaluate (code_policy self) (default EmptyString code) tests
  = None.
Proof.
  unfold eval, evaluate, mbind, state_bind, bind, get.
  destruct (_predict_intent (keyword_map self) (_tokenize text)) as [pred conf].
  destruct (_resolve_required_unlock self pred req) as [action ru].
  cbn [fst snd].
  destruct (nonblank code); [|by split; [|intros []]].
  destruct (code_evaluator_evaluate _ _ _); cbn; [by split; [|intros []]|done].
Qed.

(** Without code, [evaluate] returns. *)
Lemma evaluate_without_code text exp tests req self :
  is_Some (eval (evaluate text exp None tests req) self).
Proof.
  destruct (eval _ self) as [r|] eqn:Hev; [by exists r|].
  by apply evaluate_none_iff in Hev as [? _].
Qed.

Lemma evaluate_gate text exp code tests req self r :
  eval (evaluate text exp code tests req) self = Some r →
  unlocks_before r = _compute_unlocks self (percent_before self) ∧
  allowed r = default false (unlocks_before r !! required_unlock r) ∧
  (requested_action r, required_unlock r)
    = _resolve_required_unlock self (predicted_intent r) req ∧
  predicted_intent r = (_predict_intent (keyword_map self) (_tokenize text)).1.
Proof.
  unfold eval, evaluate, mbind, state_bind, bind, get.
  destruct (_predict_intent (keyword_map self) (_tokenize text)) as [pred conf].
  destruct (_resolve_required_unlock self pred req) as [action ru] eqn:Hres.
  cbn [fst snd].
  destruct (if nonblank code then _ else _); [|done].
  intros [= <-]. cbn. rewrite Hres. repeat split; reflexivity.
Qed.
End Evaluate.

Section Gate.
Context `{Scorer}.

(** C2: the [allowed] flag of every report that [evaluate] returns is the
    unlock state of its
    required tier in [unlocks_before] (false when the tier is not a key),
    and [unlocks_before] is computed from the scores recorded before the
    submission: the score of the submission takes no part in it.  So a
    tier that is locked before the submission is denied whatever the
    submission scores, and with an empty history a tier whose configured
    threshold is positive is denied. *)
Theorem allowed_is_unlock_before text exp code tests req self r :
  eval (evaluate text exp code tests req) self = Some r →
  allowed r = default false (unlocks_before r !! required_unlock r) ∧
  unlocks_before r = _compute_unlocks self (percent_before self) ∧
  (unlocks_before r !! required_unlock r ≠ Some true → allowed r = false) ∧
  (recent_scores self = [] →
   (∀ t, thresholds self !! required_unlock r = Some t → PrimFloat.ltb 0 t = true) →
   allowed r = false).
Proof.
  intros Hr. destruct (evaluate_gate text exp code tests req self r Hr)
    as (Hub & Hal & _).
  split; [done|]. split; [done|]. split.
  - rewrite Hal. by destruct (unlocks_before r !! required_unlock r) as [[]|].
  - intros Hempty Hpos. rewrite Hal, Hub.
    unfold percent_before. rewrite Hempty.
    replace (Py.slice_from [] (- window_size self)) with (@nil float)
      by (unfold Py.slice_from; destruct (_ <? _)%Z; by rewrite drop_nil).
    unfold _compute_unlocks.
    assert (∀ tier d, PrimFloat.ltb 0 d = true →
              (tier = required_unlock r →
               ge 0 (default d (thresholds self !! tier)) = false)) as Hge.
    { intros tier d Hd ->. apply zero_not_ge_positive.
      destruct (thresholds self !! required_unlock r) as [t|] eqn:Ht; simpl; auto. }
    rewrite !lookup_insert. repeat case_decide; simpl; try done.
    all: by apply Hge.
Qed.
End Gate.

(** After a fold, with a positive window, the next report's [allowed] is [is_allowed]. *)
Lemma slice_from_last {A} (l : list A) (w : Z) :
  (1 ≤ w)%Z →
  Py.slice_from l (- w) = drop (length l - Z.to_nat w) l.
Proof.
  intros Hw. unfold Py.slice_from.
  destruct (Z.ltb_spec (- w) 0); [|lia].
  f_equal. lia.
Qed.

Lemma slice_from_last_length {A} (l : list A) (w : Z) :
  (1 ≤ w)%Z → (Z.of_nat (length (Py.slice_from l (- w))) ≤ w)%Z.
Proof.
  intros Hw. rewrite slice_from_last by done. rewrite length_drop. lia.
Qed.

Lemma slice_from_short {A} (l : list A) (w : Z) :
  (Z.of_nat (length l) ≤ w)%Z → Py.slice_from l (- w) = l.
Proof.
  intros Hw. unfold Py.slice_from.
  destruct (Z.ltb_spec (- w) 0).
  - replace (Z.to_nat (Z.of_nat (length l) + - w)) with 0%nat by lia. done.
  - assert (w = 0%Z) as -> by lia. simpl. destruct l; [done|simpl in Hw; lia].
Qed.

Lemma update_progress_spec report self :
  let self' := exec (update_progress report) self in
  recent_scores self' = fold_in (window_size self) (recent_scores self) (total_score report) ∧
  current_percent self' = mean (recent_scores self') ∧
  unlocked self' = _compute_unlocks self' (current_percent self') ∧
  window_size self' = window_size self ∧
  thresholds self' = thresholds self ∧
  standards self' = standards self ∧
  keyword_map self' = keyword_map self ∧
  code_policy self' = code_policy self ∧
  capability_gating self' = capability_gating self.
Proof.
  unfold exec, update_progress, fold_in, mbind, state_bind, bind, modify, get.
  cbn [recent_scores set_recent_scores window_size].
  destruct (_ <? _)%Z; cbn; repeat split; reflexivity.
Qed.

Lemma fold_in_length w scores s :
  (1 ≤ w)%Z → (Z.of_nat (length (fold_in w scores s)) ≤ w)%Z.
Proof.
  intros Hw. unfold fold_in.
  destruct (Z.ltb_spec w (Z.of_nat (length (scores ++ [s])))).
  - by apply slice_from_last_length.
  - done.
Qed.

Lemma fold_in_suffix w scores s :
  fold_in w scores s `suffix_of` (scores ++ [s]).
Proof.
  unfold fold_in, Py.slice_from.
  destruct (_ <? _)%Z; [|done].
  destruct (_ <? _)%Z; apply suffix_drop.
Qed.

Lemma fold_in_nonempty w scores s :
  (1 ≤ w)%Z → fold_in w scores s ≠ [].
Proof.
  intros Hw. unfold fold_in.
  destruct (Z.ltb_spec w (Z.of_nat (length (scores ++ [s])))).
  - rewrite slice_from_last by done. rewrite length_app in *. simpl in *.
    intros Hnil. apply (f_equal length) in Hnil. rewrite length_drop, length_app in Hnil.
    simpl in Hnil. lia.
  - by destruct scores.
Qed.

Lemma reachable_unlocked_dom self :
  reachable self → dom (unlocked self) = four_tiers.
Proof.
  induction 1 as [st th km cp cg|self report _ IH|self st th km cp cg _ IH].
  - unfold init, four_tiers. cbn [unlocked].
    rewrite !dom_insert_L, dom_empty_L. set_solver.
  - destruct (update_progress_spec report self) as (_ & _ & -> & _).
    apply compute_unlocks_dom.
  - exact IH.
Qed.

Section Frame.
Context `{Scorer}.

(** No call of [evaluate] changes the model, whether it returns a report
    or raises: the recent scores, the current percent and the unlocked
    map are the same after the call.  [is_allowed] changes nothing
    either, and [update_config] changes none of these three fields: of
    the methods, only [update_progress] writes them. *)
Lemma evaluate_frame text exp code tests req self :
  let self' := exec (evaluate text exp code tests req) self in
  self' = self ∧
  (∀ tier, exec (is_allowed tier) self = self) ∧
  (∀ st th km cp cg,
     let self'' := exec (update_config st th km cp cg) self in
     recent_scores self'' = recent_scores self ∧
     current_percent self'' = current_percent self ∧
     unlocked self'' = unlocked self).
Proof.
  intros self'. unfold self'. rewrite evaluate_state.
  repeat split.
Qed.

(** C10: the maps that [_compute_unlocks] returns have exactly the four
    fixed tiers as keys.  For a tier outside these four, [is_allowed] is
    false in every state that the methods of the class reach, and every
    report that [evaluate] returns with it as the required tier has
    [allowed] false, whatever the proficiency. *)
Theorem unconfigured_tier_fails_closed (tier : string) :
  tier ∉ four_tiers →
  (∀ self percent,
     dom (_compute_unlocks self percent) = four_tiers ∧
     _compute_unlocks self percent !! tier = None) ∧
  (∀ self, reachable self → eval (is_allowed tier) self = false) ∧
  (∀ self text exp code tests req r,
     eval (evaluate text exp code tests req) self = Some r →
     required_unlock r = tier → allowed r = false).
Proof.
  intros Htier. split; [|split].
  - intros self percent. split;
      [apply compute_unlocks_dom|by apply compute_unlocks_other].
  - intros self Hreach. apply reachable_unlocked_dom in Hreach.
    assert (unlocked self !! tier = None) as Hnone.
    { apply not_elem_of_dom. by rewrite Hreach. }
    unfold eval, is_allowed, mbind, state_bind, bind, get. cbn.
    by rewrite Hnone.
  - intros self text exp code tests req r Hr Hru.
    destruct (evaluate_gate text exp code tests req self r Hr) as (Hub & Hal & _).
    rewrite Hal, Hub, Hru.
    by rewrite compute_unlocks_other.
Qed.

Lemma allowed_matches_is_allowed report self text exp code tests req r :
  (1 ≤ window_size self)%Z →
  let self' := exec (update_progress report) self in
  eval (evaluate text exp code tests req) self' = Some r →
  allowed r = eval (is_allowed (required_unlock r)) self'.
Proof.
  intros Hw self' Hr.
  destruct (evaluate_gate text exp code tests req self' r Hr) as (Hub & Hal & _).
  rewrite Hal, Hub.
  destruct (update_progress_spec report self) as (Hrs & Hcp & Hun & Hws & _).
  fold self' in Hrs, Hcp, Hun, Hws.
  unfold eval, is_allowed, mbind, state_bind, bind, get. cbn.
  rewrite Hun. do 2 f_equal.
  rewrite Hcp. unfold percent_before.
  rewrite slice_from_short.
  2:{ rewrite Hws, Hrs. by apply fold_in_length. }
  assert (recent_scores self' ≠ []) as Hne
    by (rewrite Hrs; by apply fold_in_nonempty).
  by destruct (recent_scores self').
Qed.
End Frame.

(** With a window of at least one score, [update_progress] keeps at most
    [window_size] scores, the most recent ones, and recomputes the mean
    and every unlock flag from them. *)
Lemma update_progress_window report self :
  (1 ≤ window_size self)%Z →
  let self' := exec (update_progress report) self in
  (Z.of_nat (length (recent_scores self')) ≤ window_size self)%Z ∧
  recent_scores self' `suffix_of` (recent_scores self ++ [total_score report]) ∧
  current_percent self' = mean (recent_scores self') ∧
  unlocked self' = _compute_unlocks self' (current_percent self').
Proof.
  intros Hw self'.
  destruct (update_progress_spec report self) as (Hrs & Hcp & Hun & _).
  fold self' in Hrs, Hcp, Hun. rewrite Hrs.
  split; [by apply fold_in_length|]. split; [apply fold_in_suffix|].
  split; [by rewrite <- Hrs|done].
Qed.

Lemma update_all_window reports report self :
  (1 ≤ window_size self)%Z →
  let self' := update_all (reports ++ [report]) self in
  window_size self' = window_size self ∧
  (Z.of_nat (length (recent_scores self')) ≤ window_size self)%Z ∧
  current_percent self' = mean (recent_scores self') ∧
  unlocked self' = _compute_unlocks self' (current_percent self').
Proof.
  intros Hw self'. unfold self', update_all. rewrite foldl_app. simpl.
  set (mid := foldl _ self reports).
  assert (window_size mid = window_size self) as Hmid.
  { unfold mid. clear. revert self.
    induction reports as [|r rs IH]; intros self; [done|]. simpl. rewrite IH.
    by destruct (update_progress_spec r self) as (_ & _ & _ & -> & _). }
  destruct (update_progress_spec report mid) as (_ & _ & _ & Hws & _).
  destruct (update_progress_window report mid) as (Hl & _ & Hc & Hu); [lia|].
  rewrite Hws, Hmid. repeat split; [lia|done|done].
Qed.

(** C7, at a window of size zero ([moving_window_size: 0] in the
    configuration): [recent_scores[-0:]] is the whole list, so nothing is
    evicted.  After two calls of [update_progress] both scores remain,
    more than the window allows. *)
Theorem zero_window_keeps_every_score (s1 s2 : float) (th : gmap string float) :
  let self0 := fresh_model (Some 0%Z) th in
  let report s := mkScoreReport "" "" None "" "" false s ∅ ∅ ∅ None in
  let self2 := exec (update_progress (report s2)) (exec (update_progress (report s1)) self0) in
  window_size self2 = 0%Z ∧ recent_scores self2 = [s1; s2].
Proof. done. Qed.

Lemma zero_window_never_evicts report self :
  window_size self = 0%Z →
  recent_scores (exec (update_progress report) self)
  = recent_scores self ++ [total_score report].
Proof.
  intros Hw. destruct (update_progress_spec report self) as (-> & _).
  unfold fold_in, Py.slice_from. rewrite Hw. simpl.
  by destruct (_ <? _)%Z.
Qed.

Lemma allowed_is_unlock_before_witness :
  let self := fresh_model (Some 2%Z) half_threshold in
  ∃ r,
    eval (evaluate (H:=perfect_scorer) "explain" None None None (Some "assist")) self
    = Some r ∧
    required_unlock r = "assist_mode" ∧
    unlocks r !! "assist_mode" = Some true ∧
    allowed r = false.
Proof.
  intros self.
  destruct (eval (evaluate (H:=perfect_scorer) "explain" None None None
                           (Some "assist")) self) as [r|] eqn:Hr;
    [|vm_compute in Hr; discriminate Hr].
  exists r. split; [reflexivity|].
  assert (required_unlock r = "assist_mode" ∧
          unlocks r !! "assist_mode" = Some true) as [Hru Hun].
  { vm_compute in Hr. injection Hr as <-. split; reflexivity. }
  split; [exact Hru|]. split; [exact Hun|].
  apply (allowed_is_unlock_before (H:=perfect_scorer)
           "explain" None None None (Some "assist") self r Hr).
  - reflexivity.
  - intros t Ht. rewrite Hru in Ht. vm_compute in Ht.
    injection Ht as <-. reflexivity.
Defined.

Lemma unconfigured_tier_witness :
  let self := fresh_model None ∅ in
  eval (is_allowed "superuser") self = false.
Proof.
  intros self.
  destruct (unconfigured_tier_fails_closed (H:=perfect_scorer) "superuser")
    as (_ & Hclosed & _).
  - vm_compute. set_solver.
  - apply Hclosed. constructor.
Defined.

(** Spec, section 8: window 2, threshold 0.5 for the assist tier, scores 0.9 and 0.9. *)
Example spec_scenario :
  let self0 := fresh_model (Some 2%Z) half_threshold in
  let report s := mkScoreReport "" "" None "" "" false s ∅ ∅ ∅ None in
  let first := eval (evaluate (H:=perfect_scorer) "explain" None None None (Some "assist")) self0 in
  let self2 := update_all [report 0.9%float; report 0.9%float] self0 in
  let third := eval (evaluate (H:=perfect_scorer) "explain" None None None (Some "assist")) self2 in
  allowed <$> first = Some false ∧
  current_percent self2 = 0.9%float ∧
  unlocked self2 !! "assist_mode" = Some true ∧
  allowed <$> third = Some true.
Proof. vm_compute. done. Qed.

End LearningFacts.

(** ** Facts about the write-token authority *)

Module TokenFacts.
Import Token TokenToy.

Lemma forallb_string_app p s t :
  forallb_string p (s +:+ t) = forallb_string p s && forallb_string p t.
Proof.
  induction s as [|c s IH]; [done|].
  change (String c s +:+ t) with (String c (s +:+ t)). simpl.
  by rewrite IH, andb_assoc.
Qed.

Lemma forallb_string_impl (p q : ascii → bool) s :
  (∀ c, p c = true → q c = true) →
  forallb_string p s = true → forallb_string q s = true.
Proof.
  intros Hpq. induction s as [|c s IH]; [done|]. simpl.
  rewrite !andb_true_iff. intros [Hc Hs]. auto.
Qed.

Lemma forallb_rstrip_with p q s :
  forallb_string p s = true → forallb_string p (Py.rstrip_with q s) = true.
Proof.
  induction s as [|c s IH]; [done|]. simpl.
  rewrite andb_true_iff. intros [Hc Hs]. specialize (IH Hs).
  destruct (Py.rstrip_with q s) as [|c' r].
  - destruct (q c); simpl; [done|by rewrite Hc].
  - cbn [forallb_string] in *. by rewrite Hc.
Qed.

Lemma forallb_repeat_pad p n :
  p "="%char = true → forallb_string p (repeat_pad n) = true.
Proof. intros Hp. induction n as [|n IH]; [done|]. simpl. by rewrite Hp. Qed.

Lemma split_dot_app a b :
  forallb_string (λ c, negb (is_dot c)) a = true →
  split_dot (a +:+ "." +:+ b) = Some (a, b).
Proof.
  induction a as [|c a IH]; [done|].
  change (String c a +:+ "." +:+ b) with (String c (a +:+ "." +:+ b)).
  simpl. rewrite andb_true_iff, negb_true_iff. intros [-> Ha].
  by rewrite (IH Ha).
Qed.

Lemma b64url_not_dot c : is_b64url c = true → negb (is_dot c) = true.
Proof.
  destruct c as [[] [] [] [] [] [] [] []]; vm_compute; congruence.
Qed.

Lemma b64url_is_ascii c : is_b64url c = true → (Py.code c <? 128)%nat = true.
Proof.
  destruct c as [[] [] [] [] [] [] [] []]; vm_compute; congruence.
Qed.

Section Verify.
Context `{LibLaws}.

Lemma b64url_decode_encode x :
  _b64url_decode (rstrip_pad (urlsafe_b64encode x)) = Some x.
Proof.
  unfold _b64url_decode.
  rewrite forallb_string_app, forallb_repeat_pad by done.
  rewrite (forallb_string_impl is_b64url), b64_roundtrip; [done| |].
  - apply b64url_is_ascii.
  - apply forallb_rstrip_with, b64_alphabet.
Qed.

Lemma py_eq_str_spec (s t : string) : py_eq_str (Some (JStr s)) t = bool_decide (s = t).
Proof.
  simpl. destruct (String.eqb_spec s t); symmetry;
    [by apply bool_decide_eq_true_2|by apply bool_decide_eq_false_2].
Qed.

Lemma verify_minted secret ttl now nonce op ru fn base diff
      now' op' ru' fn' base' diff' :
  verify_write_token secret now'
    (issue_write_token secret ttl now nonce op ru fn base diff).1
    op' ru' fn' base' diff'
  = if negb (bool_decide (op = op')) then Some (false, Some "bad_op")
    else if negb (bool_decide (ru = ru')) then Some (false, Some "wrong_unlock")
    else if negb (bool_decide (fn = fn')) then Some (false, Some "wrong_filename")
    else if negb (bool_decide (sha256_text base = sha256_text base')) then
      Some (false, Some "wrong_base")
    else if negb (bool_decide (sha256_text diff = sha256_text diff')) then
      Some (false, Some "wrong_diff")
    else if (now + ttl <? now')%Z then Some (false, Some "expired")
    else Some (true, None).
Proof.
  unfold issue_write_token, verify_write_token. cbn [fst].
  set (p := mkPayload 1 op ru now (now + ttl) nonce fn (sha256_text base) (sha256_text diff)).
  set (payload_b64 := rstrip_pad (urlsafe_b64encode (json_dumps p))).
  set (sig := hmac_sha256 secret payload_b64).
  rewrite split_dot_app.
  2:{ eapply forallb_string_impl; [apply b64url_not_dot|].
      apply forallb_rstrip_with, b64_alphabet. }
  assert (String.eqb payload_b64 EmptyString = false) as ->.
  { apply String.eqb_neq, b64_nonempty, json_nonempty. }
  assert (String.eqb (rstrip_pad (urlsafe_b64encode sig)) EmptyString = false) as ->.
  { apply String.eqb_neq, b64_nonempty, hmac_nonempty. }
  cbn [orb]. unfold payload_b64 at 1. rewrite !b64url_decode_encode.
  fold payload_b64. fold sig. rewrite String.eqb_refl. cbn [negb].
  rewrite json_roundtrip.
  assert (payload_dict p !! "v" = Some (JInt 1)) as -> by done.
  assert (payload_dict p !! "op" = Some (JStr op)) as -> by done.
  assert (payload_dict p !! "ru" = Some (JStr ru)) as -> by done.
  assert (payload_dict p !! "fn" = Some (JStr fn)) as -> by done.
  assert (payload_dict p !! "base_hash" = Some (JStr (sha256_text base))) as -> by done.
  assert (payload_dict p !! "diff_hash" = Some (JStr (sha256_text diff))) as -> by done.
  assert (payload_dict p !! "exp" = Some (JInt (now + ttl))) as -> by done.
  rewrite !py_eq_str_spec. cbn [py_eq_one as_int negb Z.eqb Pos.eqb].
  reflexivity.
Qed.
End Verify.

Section Binding.
Context `{LibLaws}.

End Binding.

Lemma unbits_bits p : unbits (bits p) = Some p.
Proof. induction p as [p IH|p IH|]; simpl; by rewrite ?IH. Qed.

Lemma unpack_pack `{Countable A} tag (x : A) : unpack tag (pack tag x) = Some x.
Proof.
  unfold unpack, pack. rewrite Ascii.eqb_refl, unbits_bits. simpl.
  apply decode_encode.
Qed.

Lemma bits_b64url p : forallb_string is_b64url (bits p) = true.
Proof. induction p as [p IH|p IH|]; simpl; by rewrite ?IH. Qed.

Lemma bits_no_pad p : forallb_string (λ c, negb (is_pad c)) (bits p) = true.
Proof. induction p as [p IH|p IH|]; simpl; by rewrite ?IH. Qed.

Lemma rstrip_with_id p s :
  forallb_string (λ c, negb (p c)) s = true → Py.rstrip_with p s = s.
Proof.
  induction s as [|c s IH]; [done|]. simpl.
  rewrite andb_true_iff, negb_true_iff. intros [Hc Hs].
  rewrite (IH Hs), Hc. by destruct s.
Qed.

Lemma rstrip_with_app p s t :
  forallb_string p t = true →
  Py.rstrip_with p (s +:+ t) = Py.rstrip_with p s.
Proof.
  intros Ht. induction s as [|c s IH].
  - change (EmptyString +:+ t) with t.
    induction t as [|c t IHt]; [done|]. simpl in *.
    apply andb_prop in Ht as [Hc Ht]. by rewrite (IHt Ht), Hc.
  - change (String c s +:+ t) with (String c (s +:+ t)). simpl. by rewrite IH.
Qed.

Lemma pack_no_pad `{Countable A} (x : A) :
  rstrip_pad (pack "B"%char x) = pack "B"%char x.
Proof. apply rstrip_with_id. simpl. apply bits_no_pad. Qed.

Lemma toy_laws : @LibLaws toy_lib.
Proof.
  split.
  - intros x s. unfold s. cbn [urlsafe_b64encode urlsafe_b64decode toy_lib].
    rewrite pack_no_pad. unfold rstrip_pad.
    rewrite rstrip_with_app by (by apply forallb_repeat_pad).
    fold (rstrip_pad (pack "B" x)). rewrite pack_no_pad. apply unpack_pack.
  - intros x. simpl. apply bits_b64url.
  - intros x _. cbn [urlsafe_b64encode toy_lib]. by rewrite pack_no_pad.
  - intros p. cbn [json_dumps json_loads toy_lib]. rewrite unpack_pack.
    by destruct p.
  - done.
  - done.
Qed.


End TokenFacts.

(** ** Facts about the [/edit] handler *)

Module ServerFacts.
Import State Server ServerSpec ServerToy.

(** One step of a run: the monad operations are unfolded and the
    projections of the updated application are computed. *)
Ltac run_step :=
  unfold mbind, state_bind, bind, mret, state_ret, ret, modify, get, put,
         emit, log_patch;
  cbn [fst snd trace data fs model patch_cfg write_token_secret workspace_root
       set_trace set_data set_fs set_model].

Section Runs.
Context `{Learning.Scorer} `{Token.Lib} `{OS}.

Lemma model_evaluate_run text e c t r (app : App) :
  model_evaluate text e c t r app
  = (eval (Learning.evaluate text e c t r) (model app), app).
Proof.
  unfold model_evaluate, zoom.
  pose proof (LearningFacts.evaluate_state text e c t r (model app)) as Hst.
  unfold exec in Hst. unfold eval.
  destruct (Learning.evaluate text e c t r (model app)) as [rep m'].
  simpl in *. subst m'. by destruct app.
Qed.

Lemma new_events_app (app app' : App) evs :
  trace app' = trace app ++ evs → new_events app app' = evs.
Proof. intros Ht. unfold new_events. rewrite Ht. apply drop_app_length. Qed.

Lemma new_events_nil (app : App) : new_events app app = [].
Proof. unfold new_events. apply drop_all. Qed.



Lemma read_old_code_events fs root filename old_code s l :
  read_old_code fs root filename old_code = Some (s, l) → Forall is_read l.
Proof.
  unfold read_old_code. intros Hr.
  destruct (String.eqb old_code EmptyString); [|by simplify_eq].
  destruct (resolve_workspace_path fs root filename) as [target|]; [|done].
  destruct (path_exists fs target); [|by simplify_eq].
  destruct (read_text fs target); simplify_eq/=. by repeat constructor.
Qed.


(** The two flows read forwards: a request that reaches the ceiling check
    with too many changes is answered "patch_too_large", and the application
    object differs from the one before only by the recorded statistics (and,
    in the generation flow, the reads of the old code). *)
Lemma apply_flow_rejects_large_patch env req text e a filename app report :
  let diff_text := default EmptyString (req_diff req) in
  eval (Learning.evaluate text e None None a) (model app) = Some report →
  Learning.allowed report = true →
  over_ceiling (patch_cfg app) (Learning.required_unlock report)
               (_diff_stats diff_text) = true →
  edit_apply env req text e a filename app
  = (PatchTooLarge filename (_diff_stats diff_text) report,
     set_trace (trace app ++ [EvDiffStats (Learning.required_unlock report) diff_text
                                          (total_changes (_diff_stats diff_text))])
               app).
Proof.
  intros diff_text Hreport Hallowed Hover.
  unfold edit_apply. run_step. rewrite model_evaluate_run, Hreport.
  rewrite Hallowed. cbn [negb]. run_step.
  unfold diff_text in *. by rewrite Hover.
Qed.

Lemma generate_flow_rejects_large_patch env req text e a filename app
      old_code reads report :
  let new_code := default EmptyString (req_new_code req) in
  let diff_text :=
    EditorEngine.generate_unified_diff get_grouped_opcodes old_code new_code in
  read_old_code (fs app) (workspace_root app) filename
                (default EmptyString (req_old_code req)) = Some (old_code, reads) →
  eval (Learning.evaluate text e (Some old_code) (req_tests req) a) (model app)
  = Some report →
  (default 200000 (max_new_code_chars (patch_cfg app))
   <? Z.of_nat (String.length new_code))%Z = false →
  String.eqb old_code EmptyString && String.eqb new_code EmptyString = false →
  Learning.allowed report = true →
  default true (require_code_eval_pass (patch_cfg app))
  && negb (from_option Learning.ce_ok false (Learning.code_eval report)) = false →
  over_ceiling (patch_cfg app) (Learning.required_unlock report)
               (_diff_stats diff_text) = true →
  edit_generate env req text e a filename app
  = (PatchTooLarge filename (_diff_stats diff_text) report,
     set_trace ((trace app ++ reads)
                ++ [EvDiffStats (Learning.required_unlock report) diff_text
                                (total_changes (_diff_stats diff_text))])
               app).
Proof.
  intros new_code diff_text Hread Hreport Hsize Hboth Hallowed Heval Hover.
  unfold edit_generate. run_step. rewrite Hread. run_step. cbn beta iota.
  run_step. unfold new_code in *. rewrite Hsize, Hboth. run_step.
  rewrite model_evaluate_run. run_step. rewrite Hreport. run_step.
  unfold diff_text in *. rewrite Hallowed. cbn [negb].
  rewrite Heval. run_step. by rewrite Hover.
Qed.


(** In the patch-application flow a denial returns at once: the
    application object is unchanged, no row is logged. *)
Lemma apply_flow_denial_not_logged env req text e a filename app report :
  eval (Learning.evaluate text e None None a) (model app) = Some report →
  Learning.allowed report = false →
  edit_apply env req text e a filename app = (CapabilityLocked report, app).
Proof.
  intros Hreport Hdenied.
  unfold edit_apply. run_step. rewrite model_evaluate_run, Hreport.
  by rewrite Hdenied.
Qed.

Lemma generate_flow_denial_logged env req text e a filename app old_code reads :
  read_old_code (fs app) (workspace_root app) filename
                (default EmptyString (req_old_code req)) = Some (old_code, reads) →
  (default 200000 (max_new_code_chars (patch_cfg app))
   <? Z.of_nat (String.length (default EmptyString (req_new_code req))))%Z = false →
  String.eqb old_code EmptyString
  && String.eqb (default EmptyString (req_new_code req)) EmptyString = false →
  ∀ report,
  eval (Learning.evaluate text e (Some old_code) (req_tests req) a) (model app)
  = Some report →
  Learning.allowed report = false →
  let run := edit_generate env req text e a filename app in
  run.1 = CapabilityLocked report ∧
  ∃ row, data run.2 = data app ++ [row] ∧ row_allowed row = false.
Proof.
  intros Hread Hsize Hboth report Hreport Hdenied run.
  unfold run, edit_generate. run_step. rewrite Hread. run_step. cbn beta iota.
  run_step. rewrite Hsize, Hboth. run_step. rewrite model_evaluate_run.
  run_step. rewrite Hreport. run_step. rewrite Hdenied. cbn. eauto.
Qed.

Lemma resolve_workspace_path_sound fs0 root filename target :
  resolve_workspace_path fs0 root filename = Some target →
  root `prefix_of` target ∧
  is_absolute (Path filename) = false ∧
  resolve fs0 (root ++ parts (Path filename)) = Some target.
Proof.
  unfold resolve_workspace_path.
  destruct (is_absolute (Path filename)); [done|].
  destruct (resolve fs0 _) as [t|]; [|done]. simpl.
  case_bool_decide; [|done]. by intros [= <-].
Qed.

Lemma resolve_workspace_path_rejects fs0 root filename :
  (is_absolute (Path filename) = true →
   resolve_workspace_path fs0 root filename = None) ∧
  (∀ t, resolve fs0 (root ++ parts (Path filename)) = Some t →
        ¬ root `prefix_of` t →
        resolve_workspace_path fs0 root filename = None) ∧
  (resolve fs0 (root ++ parts (Path filename)) = None →
   resolve_workspace_path fs0 root filename = None).
Proof.
  unfold resolve_workspace_path. repeat split.
  - by intros ->.
  - intros t Ht Hno. destruct (is_absolute _); [done|]. rewrite Ht. simpl.
    by case_bool_decide.
  - intros Hr. destruct (is_absolute _); [done|]. by rewrite Hr.
Qed.


Lemma edit_apply_writes env req text e a filename app :
  let run := edit_apply env req text e a filename app in
  (∀ target new_text,
     EvWriteText target new_text ∈ new_events app run.2 →
     resolve_workspace_path (fs app) (workspace_root app) filename = Some target) ∧
  (resolve_workspace_path (fs app) (workspace_root app) filename = None →
   Forall (λ ev, ¬ is_fs_effect ev) (new_events app run.2) ∧
   fs run.2 = fs app ∧
   (default true (write_to_file (patch_cfg app)) = true →
    run.1 = ServerError ∨ is_error_reply run.1)).
Proof.
  intros run. unfold run, edit_apply. run_step. rewrite model_evaluate_run.
  repeat (run_step; cbn beta iota;
          match goal with
          | |- context [if ?x then _ else _] => destruct x eqn:?
          | |- context [match ?x with _ => _ end] => destruct x eqn:?
          end; simplify_eq/=).
  all: cbn [fst snd].
  all: try rewrite new_events_nil.
  all: try erewrite new_events_app
         by (cbn [trace set_trace set_data set_fs]; rewrite <- ?app_assoc; reflexivity).
  all: split; [intros target new_text Hin|intros Hnone].
  all: repeat (apply elem_of_cons in Hin as [Hin|Hin]);
       try (by apply elem_of_nil in Hin); try discriminate; simplify_eq; try done.
  all: split; [repeat constructor; try (by intros [])|].
  all: split; [done|]; intros ?; try discriminate.
  all: first [by left|right; split; [by eexists|cbn; lia]].
Qed.

Lemma edit_generate_writes env req text e a filename app :
  let run := edit_generate env req text e a filename app in
  Forall (λ ev, ¬ is_fs_effect ev) (new_events app run.2) ∧ fs run.2 = fs app.
Proof.
  intros run. unfold run, edit_generate. run_step.
  destruct (read_old_code _ _ _ _) as [[old_code reads]|] eqn:Hread.
  2:{ cbn [snd]. rewrite new_events_nil. by split. }
  apply read_old_code_events in Hread.
  assert (Forall (λ ev, ¬ is_fs_effect ev) reads) as Hr.
  { eapply Forall_impl; [exact Hread|]. by intros [] ? ?. }
  repeat (run_step; cbn beta iota; try rewrite model_evaluate_run;
          match goal with
          | |- context [if ?x then _ else _] => destruct x eqn:?
          | |- context [match ?x with _ => _ end] => destruct x eqn:?
          end; simplify_eq/=).
  all: cbn [fst snd].
  all: erewrite new_events_app
         by (cbn [trace set_trace set_data set_fs]; rewrite <- ?app_assoc;
             try rewrite (app_nil_r (trace app ++ reads)); reflexivity).
  all: split; [|done].
  all: try (apply Forall_app; split; [done|]).
  all: try done.
  all: repeat constructor; by intros [].
Qed.

End Runs.
Section Claims.
Context `{Learning.Scorer} `{Token.Lib} `{OS}.

(** C8, as amended: [resolve_workspace_path] returns a path only when the
    file name is relative and the workspace root is a prefix of its
    resolution (the path is the root or below it); it raises for an
    absolute name and for a resolution that is not within the root.  In
    a request, every file that is written has passed this check.  When
    the file name of the request fails it, no directory is made and no
    file is written; in the patch-application flow with [write_to_file]
    enabled the request then never gets a success: a reply to it is an
    error response, with an error text and a status from 400 to 499 (no
    reply is [ServerError], where an exception has left the handler). *)
Theorem workspace_writes_validated :
  (∀ fs0 root filename target,
     resolve_workspace_path fs0 root filename = Some target →
     root `prefix_of` target ∧
     is_absolute (Path filename) = false ∧
     resolve fs0 (root ++ parts (Path filename)) = Some target) ∧
  (∀ fs0 root filename,
     is_absolute (Path filename) = true →
     resolve_workspace_path fs0 root filename = None) ∧
  (∀ fs0 root filename t,
     resolve fs0 (root ++ parts (Path filename)) = Some t →
     ¬ root `prefix_of` t →
     resolve_workspace_path fs0 root filename = None) ∧
  (∀ env req (app : App),
     let run := do_POST_edit env req app in
     let validated :=
       resolve_workspace_path (fs app) (workspace_root app) (request_filename req) in
     (∀ target new_text,
        EvWriteText target new_text ∈ new_events app run.2 →
        validated = Some target ∧ workspace_root app `prefix_of` target) ∧
     (validated = None →
      Forall (λ ev, ¬ is_fs_effect ev) (new_events app run.2) ∧
      fs run.2 = fs app ∧
      (is_Some (req_diff req) → is_Some (req_base_code req) →
       default true (write_to_file (patch_cfg app)) = true →
       run.1 = ServerError ∨ is_error_reply run.1))).
Proof.
  split; [apply resolve_workspace_path_sound|].
  split; [intros fs0 root filename Habs;
          destruct (resolve_workspace_path_rejects fs0 root filename) as (Ha & _);
          by apply Ha|].
  split; [intros fs0 root filename t Hr Hno;
          destruct (resolve_workspace_path_rejects fs0 root filename) as (_ & Hb & _);
          by apply (Hb t)|].
  intros env req app run validated. unfold run, do_POST_edit.
  destruct (req_diff req) as [d|], (req_base_code req) as [b|].
  1: destruct (edit_apply_writes env req
                 (match Py.strip (default EmptyString (req_text req)) with
                  | EmptyString => "(no-text)"
                  | t => t
                  end)
                 (strip_or_none (req_expected_intent req))
                 (strip_or_none (req_requested_action req))
                 (request_filename req) app) as [Hw Hn].
  1: { split.
       - intros target new_text Hin. specialize (Hw _ _ Hin). split; [done|].
         by apply resolve_workspace_path_sound in Hw as [? _].
       - intros Hnone. destruct (Hn Hnone) as (? & ? & ?). auto. }
  all: destruct (edit_generate_writes env req
                 (match Py.strip (default EmptyString (req_text req)) with
                  | EmptyString => "(no-text)"
                  | t => t
                  end)
                 (strip_or_none (req_expected_intent req))
                 (strip_or_none (req_requested_action req))
                 (request_filename req) app) as [Hf Hfs].
  all: split;
    [intros target new_text Hin; rewrite Forall_forall in Hf;
     by apply Hf in Hin
    |intros _; split; [done|]; split; [done|]; by intros [] []].
Qed.

End Claims.


(** C6, at a denied request: a model with no history is asked to apply a
    patch under the "refactor" action.  The reply is 403 "Capability
    locked" and the audit store has no row, and no other effect is
    recorded.  The same denial in the patch-generation flow does add a
    row with [allowed] false. *)
Theorem apply_denial_leaves_no_audit_row :
  let app := toy_app novice (toy_cfg None None) in
  let applied := run_toy (apply_request "refactor" "a.py") app in
  let generated := run_toy (generate_request "refactor" "a.py") app in
  (status applied.1 = 403%Z ∧
   error_text applied.1 = Some "Capability locked" ∧
   data applied.2 = [] ∧ trace applied.2 = []) ∧
  (status generated.1 = 403%Z ∧
   error_text generated.1 = Some "Capability locked" ∧
   ∃ row, data generated.2 = [row] ∧ row_allowed row = false).
Proof.
  vm_compute. repeat split. eexists. split; reflexivity.
Qed.

(** C8 as stated fails at three inputs.  With [write_to_file] off, the
    file name ["/etc/passwd"] does not pass [resolve_workspace_path], yet
    the patch-application flow replies 200 without an error (and writes
    nothing).  For the file name ["."] the path that is returned is the
    workspace root itself, not a path below it.  With [write_to_file]
    on, the file name ["../x.py"] does not pass the check, and a request
    whose diff has a header number of 4301 digits gets no reply at all:
    [int] raises while the diff is applied. *)
Lemma invalid_filename_counterexamples :
  (let app := toy_app expert (toy_cfg (Some false) (Some false)) in
   let run := run_toy (apply_request "refactor" "/etc/passwd") app in
   @resolve_workspace_path toy_os (fs app) (workspace_root app) "/etc/passwd" = None ∧
   status run.1 = 200%Z ∧
   error_text run.1 = None) ∧
  (let app := toy_app expert (toy_cfg None None) in
   @resolve_workspace_path toy_os (fs app) (workspace_root app) "."
   = Some (workspace_root app)) ∧
  (let app := toy_app expert (toy_cfg None (Some false)) in
   let run := run_toy (long_number_request "../x.py") app in
   @resolve_workspace_path toy_os (fs app) (workspace_root app) "../x.py" = None ∧
   run.1 = ServerError ∧
   error_text run.1 = None ∧
   data run.2 = []).
Proof. vm_compute. done. Qed.

Lemma workspace_writes_validated_witness :
  let app := toy_app expert (toy_cfg None (Some false)) in
  let escaping := run_toy (apply_request "refactor" "../x.py") app in
  let inside := run_toy (apply_request "refactor" "sub/x.py") app in
  (is_error_reply escaping.1 ∧ fs escaping.2 = fs app) ∧
  (∀ target new_text,
     EvWriteText target new_text ∈ new_events app inside.2 →
     workspace_root app `prefix_of` target).
Proof.
  intros app escaping inside.
  destruct (workspace_writes_validated
              (H:=LearningSpec.perfect_scorer) (H0:=TokenToy.toy_lib) (H1:=toy_os))
    as (_ & _ & _ & Hrun).
  split.
  - destruct (Hrun toy_env (apply_request "refactor" "../x.py") app) as [_ Hnone].
    destruct Hnone as (_ & Hfs & Hreply); [reflexivity|].
    split; [|exact Hfs].
    destruct Hreply as [Herr|Herr]; [by eexists|by eexists|reflexivity| |exact Herr].
    vm_compute in Herr. discriminate Herr.
  - intros target new_text Hin.
    destruct (Hrun toy_env (apply_request "refactor" "sub/x.py") app) as [Hw _].
    by destruct (Hw target new_text Hin).
Defined.

End ServerFacts.

(** ** Facts about strings *)

Module StringFacts.

Lemma append_assoc (a b c : string) : (a +:+ b) +:+ c = a +:+ (b +:+ c).
Proof.
  induction a as [|x a IH]; [done|].
  change (String x ((a +:+ b) +:+ c) = String x (a +:+ (b +:+ c))). by f_equal.
Qed.

Lemma append_empty_r (a : string) : a +:+ EmptyString = a.
Proof.
  induction a as [|x a IH]; [done|].
  change (String x (a +:+ EmptyString) = String x a). by f_equal.
Qed.

Lemma prefix_cons a (p s : string) :
  String.prefix (String a p) (String a s) = String.prefix p s.
Proof. simpl. by destruct (ascii_dec a a). Qed.

Lemma prefix_differs a b (p s : string) :
  a ≠ b → String.prefix (String a p) (String b s) = false.
Proof. intros Hab. simpl. by destruct (ascii_dec a b). Qed.

End StringFacts.

(** ** Facts about floating point comparisons *)

Module FloatFacts.
Import Learning.

Lemma SFcompare_lt_le a b : SFltb a b = true → SFleb a b = true.
Proof. unfold SFltb, SFleb. by destruct (SFcompare a b) as [[]|]. Qed.

Lemma ltb_leb a b : PrimFloat.ltb a b = true → PrimFloat.leb a b = true.
Proof.
  rewrite FloatAxioms.ltb_spec, FloatAxioms.leb_spec. apply SFcompare_lt_le.
Qed.

Lemma SFleb_trans a b c :
  SFleb a b = true → SFleb b c = true → SFleb a c = true.
Proof.
  unfold SFleb.
  destruct a as [sa|sa| |sa ma ea], b as [sb|sb| |sb mb eb],
           c as [sc|sc| |sc mc ec]; simpl;
    repeat match goal with s : bool |- _ => destruct s end; simpl;
    try done.
  all: change (PosDef.Pos.compare_cont Eq ?x ?y) with (Pos.compare x y).
  all: destruct (Z.compare_spec ea eb), (Z.compare_spec eb ec),
                (Z.compare_spec ea ec); simpl; try done; try lia.
  all: subst.
  all: destruct (Pos.compare_spec ma mb), (Pos.compare_spec mb mc),
                (Pos.compare_spec ma mc); simpl; try done; try lia.
Qed.

Lemma leb_trans a b c :
  PrimFloat.leb a b = true → PrimFloat.leb b c = true → PrimFloat.leb a c = true.
Proof. rewrite !FloatAxioms.leb_spec. apply SFleb_trans. Qed.

(** [max(0.0, min(1.0, t))] lies between 0 and 1 for every [t], not a
    number included. *)
Lemma clamp_bounds t :
  PrimFloat.leb 0 (py_max 0 (py_min 1 t)) = true ∧
  PrimFloat.leb (py_max 0 (py_min 1 t)) 1 = true.
Proof.
  unfold py_max, py_min.
  destruct (PrimFloat.ltb t 1) eqn:H1.
  - destruct (PrimFloat.ltb 0 t) eqn:H0.
    + split; by apply ltb_leb.
    + done.
  - done.
Qed.

(** A product with [0 / y] is never above zero. *)
Lemma zero_div_mul_not_pos y w :
  PrimFloat.ltb 0 ((0 / y) * w) = false.
Proof.
  rewrite FloatAxioms.ltb_spec, FloatAxioms.mul_spec, FloatAxioms.div_spec.
  change (Prim2SF 0) with (S754_zero false).
  destruct (Prim2SF y) as [sy|sy| |sy my ey], (Prim2SF w) as [sw|sw| |sw mw ew];
    simpl; try done;
    repeat match goal with s : bool |- _ => destruct s end; done.
Qed.

Lemma zero_le_lt_trans b c :
  PrimFloat.leb 0 b = true → PrimFloat.ltb b c = true → PrimFloat.leb 0 c = true.
Proof.
  intros H0 Hlt. apply ltb_leb in Hlt. by apply (leb_trans _ b).
Qed.

Lemma SFltb_trans a b c :
  SFltb a b = true → SFltb b c = true → SFltb a c = true.
Proof.
  unfold SFltb.
  destruct a as [sa|sa| |sa ma ea], b as [sb|sb| |sb mb eb],
           c as [sc|sc| |sc mc ec]; simpl;
    repeat match goal with s : bool |- _ => destruct s end; simpl;
    try done.
  all: change (PosDef.Pos.compare_cont Eq ?x ?y) with (Pos.compare x y).
  all: destruct (Z.compare_spec ea eb), (Z.compare_spec eb ec),
                (Z.compare_spec ea ec); simpl; try done; try lia.
  all: subst.
  all: destruct (Pos.compare_spec ma mb), (Pos.compare_spec mb mc),
                (Pos.compare_spec ma mc); simpl; try done; try lia.
Qed.

Lemma ltb_trans a b c :
  PrimFloat.ltb a b = true → PrimFloat.ltb b c = true → PrimFloat.ltb a c = true.
Proof. rewrite !FloatAxioms.ltb_spec. apply SFltb_trans. Qed.

(** [min(1.0, s)] of a positive [s] is positive and at most 1. *)
Lemma min_one_pos s :
  PrimFloat.ltb 0 s = true →
  PrimFloat.ltb 0 (py_min 1 s) = true ∧ PrimFloat.leb (py_min 1 s) 1 = true.
Proof.
  intros Hs. unfold py_min. destruct (PrimFloat.ltb s 1) eqn:H1.
  - split; [done|by apply ltb_leb].
  - done.
Qed.

End FloatFacts.

(** ** Facts about the intent classifier *)

Module IntentFacts.
Import State Learning Intent IntentSpec FloatFacts StringFacts.
Import Token (forallb_string).

Lemma append_snoc_nonempty (w : string) (c : ascii) :
  w +:+ String c EmptyString ≠ EmptyString.
Proof. by destruct w. Qed.

Lemma forallb_string_snoc p (w : string) (c : ascii) :
  forallb_string p (w +:+ String c EmptyString)
  = forallb_string p w && p c.
Proof.
  induction w as [|x w IH]; simpl.
  - by rewrite andb_true_r.
  - by rewrite IH, andb_assoc.
Qed.

Lemma lower_lower c : lower (lower c) = lower c.
Proof.
  unfold lower, Py.code.
  destruct c as [[] [] [] [] [] [] [] []]; vm_compute; reflexivity.
Qed.

Lemma str_lower_lower s : str_lower (str_lower s) = str_lower s.
Proof. induction s as [|c s IH]; [done|]. simpl. by rewrite lower_lower, IH. Qed.

Lemma str_lower_app a b : str_lower (a +:+ b) = str_lower a +:+ str_lower b.
Proof. induction a as [|c a IH]; [done|]. simpl. by rewrite IH. Qed.

Lemma tokenize_loop_tokens s buf w :
  str_lower s = s → Forall is_token buf → is_part w →
  Forall is_token (tokenize_loop s buf w).
Proof.
  revert buf w. induction s as [|ch s IH]; intros buf w Hs Hbuf [Hw Hl]; simpl.
  - destruct (String.eqb_spec w EmptyString) as [->|Hne]; simpl; [done|].
    apply Forall_app. split; [done|]. by repeat constructor.
  - simpl in Hs. injection Hs as Hch Hs.
    destruct (is_word_char ch) eqn:Hword.
    + apply IH; [done|done|]. split.
      * by rewrite forallb_string_snoc, Hw, Hword.
      * by rewrite str_lower_app, Hl; simpl; rewrite Hch.
    + destruct (String.eqb_spec w EmptyString) as [->|Hne]; simpl.
      * by apply IH.
      * apply IH; [done| |done].
        apply Forall_app. split; [done|]. by repeat constructor.
Qed.

Lemma tokenize_loop_word t rest buf w :
  forallb_string is_word_char t = true →
  tokenize_loop (t +:+ rest) buf w = tokenize_loop rest buf (w +:+ t).
Proof.
  revert w. induction t as [|c t IH]; intros w Ht; simpl.
  - by rewrite append_empty_r.
  - simpl in Ht. apply andb_true_iff in Ht as [Hc Ht].
    rewrite Hc, IH by done. by rewrite append_assoc.
Qed.

Lemma tokenize_loop_join ts buf :
  Forall is_token ts →
  tokenize_loop (Py.join " " ts) buf EmptyString = buf ++ ts.
Proof.
  revert buf. induction ts as [|t ts IH]; intros buf Hts.
  - simpl. by rewrite app_nil_r.
  - apply Forall_cons in Hts as [(Hne & Hword & _) Hts].
    destruct ts as [|t' ts].
    + change (Py.join " " [t]) with t.
      rewrite <- (append_empty_r t) at 1.
      rewrite tokenize_loop_word by done.
      change (EmptyString +:+ t) with t.
      change (tokenize_loop EmptyString buf t)
        with (if negb (String.eqb t EmptyString) then buf ++ [t] else buf).
      by destruct (String.eqb_spec t EmptyString).
    + change (Py.join " " (t :: t' :: ts))
        with (t +:+ " " +:+ Py.join " " (t' :: ts)).
      rewrite tokenize_loop_word by done.
      change (EmptyString +:+ t) with t.
      change (tokenize_loop (" " +:+ Py.join " " (t' :: ts)) buf t)
        with (if negb (String.eqb t EmptyString)
              then tokenize_loop (Py.join " " (t' :: ts)) (buf ++ [t]) EmptyString
              else tokenize_loop (Py.join " " (t' :: ts)) buf t).
      destruct (String.eqb_spec t EmptyString); [done|]. simpl negb. cbv iota.
      rewrite IH by done. by rewrite <- app_assoc.
Qed.

Lemma str_lower_join ts :
  Forall is_token ts → str_lower (Py.join " " ts) = Py.join " " ts.
Proof.
  induction ts as [|t ts IH]; intros Hts; [done|].
  apply Forall_cons in Hts as [(_ & _ & Hl) Hts].
  destruct ts as [|t' ts]; [done|].
  change (Py.join " " (t :: t' :: ts))
    with (t +:+ " " +:+ Py.join " " (t' :: ts)).
  rewrite !str_lower_app, Hl, IH by done. done.
Qed.

(** X1: every token that [_tokenize] returns is a non-empty string of
    letters, digits, underscores and hyphens, in lower case; the empty
    text has no token. *)
Theorem tokenize_yields_words (text : string) :
  Forall (λ t, t ≠ EmptyString ∧
               forallb_string is_word_char t = true ∧
               str_lower t = t)
         (_tokenize text) ∧
  _tokenize EmptyString = [].
Proof.
  split; [|done].
  apply (tokenize_loop_tokens (str_lower text) [] EmptyString).
  - apply str_lower_lower.
  - constructor.
  - done.
Qed.

(** X2: tokenizing is stable: the tokens of a text, joined by single
    spaces, tokenize to the same tokens. *)
Theorem tokenize_join_stable (text : string) :
  _tokenize (Py.join " " (_tokenize text)) = _tokenize text.
Proof.
  assert (Forall is_token (_tokenize text)) as Hts.
  { apply (tokenize_loop_tokens (str_lower text) [] EmptyString);
      [apply str_lower_lower|constructor|done]. }
  unfold _tokenize at 1. rewrite str_lower_join by done.
  by rewrite tokenize_loop_join.
Qed.

Lemma predict_intent_fold km tokens :
  _predict_intent km tokens
  = let st := fold_left (predict_step tokens) km ("unknown", 0.0%float) in
    (st.1, py_min 1.0 st.2).
Proof.
  unfold _predict_intent. fold (predict_step tokens).
  by destruct (fold_left _ _ _).
Qed.

Lemma predict_step_inv tokens keys st intent spec :
  predict_inv keys st → intent ∈ keys →
  predict_inv keys (predict_step tokens st (intent, spec)).
Proof.
  intros Hinv Hin. destruct st as [bi bs]. unfold predict_step.
  destruct (kws_of spec) as [|k kws]; [done|].
  destruct (PrimFloat.ltb bs _) eqn:Hlt; [|done].
  right. split; [done|]. simpl.
  destruct Hinv as [[= -> ->]|[_ Hpos]]; [done|].
  by apply (ltb_trans _ bs).
Qed.

Lemma predict_fold_inv tokens keys km st :
  predict_inv keys st → km.*1 ⊆ keys →
  predict_inv keys (fold_left (predict_step tokens) km st).
Proof.
  revert st. induction km as [|[intent spec] km IH]; intros st Hinv Hsub; [done|].
  simpl. apply IH.
  - apply predict_step_inv; [done|]. apply Hsub. simpl. left.
  - intros x Hx. apply Hsub. simpl. by right.
Qed.

(** X3: [_predict_intent] returns either ("unknown", 0.0), or an intent of
    the keyword map with a confidence above 0 and at most 1, whatever
    the configured weights are. *)
Theorem predict_intent_result (km : list (string * KeywordSpec))
        (tokens : list string) :
  let r := _predict_intent km tokens in
  r = ("unknown", 0.0%float) ∨
  (r.1 ∈ km.*1 ∧ PrimFloat.ltb 0 r.2 = true ∧ PrimFloat.leb r.2 1 = true).
Proof.
  intros r. unfold r. rewrite predict_intent_fold. cbv zeta.
  destruct (predict_fold_inv tokens (km.*1) km ("unknown", 0.0%float))
    as [->|[Hin Hpos]]; [by left|done|by left|].
  right. split; [done|]. by apply min_one_pos.
Qed.

Lemma count_hits_none kws tokens :
  (∀ t, t ∈ tokens → t ∉ kws) → count_hits kws tokens = 0%nat.
Proof.
  intros Hno. unfold count_hits.
  induction tokens as [|t tokens IH]; [done|].
  rewrite filter_cons. destruct (decide (t ∈ kws)) as [Hin|_].
  - exfalso. apply (Hno t); [left|done].
  - apply IH. intros t' Ht'. apply Hno. by right.
Qed.

(** X4: when no token is a keyword of any intent, [_predict_intent]
    returns ("unknown", 0.0): no weight, however large, negative or
    undefined, makes an intent win without a hit. *)
Theorem predict_intent_without_hits (km : list (string * KeywordSpec))
        (tokens : list string) :
  (∀ intent spec t, (intent, spec) ∈ km → t ∈ tokens → t ∉ keywords spec) →
  _predict_intent km tokens = ("unknown", 0.0%float).
Proof.
  intros Hno. rewrite predict_intent_fold. cbv zeta.
  assert (fold_left (predict_step tokens) km ("unknown", 0.0%float)
          = ("unknown", 0.0%float)) as ->; [|done].
  induction km as [|[intent spec] km IH]; [done|].
  cbn [fold_left].
  assert (predict_step tokens ("unknown", 0.0%float) (intent, spec)
          = ("unknown", 0.0%float)) as ->.
  { unfold predict_step. destruct (kws_of spec) as [|k kws] eqn:Hk; [done|].
    rewrite count_hits_none.
    - unfold truediv. change (float_of_nat 0) with 0%float.
      by rewrite zero_div_mul_not_pos.
    - intros t Ht. rewrite <- Hk. unfold kws_of. rewrite elem_of_remove_dups.
      apply (Hno intent spec t); [left|done]. }
  apply IH. intros i s t Hin. apply (Hno i s t). by right.
Qed.

Lemma predict_intent_without_hits_witness :
  _predict_intent [("explain", mkKeywordSpec ["why"; "how"] (Some 1000%float))]
                  ["hello"; "world"]
  = ("unknown", 0.0%float).
Proof.
  apply predict_intent_without_hits.
  intros intent spec t Hin Ht Hk.
  apply list_elem_of_singleton in Hin as [= -> ->].
  set_unfold. naive_solver.
Defined.

Lemma score_intent_bounds st km pred exp conf tokens :
  let b := _score_intent st km pred exp conf tokens in
  safety b = 1.0%float ∧
  (PrimFloat.leb 0 (confidence b) = true ∧ PrimFloat.leb (confidence b) 1 = true) ∧
  (PrimFloat.leb 0 (intent_total b) = true ∧ PrimFloat.leb (intent_total b) 1 = true).
Proof.
  unfold _score_intent. cbn [safety confidence intent_total].
  split; [done|]. split; apply clamp_bounds.
Qed.

(** X5: the total score of every report that [evaluate] returns lies
    between 0.0 and 1.0, whatever the weights of the configuration and
    whatever result the code evaluator returns: the score that
    [update_progress] folds in is never out of range and never
    undefined. *)
Theorem total_score_in_range
        (ce : CodePolicy → string → option string → option CodeEvalResult)
        (text : string) (exp code tests req : option string)
        (self : LearningModel) (r : ScoreReport) :
  eval (evaluate (H:=scorer ce) text exp code tests req) self = Some r →
  PrimFloat.leb 0 (total_score r) = true ∧
  PrimFloat.leb (total_score r) 1 = true.
Proof.
  unfold eval, evaluate, mbind, state_bind, bind, get.
  cbn [Learning._tokenize Learning._predict_intent Learning._score_intent
       Learning.code_evaluator_evaluate scorer].
  destruct (_predict_intent (keyword_map self) (_tokenize text)) as [pred conf].
  destruct (_resolve_required_unlock self pred req) as [action ru].
  cbn [fst snd].
  pose proof (score_intent_bounds (standards self) (keyword_map self)
                pred exp conf (_tokenize text)) as (_ & _ & Hlo & Hhi).
  cbv zeta in Hlo, Hhi.
  destruct (nonblank code).
  - destruct (ce _ _ _) as [res|]; [|done].
    cbn [fmap option_fmap option_map mret state_ret ret fst].
    intros [= <-]. cbn [total_score].
    destruct (PrimFloat.leb _ 0); [done|].
    destruct (PrimFloat.leb _ 0); [done|]. apply clamp_bounds.
  - cbn [fmap option_fmap option_map mret state_ret ret fst].
    by intros [= <-].
Qed.

Lemma total_score_in_range_witness :
  ∃ r,
    eval (evaluate (H:=ModelScorer.model_scorer (H:=CodeEvalToy.toy_python))
                   "explain this" None (Some "x = 1") None None)
         (LearningSpec.fresh_model None ∅) = Some r ∧
    PrimFloat.leb 0 (total_score r) = true ∧
    PrimFloat.leb (total_score r) 1 = true.
Proof.
  destruct (eval (evaluate (H:=ModelScorer.model_scorer (H:=CodeEvalToy.toy_python))
                           "explain this" None (Some "x = 1") None None)
                 (LearningSpec.fresh_model None ∅)) as [r|] eqn:Hr;
    [|vm_compute in Hr; discriminate Hr].
  exists r. split; [reflexivity|].
  exact (total_score_in_range _ _ _ _ _ _ _ r Hr).
Defined.

(** X6: the authority level that [get_state] shows agrees with the unlock
    map at the same proficiency: "Architect" exactly when
    autonomous_editing is unlocked, "Observer" exactly when no tier is,
    and each level in between has the tier it is named for unlocked. *)
Theorem authority_agrees_with_unlocks (self : LearningModel) (percent : float) :
  let a := _authority_level self percent in
  let u := _compute_unlocks self percent in
  (level a = "Architect" ↔ u !! "autonomous_editing" = Some true) ∧
  (level a = "Observer" ↔ ∀ tier, u !! tier ≠ Some true) ∧
  (level a = "Senior Dev" → u !! "refactor_lint" = Some true) ∧
  (level a = "Junior Dev" → u !! "minor_edits" = Some true) ∧
  (level a = "Advisor" → u !! "assist_mode" = Some true).
Proof.
  unfold _authority_level, _compute_unlocks.
  set (t1 := default _ (thresholds self !! "assist_mode")).
  set (t2 := default _ (thresholds self !! "minor_edits")).
  set (t3 := default _ (thresholds self !! "refactor_lint")).
  set (t4 := default _ (thresholds self !! "autonomous_editing")).
  assert (∀ (b1 b2 b3 b4 : bool) tier,
            (<["assist_mode" := b1]> (<["minor_edits" := b2]>
               (<["refactor_lint" := b3]>
                  (<["autonomous_editing" := b4]> (∅ : gmap string bool))))) !! tier
            = Some true →
            b1 = true ∨ b2 = true ∨ b3 = true ∨ b4 = true) as Hany.
  { intros b1 b2 b3 b4 tier.
    rewrite !lookup_insert_Some, lookup_empty. naive_solver. }
  destruct (ge percent t4) eqn:H4, (ge percent t3) eqn:H3,
           (ge percent t2) eqn:H2, (ge percent t1) eqn:H1;
    cbn [level]; repeat split; try done; try (intros; discriminate).
  all: try (intros Hall; exfalso;
            first [apply (Hall "autonomous_editing"); done
                  |apply (Hall "refactor_lint"); done
                  |apply (Hall "minor_edits"); done
                  |apply (Hall "assist_mode"); done]).
  all: try (intros _ tier Htier; apply Hany in Htier; naive_solver).
Qed.

(** X7: unlocks are monotone in the proficiency: a tier that is unlocked
    at some percent is unlocked at every larger percent. *)
Theorem compute_unlocks_monotone (self : LearningModel) (p q : float)
        (tier : string) :
  PrimFloat.leb p q = true →
  _compute_unlocks self p !! tier = Some true →
  _compute_unlocks self q !! tier = Some true.
Proof.
  intros Hpq. unfold _compute_unlocks, ge.
  rewrite !lookup_insert_Some, !lookup_empty.
  intros Hp.
  repeat (destruct Hp as [[<- Hp]|[? Hp]];
          [rewrite (leb_trans _ p q Hp Hpq); naive_solver|]).
  done.
Qed.

Lemma compute_unlocks_monotone_witness :
  _compute_unlocks (LearningSpec.fresh_model None ∅) 0.9%float !! "minor_edits"
  = Some true.
Proof.
  apply (compute_unlocks_monotone _ 0.75%float); reflexivity.
Defined.

End IntentFacts.

(** ** Facts about the code evaluator *)

Module CodeEvalFacts.
Import Learning CodeEval CodeEvalToy FloatFacts.

Lemma int_truediv_Some a b :
  b ≠ 0%Z →
  int_truediv a b = Some (SF2Prim (SFdiv prec emax (exact_of_Z a) (exact_of_Z b))).
Proof.
  intros Hb. unfold int_truediv. by destruct (Z.eqb_spec b 0).
Qed.

Lemma max_1000_nonzero z : Z.max 1000 z ≠ 0%Z.
Proof. pose proof (Z.le_max_l 1000 z). lia. Qed.

Lemma filter_nil_iff {A} (P : A → Prop) `{∀ x, Decision (P x)} (l : list A) :
  filter P l = [] ↔ ∀ x, x ∈ l → ¬ P x.
Proof.
  induction l as [|x l IH].
  - split; [intros _ y Hy; by apply elem_of_nil in Hy|done].
  - rewrite filter_cons. destruct (decide (P x)) as [Hx|Hx].
    + split; [done|]. intros Hall. exfalso. apply (Hall x); [left|done].
    + rewrite IH. split.
      * intros Hall y [->|Hy]%elem_of_cons; auto.
      * intros Hall y Hy. apply Hall. by right.
Qed.

Lemma names_of_elem walk id : id ∈ names_of walk ↔ Name id ∈ walk.
Proof.
  unfold names_of. rewrite elem_of_remove_dups.
  induction walk as [|n walk IH]; simpl.
  - split; intros Hin; by apply elem_of_nil in Hin.
  - rewrite elem_of_app, IH, elem_of_cons. split.
    + intros [Hin|Hin]; [|by right].
      destruct n; try by apply elem_of_nil in Hin.
      apply list_elem_of_singleton in Hin as ->. by left.
    + intros [<-|Hin]; [left; by apply list_elem_of_singleton|by right].
Qed.

Section Evaluate.
Context `{Python}.

(** The steps of [evaluate] on code that parses, with the division for
    the runtime score still to be made. *)
Lemma evaluate_parsed policy code tests walk :
  ast_parse code = inr walk →
  let mc := default 20%Z (max_complexity policy) in
  let complexity := length (filter (λ n, is_complex n = true) walk) in
  evaluate policy code tests = None ↔
  mc = 0%Z ∧ (0 < complexity)%nat.
Proof.
  intros Hparse mc complexity. unfold evaluate. rewrite Hparse.
  fold mc. rewrite (int_truediv_Some _ (Z.max 1000 _)) by apply max_1000_nonzero. cbn [mbind option_bind].
  fold complexity.
  destruct (Z.ltb_spec mc (Z.of_nat complexity)) as [Hlt|Hge].
  - unfold int_truediv. destruct (Z.eqb_spec mc 0) as [Hz|Hnz].
    + cbn [mbind option_bind]. split; [intros _; split; [done|lia]|done].
    + cbn [mbind option_bind]. destruct (py_compile code).
      all: split; [done|intros [? _]; done].
  - cbn [mbind option_bind]. destruct (py_compile code).
    all: split; [done|intros [? ?]; lia].
Qed.

(** X8: the evaluator raises (a division by zero) exactly on code that
    parses and has a function definition or a loop, under a policy whose
    [max_complexity] is 0; in every other case it returns a result. *)
Theorem evaluate_raises_iff (policy : CodePolicy) (code : string)
        (tests : option string) :
  evaluate policy code tests = None ↔
  ∃ walk, ast_parse code = inr walk ∧
          default 20%Z (max_complexity policy) = 0%Z ∧
          ∃ node, node ∈ walk ∧ is_complex node = true.
Proof.
  destruct (ast_parse code) as [e|walk] eqn:Hparse.
  - unfold evaluate. rewrite Hparse. split; [done|]. by intros (? & ? & _).
  - rewrite (evaluate_parsed policy code tests walk Hparse). split.
    + intros [Hz Hpos]. exists walk. split; [done|]. split; [done|].
      destruct (filter _ walk) as [|node l] eqn:Hf; [simpl in Hpos; lia|].
      exists node.
      assert (node ∈ filter (λ n, is_complex n = true) walk) as Hin
        by (rewrite Hf; left).
      by apply list_elem_of_filter in Hin as [? ?].
    + intros (walk' & [= <-] & Hz & node & Hin & Hc). split; [done|].
      assert (node ∈ filter (λ n, is_complex n = true) walk) as Hf
        by (by apply list_elem_of_filter).
      destruct (filter _ walk); [by apply elem_of_nil in Hf|simpl; lia].
Qed.

(** X9: the score of every result lies between 0.0 and 1.0, whatever the
    weights of the policy; code that does not parse scores 0.0 and is
    not ok. *)
Theorem score_in_range (policy : CodePolicy) (code : string)
        (tests : option string) (r : CodeEvalResult) :
  evaluate policy code tests = Some r →
  PrimFloat.leb 0 (ce_score r) = true ∧ PrimFloat.leb (ce_score r) 1 = true ∧
  (∀ e, ast_parse code = inl e →
        ce_ok r = false ∧ ce_score r = 0.0%float ∧
        ce_breakdown r = <["ast_parse" := 0.0%float]> ∅ ∧ ce_stderr r = [AstError e]).
Proof.
  unfold evaluate. destruct (ast_parse code) as [e|walk].
  - intros [= <-]. cbn. split; [done|]. split; [done|]. by intros e' [= <-].
  - rewrite (int_truediv_Some _ (Z.max 1000 _)) by apply max_1000_nonzero. cbn [mbind option_bind].
    destruct (_ <? _)%Z.
    + destruct (int_truediv _ _); cbn [mbind option_bind]; [|done].
      destruct (py_compile code); intros [= <-]; cbn [ce_score].
      all: split; [apply clamp_bounds|]; split; [apply clamp_bounds|done].
    + cbn [mbind option_bind].
      destruct (py_compile code); intros [= <-]; cbn [ce_score].
      all: split; [apply clamp_bounds|]; split; [apply clamp_bounds|done].
Qed.

(** X10: a result is ok exactly when the code parses, none of its imports
    is a forbidden module or a submodule of one, none of its names is a
    dangerous builtin, it compiles, and its score reaches the pass
    threshold.  No choice of weights makes code with a forbidden import
    pass. *)
Theorem ok_iff_clean (policy : CodePolicy) (code : string)
        (tests : option string) (r : CodeEvalResult) :
  evaluate policy code tests = Some r →
  (ce_ok r = true ↔
   ∃ walk, ast_parse code = inr walk ∧
     (∀ imp b, imp ∈ imports_found walk → b ∈ forbidden_imports policy →
               import_matches imp b = false) ∧
     (∀ id, Name id ∈ walk → id ∉ dangerous_builtins policy) ∧
     py_compile code = None ∧
     ge (ce_score r) (default 0.5%float (pass_threshold policy)) = true).
Proof.
  unfold evaluate. destruct (ast_parse code) as [e|walk].
  { intros [= <-]. cbn. split; [done|]. by intros (? & ? & _). }
  rewrite (int_truediv_Some _ (Z.max 1000 _)) by apply max_1000_nonzero. cbn [mbind option_bind].
  set (bad_imports := filter _ (imports_found walk)).
  set (bad_builtins := filter _ (names_of walk)).
  assert (bad_imports = [] ↔
          ∀ imp b, imp ∈ imports_found walk → b ∈ forbidden_imports policy →
                   import_matches imp b = false) as Himp.
  { unfold bad_imports. rewrite filter_nil_iff. split.
    - intros Hall imp b Himp Hb.
      destruct (import_matches imp b) eqn:Hm; [|done].
      exfalso. apply (Hall imp Himp). apply existsb_exists.
      exists b. split; [by apply list_elem_of_In|done].
    - intros Hall imp Himp [b [Hb Hm]]%existsb_exists.
      apply list_elem_of_In in Hb. by rewrite (Hall imp b) in Hm. }
  assert (bad_builtins = [] ↔
          ∀ id, Name id ∈ walk → id ∉ dangerous_builtins policy) as Hbi.
  { unfold bad_builtins. rewrite filter_nil_iff. split.
    - intros Hall id Hid. apply Hall. by apply names_of_elem.
    - intros Hall id Hid. apply Hall. by apply names_of_elem. }
  set (runtime := if (_ <? _)%Z then _ else _).
  destruct runtime as [[stderr3 runtime_score]|]; cbn [mbind option_bind]; [|done].
  destruct (py_compile code) as [e|] eqn:Hc; intros [= <-]; cbn [ce_ok ce_score].
  - rewrite andb_false_r. split; [done|]. by intros (? & _ & _ & _ & ? & _).
  - rewrite andb_true_r. rewrite andb_true_iff. split.
    + intros [Hge Hpol]. exists walk. split; [done|].
      destruct bad_imports as [|i l]; [|by destruct bad_builtins].
      destruct bad_builtins as [|b l]; [|done].
      split; [by apply Himp|]. split; [by apply Hbi|].
      split; [reflexivity|exact Hge].
    + intros (walk' & [= <-] & Hi & Hb & _ & Hge).
      apply Himp in Hi. apply Hbi in Hb.
      destruct bad_imports as [|i l]; [|done].
      destruct bad_builtins as [|b l]; [|done].
      split; [exact Hge|reflexivity].
Qed.

End Evaluate.

Lemma evaluate_raises_witness :
  evaluate (H:=toy_python) flat "def f(): pass" None = None.
Proof.
  apply (evaluate_raises_iff (H:=toy_python)).
  exists [Other; FunctionDef; Other; Other].
  split; [reflexivity|]. split; [reflexivity|].
  exists FunctionDef. split; [set_solver|reflexivity].
Defined.

Lemma score_in_range_witness :
  ∃ r, evaluate (H:=toy_python) no_os "x = 1" None = Some r ∧
       PrimFloat.leb 0 (ce_score r) = true ∧ PrimFloat.leb (ce_score r) 1 = true.
Proof.
  eexists. split; [reflexivity|].
  destruct (score_in_range (H:=toy_python) no_os "x = 1" None _ eq_refl)
    as (Hlo & Hhi & _).
  split; [exact Hlo|exact Hhi].
Defined.

Lemma ok_iff_clean_witness :
  ∃ r, evaluate (H:=toy_python) no_os "import os.path" (Some "assert True") = Some r ∧
       ce_ok r = false.
Proof.
  eexists. split; [reflexivity|].
  apply not_true_is_false. intros Hok.
  apply (ok_iff_clean (H:=toy_python) no_os "import os.path"
           (Some "assert True") _ eq_refl) in Hok
    as (walk & [= <-] & Hi & _).
  specialize (Hi "os.path" "os"). vm_compute in Hi.
  discriminate Hi; set_solver.
Defined.

End CodeEvalFacts.

(** ** Facts about the model with its own code evaluator *)

Module ModelScorerFacts.
Import State Learning CodeEval CodeEvalToy ModelScorer.

(** Where [CodeEvaluator.evaluate] divides by a [max_complexity] of 0,
    [LearningModel.evaluate] raises: code that is not blank, that parses
    and has a function definition or a loop, under a code policy whose
    [max_complexity] is 0.  The model is as before. *)
Lemma evaluate_raises_with_code `{Python} text exp code tests req self walk node :
  nonblank (Some code) = true →
  ast_parse code = inr walk →
  default 20%Z (max_complexity (code_policy self)) = 0%Z →
  node ∈ walk → is_complex node = true →
  eval (Learning.evaluate (H:=model_scorer) text exp (Some code) tests req) self = None ∧
  exec (Learning.evaluate (H:=model_scorer) text exp (Some code) tests req) self = self.
Proof.
  intros Hcode Hparse Hmc Hin Hcomplex.
  split; [|apply LearningFacts.evaluate_state].
  apply LearningFacts.evaluate_none_iff. split; [done|].
  cbn [code_evaluator_evaluate model_scorer Intent.scorer default].
  apply (CodeEvalFacts.evaluate_parsed _ code tests walk Hparse).
  split; [done|].
  assert (node ∈ filter (λ n, is_complex n = true) walk) as Hf
    by (by apply list_elem_of_filter).
  destruct (filter _ walk); [by apply elem_of_nil in Hf|simpl; lia].
Qed.

(** C9, at a code policy whose [max_complexity] is 0 and a submission
    with the code ["def f(): pass"]: [CodeEvaluator.evaluate] divides by
    zero at its complexity heuristic, [evaluate] calls it unguarded, the
    exception leaves [evaluate], and no report is returned.  The model
    is as before the call, and the same submission without the code gets
    its report. *)
Theorem evaluate_raises_on_flat_policy :
  let run code :=
    Learning.evaluate (H:=model_scorer (H:=toy_python)) "refactor this" None code
             None None flat_model in
  (run (Some "def f(): pass")).1 = None ∧
  (run (Some "def f(): pass")).2 = flat_model ∧
  is_Some (run None).1.
Proof.
  intros run.
  destruct (evaluate_raises_with_code (H:=toy_python) "refactor this" None
              "def f(): pass" None None flat_model
              [Other; FunctionDef; Other; Other] FunctionDef)
    as [Hnone Hsame]; [reflexivity|reflexivity|reflexivity|set_solver|reflexivity|].
  split; [exact Hnone|]. split; [exact Hsame|].
  apply (LearningFacts.evaluate_without_code (H:=model_scorer (H:=toy_python))).
Qed.

End ModelScorerFacts.

(** ** Facts about the data store *)

Module DataStoreFacts.
Import Learning DataStore DataStoreSpec.

Lemma py_sum_snoc l s : py_sum (l ++ [s]) = (py_sum l + s)%float.
Proof. unfold py_sum. by rewrite fold_left_app. Qed.

Lemma init_consistent now : consistent (_init_db now empty).
Proof. by eexists. Qed.

Lemma log_event_spec now1 now2 text pred exp score bd un db db' :
  log_event now1 now2 text pred exp score bd un db = Some db' →
  ∃ row,
    progress db = Some row ∧
    events db' = events db ++ [mkEventRow now1 text pred exp score bd un] ∧
    progress db' = Some (mkProgressRow now2 (cumulative_score row + score)
                                       (samples row + 1)) ∧
    patches db' = patches db ∧
    is_nan score = false.
Proof.
  unfold log_event. destruct (is_nan score) eqn:Hnan; [done|].
  destruct (progress db) as [row|]; [|done]. cbn [mbind option_bind].
  destruct (is_nan (cumulative_score row + score)); [done|].
  intros [= <-]. by exists row.
Qed.

Lemma after_consistent db c : consistent db → consistent (after db c).
Proof.
  intros (row & Hrow & Hn & Hsum). destruct c as [now|now1 now2 t p e s bd un|now r].
  - unfold after, _init_db. rewrite Hrow. by exists row.
  - unfold after.
    destruct (log_event _ _ _ _ _ _ _ _ db) as [db'|] eqn:Hlog; [|by exists row].
    change (default db (Some db')) with db'.
    apply log_event_spec in Hlog as (row' & Hrow' & Hev & Hpr & _).
    rewrite Hrow in Hrow'. injection Hrow' as <-.
    eexists. split; [exact Hpr|]. cbn [samples cumulative_score].
    rewrite Hev, length_app, map_app. cbn [map]. rewrite py_sum_snoc.
    cbn [length ev_score]. split; [lia|by rewrite Hsum].
  - by exists row.
Qed.

Lemma after_patches db c :
  patches (after db c) = patches db ++ logged_patches [c].
Proof.
  destruct c as [now|now1 now2 t p e s bd un|now r]; simpl.
  - unfold _init_db. destruct (progress db); simpl; by rewrite app_nil_r.
  - destruct (log_event _ _ _ _ _ _ _ _ db) as [db'|] eqn:Hlog; simpl.
    + change (default db (Some db')) with db'.
      apply log_event_spec in Hlog as (_ & _ & _ & _ & -> & _).
      by rewrite app_nil_r.
    + by rewrite app_nil_r.
  - done.
Qed.

(** X11: in every state that the methods of [DataProcessor] reach from a
    new database file, restarts and failed calls included, the progress
    row counts the rows of the events table and holds the sum of their
    scores, added in the order of the calls; [get_aggregate_progress]
    returns these two values.  The patches table holds exactly the rows
    of the [log_patch] calls, in order. *)
Theorem progress_row_counts_events (now : Z) (calls : list Call) :
  let db := foldl after (_init_db now empty) calls in
  get_aggregate_progress db
  = Some (py_sum (map ev_score (events db)), Z.of_nat (length (events db))) ∧
  Forall (λ e, is_nan (ev_score e) = false) (events db) ∧
  patches db = logged_patches calls.
Proof.
  induction calls as [|c calls IH] using rev_ind; [done|].
  rewrite foldl_app. cbn [foldl]. cbv zeta in IH.
  set (db := foldl after (_init_db now empty) calls) in *.
  destruct IH as (_ & Hnan & Hpatches).
  assert (consistent db) as Hc.
  { unfold db. clear. induction calls as [|c calls IH] using rev_ind.
    - apply init_consistent.
    - rewrite foldl_app. by apply after_consistent. }
  split; [|split].
  - destruct (after_consistent db c Hc) as (row & Hrow & Hn & Hsum).
    unfold get_aggregate_progress. rewrite Hrow. cbn. by rewrite Hn, Hsum.
  - destruct c as [now'|now1 now2 t p e s bd un|now' r]; simpl.
    + unfold _init_db. by destruct (progress db).
    + destruct (log_event _ _ _ _ _ _ _ _ db) as [db'|] eqn:Hlog; [|done].
      change (default db (Some db')) with db'.
      apply log_event_spec in Hlog as (_ & _ & -> & _ & _ & Hs).
      apply Forall_app. split; [done|]. by repeat constructor.
    + done.
  - rewrite after_patches, Hpatches. unfold logged_patches.
    by rewrite omap_app.
Qed.

End DataStoreFacts.

(** ** Facts about the handler of [/submit] *)

Module SubmitFacts.
Import State Learning DataStore DataStoreSpec Submit.
Import LearningSpec (fold_in).

Section Runs.
Context `{Scorer}.

(** The two ways a request ends: nothing changes, or one event is logged
    and its score is folded into the model. *)
Lemma do_POST_submit_cases now1 now2 req app :
  let run := do_POST_submit now1 now2 req app in
  (run.2 = app ∧ (run.1 = ProvideTextOrCode ∨ run.1 = ServerError)) ∨
  (∃ report db,
     eval (evaluate
             (or_no_text (Py.strip (default EmptyString (req_text req))))
             (Server.strip_or_none (req_expected_intent req))
             (req_code req) (req_tests req)
             (Server.strip_or_none (req_requested_action req)))
          (model app) = Some report ∧
     log_event now1 now2
               (or_no_text (Py.strip (default EmptyString (req_text req))))
               (predicted_intent report) (expected_intent report)
               (total_score report) (breakdown report) (unlocks report)
               (data app) = Some db ∧
     run.2 = mkTrainer (exec (update_progress report) (model app)) db ∧
     run.1 = (if allowed report
              then Scored report (model run.2)
              else CapabilityLocked report (model run.2))).
Proof.
  unfold do_POST_submit.
  destruct (_ && _); [left; by split; [|left]|].
  unfold mbind, state_bind, bind, zoom, get, put, mret, state_ret, ret.
  pose proof (LearningFacts.evaluate_state
                (or_no_text (Py.strip (default EmptyString (req_text req))))
                (Server.strip_or_none (req_expected_intent req))
                (req_code req) (req_tests req)
                (Server.strip_or_none (req_requested_action req))
                (model app)) as Hst.
  unfold exec in Hst. unfold eval.
  destruct (evaluate _ _ _ _ _ (model app)) as [evaluated m] eqn:Hev.
  simpl in Hst. subst m. cbn [fst snd].
  replace (set_model (model app) app) with app by by destruct app.
  destruct evaluated as [report|]; [|left; by split; [|right]].
  destruct (log_event _ _ _ _ _ _ _ _ (data app)) as [db|] eqn:Hlog.
  - right. exists report, db. split; [done|]. split; [done|].
    cbn [model set_data data]. unfold exec.
    destruct (update_progress report (model app)) as [[] m'].
    cbn [fst snd set_model model data].
    by destruct (allowed report).
  - left. by split; [|right].
Qed.

End Runs.

Section Invariant.
Context `{Scorer}.

(** X12: a submission that is denied still counts: when the reply is 403
    "Capability locked", the decision was taken on the scores before the
    request, but the event has been logged and the score folded into the
    moving window, and the state in the reply is the one after the
    fold. *)
Theorem denied_submission_still_counts (now1 now2 : Z) (req : SubmitRequest)
        (app : Trainer) (report : ScoreReport) (state : LearningModel) :
  let run := do_POST_submit now1 now2 req app in
  run.1 = CapabilityLocked report state →
  allowed report = false ∧
  allowed report
  = default false (_compute_unlocks (model app) (LearningSpec.percent_before (model app))
                   !! required_unlock report) ∧
  model run.2 = exec (update_progress report) (model app) ∧
  state = model run.2 ∧
  recent_scores state
  = fold_in (window_size (model app)) (recent_scores (model app))
            (total_score report) ∧
  map ev_score (events (data run.2))
  = map ev_score (events (data app)) ++ [total_score report].
Proof.
  intros run Hlocked.
  destruct (do_POST_submit_cases now1 now2 req app)
    as [[_ [Hr|Hr]]|(r & db & Hrep & Hlog & Hst & Hr)];
    fold run in Hr; try (rewrite Hr in Hlocked; discriminate).
  fold run in Hst. rewrite Hr in Hlocked.
  destruct (allowed r) eqn:Hal; [discriminate|].
  injection Hlocked as <- <-.
  destruct (LearningFacts.evaluate_gate
              (or_no_text (Py.strip (default EmptyString (req_text req))))
              (Server.strip_or_none (req_expected_intent req))
              (req_code req) (req_tests req)
              (Server.strip_or_none (req_requested_action req))
              (model app) r Hrep) as (Hub & Hallowed & _).
  split; [done|]. split; [by rewrite Hallowed, Hub|].
  rewrite Hst. cbn [model data]. split; [done|]. split; [done|].
  split.
  - by destruct (LearningFacts.update_progress_spec r (model app)) as (-> & _).
  - apply DataStoreFacts.log_event_spec in Hlog as (_ & _ & -> & _).
    by rewrite map_app.
Qed.

(** X13: from a new trainer, after any sequence of [/submit] requests, the
    moving window of the model is the tail of the audit log: the recent
    scores are the last scores of the events table, in order; the
    progress row counts the events; and with a window of at least one
    score, the model holds the last [window_size] scores, or all of them
    while there are fewer. *)
Theorem window_is_tail_of_event_log
        (now : Z) (st : Standards) (th : gmap string float)
        (km : list (string * KeywordSpec)) (cp : CodePolicy)
        (cg : CapabilityGating) (calls : list (Z * Z * SubmitRequest)) :
  let app := foldl submit (fresh now st th km cp cg) calls in
  let logged := map ev_score (events (data app)) in
  let w := default 50%Z (moving_window_size st) in
  window_size (model app) = w ∧
  recent_scores (model app) `suffix_of` logged ∧
  get_aggregate_progress (data app)
  = Some (py_sum logged, Z.of_nat (length logged)) ∧
  ((1 ≤ w)%Z →
   length (recent_scores (model app)) = Nat.min (Z.to_nat w) (length logged)).
Proof.
  induction calls as [|[[now1 now2] req] calls IH] using rev_ind.
  { cbn. split; [done|]. split; [done|]. split; [done|]. intros _. lia. }
  rewrite foldl_app. cbn [foldl]. cbv zeta in IH |- *.
  set (app := foldl submit (fresh now st th km cp cg) calls) in *.
  destruct IH as (Hw & Hsuf & Hagg & Hlen).
  unfold submit, exec.
  destruct (do_POST_submit_cases now1 now2 req app)
    as [[-> _]|(r & db & Hrep & Hlog & -> & _)]; [done|].
  cbn [model data].
  destruct (LearningFacts.update_progress_spec r (model app))
    as (Hrs & _ & _ & Hws & _).
  apply DataStoreFacts.log_event_spec in Hlog
    as (row & Hrow & Hev & Hpr & _ & _).
  rewrite Hws, Hrs, Hev, map_app. cbn [map ev_score].
  split; [done|]. split; [|split].
  - etrans; [apply LearningFacts.fold_in_suffix|].
    by apply suffix_app.
  - unfold get_aggregate_progress in *. rewrite Hpr. rewrite Hrow in Hagg.
    cbn in Hagg |- *. injection Hagg as Hc Hn.
    rewrite DataStoreFacts.py_sum_snoc, length_app, Hc, Hn. simpl.
    do 2 f_equal. lia.
  - intros Hw1. specialize (Hlen Hw1). rewrite Hw.
    unfold fold_in. rewrite !length_app. simpl.
    destruct (Z.ltb_spec (default 50%Z (moving_window_size st))
                (Z.of_nat (length (recent_scores (model app)) + 1))).
    + rewrite LearningFacts.slice_from_last by done.
      rewrite length_drop, length_app. simpl. lia.
    + rewrite length_app. simpl. lia.
Qed.

End Invariant.

Lemma denied_submission_witness :
  let app := fresh 0 (mkStandards (Some 2%Z) ∅ ∅ None)
                   LearningSpec.half_threshold []
                   LearningSpec.empty_policy LearningSpec.default_gating in
  let req := mkSubmitRequest (Some "explain") None (Some "assist") None None in
  let run := do_POST_submit (H:=LearningSpec.perfect_scorer) 1 2 req app in
  status run.1 = 403%Z ∧
  recent_scores (model run.2) = [1.0%float] ∧
  unlocked (model run.2) !! "assist_mode" = Some true.
Proof.
  intros app req run.
  destruct (do_POST_submit (H:=LearningSpec.perfect_scorer) 1 2 req app).1
    as [|report state| |] eqn:Hr; try (vm_compute in Hr; discriminate Hr).
  destruct (denied_submission_still_counts
              (H:=LearningSpec.perfect_scorer) 1 2 req app report state Hr)
    as (_ & _ & Hm & _).
  fold run in Hm. rewrite Hm.
  split; [by fold run; unfold run; rewrite Hr|].
  vm_compute in Hr. injection Hr as <- _.
  split; vm_compute; reflexivity.
Defined.

End SubmitFacts.

(** ** More facts about the handler of [/edit] *)

Module HandlerFacts.
Import State Server ServerSpec ServerToy HandlerSpec.
Import ServerFacts.

Ltac branch :=
  match goal with
  | |- context [if ?x then _ else _] => destruct x eqn:?
  | |- context [match ?x with _ => _ end] => destruct x eqn:?
  end.

Ltac events_of_run :=
  cbn [fst snd];
  try rewrite new_events_nil;
  try erewrite new_events_app
    by (cbn [trace set_trace set_data set_fs]; rewrite <- ?app_assoc;
        try rewrite (app_nil_r (trace _ ++ _)); reflexivity).

Section Runs.
Context `{Learning.Scorer} `{Token.Lib} `{OS}.

Lemma do_POST_edit_flows env req app :
  do_POST_edit env req app
  = match req_diff req, req_base_code req with
    | Some _, Some _ =>
        edit_apply env req (text_of req) (strip_or_none (req_expected_intent req))
                   (strip_or_none (req_requested_action req)) (request_filename req) app
    | _, _ =>
        edit_generate env req (text_of req) (strip_or_none (req_expected_intent req))
                      (strip_or_none (req_requested_action req)) (request_filename req) app
    end.
Proof. unfold do_POST_edit. by destruct (req_diff req), (req_base_code req). Qed.

Lemma edit_apply_frame env req text e a filename app :
  let run := edit_apply env req text e a filename app in
  model run.2 = model app ∧ patch_cfg run.2 = patch_cfg app ∧
  write_token_secret run.2 = write_token_secret app ∧
  workspace_root run.2 = workspace_root app ∧
  trace app `prefix_of` trace run.2.
Proof.
  intros run. unfold run, edit_apply. run_step. rewrite model_evaluate_run.
  repeat (run_step; cbn beta iota; branch; simplify_eq/=).
  all: cbn [fst snd model patch_cfg write_token_secret workspace_root trace
            set_trace set_data set_fs].
  all: repeat split; try done.
  all: rewrite <- ?app_assoc; try apply prefix_app_r; done.
Qed.

Lemma edit_generate_frame env req text e a filename app :
  let run := edit_generate env req text e a filename app in
  model run.2 = model app ∧ patch_cfg run.2 = patch_cfg app ∧
  write_token_secret run.2 = write_token_secret app ∧
  workspace_root run.2 = workspace_root app ∧
  trace app `prefix_of` trace run.2.
Proof.
  intros run. unfold run, edit_generate. run_step.
  repeat (run_step; cbn beta iota; try rewrite model_evaluate_run;
          branch; simplify_eq/=).
  all: cbn [fst snd model patch_cfg write_token_secret workspace_root trace
            set_trace set_data set_fs].
  all: repeat split; try done.
  all: rewrite <- ?app_assoc; try apply prefix_app_r; done.
Qed.

Lemma edit_apply_write_conditions env req text e a filename app :
  let run := edit_apply env req text e a filename app in
  let base_code := default EmptyString (req_base_code req) in
  let diff_text := default EmptyString (req_diff req) in
  let write_token := default EmptyString (req_write_token req) in
  ∀ target new_text,
    EvWriteText target new_text ∈ new_events app run.2 →
    ∃ report,
    eval (Learning.evaluate text e None None a) (model app) = Some report ∧
    Learning.allowed report = true ∧
    over_ceiling (patch_cfg app) (Learning.required_unlock report)
                 (_diff_stats diff_text) = false ∧
    (default true (require_write_token (patch_cfg app)) = true →
     ∃ why,
       Token.verify_write_token (write_token_secret app) (env_now env)
         write_token op_name (Learning.required_unlock report)
         filename base_code diff_text = Some (true, why)) ∧
    EditorEngine.ok <$> EditorEngine.apply_unified_diff base_code diff_text
    = Some true ∧
    EditorEngine.new_text <$> EditorEngine.apply_unified_diff base_code diff_text
    = Some (Some new_text) ∧
    default true (write_to_file (patch_cfg app)) = true ∧
    resolve_workspace_path (fs app) (workspace_root app) filename = Some target ∧
    ∃ row, data run.2 = data app ++ [row] ∧
           row_allowed row = true ∧
           row_required_unlock row = Learning.required_unlock report ∧
           row_old_hash row = Token.sha256_text base_code ∧
           row_new_hash row = Token.sha256_text new_text ∧
           row_diff_text row = diff_text.
Proof.
  intros run base_code diff_text write_token target new_text.
  unfold run, edit_apply. run_step. rewrite model_evaluate_run.
  fold base_code diff_text write_token.
  destruct (eval _ (model app)) as [report|] eqn:Hreport.
  2:{ events_of_run. by intros ?%elem_of_nil. }
  destruct (Learning.allowed report) eqn:Hal; cbn [negb].
  2:{ events_of_run. by intros ?%elem_of_nil. }
  run_step.
  destruct (over_ceiling _ _ _) eqn:Hover.
  { events_of_run. intros Hin. by repeat (apply elem_of_cons in Hin as [?|Hin]);
      try by apply elem_of_nil in Hin. }
  destruct (default true (require_write_token (patch_cfg app))) eqn:Hreq.
  - destruct (Token.verify_write_token _ _ _ _ _ _ _ _) as [[[] why]|] eqn:Hver.
    + destruct (EditorEngine.apply_unified_diff base_code diff_text)
        as [[okb d nt err]|] eqn:Hpr.
      2:{ run_step. events_of_run. intros Hin.
          by repeat (apply elem_of_cons in Hin as [?|Hin]);
            try by apply elem_of_nil in Hin. }
      cbn [EditorEngine.ok EditorEngine.new_text EditorEngine.error].
      destruct okb, nt as [nt|];
        repeat (run_step; cbn beta iota; try branch; simplify_eq/=).
      all: events_of_run; intros Hin.
      all: repeat (apply elem_of_cons in Hin as [Hin|Hin]);
           try (by apply elem_of_nil in Hin); try discriminate; simplify_eq.
      all: exists report; repeat split; eauto 10.
    + run_step. events_of_run. intros Hin.
      by repeat (apply elem_of_cons in Hin as [?|Hin]);
        try by apply elem_of_nil in Hin.
    + run_step. events_of_run. intros Hin.
      by repeat (apply elem_of_cons in Hin as [?|Hin]);
        try by apply elem_of_nil in Hin.
  - destruct (EditorEngine.apply_unified_diff base_code diff_text)
      as [[okb d nt err]|] eqn:Hpr.
    2:{ run_step. events_of_run. intros Hin.
        by repeat (apply elem_of_cons in Hin as [?|Hin]);
          try by apply elem_of_nil in Hin. }
    cbn [EditorEngine.ok EditorEngine.new_text EditorEngine.error].
    destruct okb, nt as [nt|];
      repeat (run_step; cbn beta iota; try branch; simplify_eq/=).
    all: events_of_run; intros Hin.
    all: repeat (apply elem_of_cons in Hin as [Hin|Hin]);
         try (by apply elem_of_nil in Hin); try discriminate; simplify_eq.
    all: exists report; repeat split; eauto 10; try done.
Qed.


Lemma edit_generate_no_write env req text e a filename app target new_text :
  EvWriteText target new_text
  ∉ new_events app (edit_generate env req text e a filename app).2.
Proof.
  intros Hin.
  destruct (edit_generate_writes env req text e a filename app) as [Hf _].
  rewrite Forall_forall in Hf. by apply Hf in Hin.
Qed.




Lemma request_filename_nonempty req : request_filename req ≠ EmptyString.
Proof. unfold request_filename. by destruct (default EmptyString (req_filename req)). Qed.

(** The tier and the decision of a report depend on the text, the
    requested action and the model, not on the code that is scored. *)
(** The tier and the action of a report depend on the text, the
    requested action and the configuration of the model, not on the code
    that is scored or on the scores of the model. *)
Lemma evaluate_tier text e c t c' t' a m m' r r' :
  Learning.keyword_map m' = Learning.keyword_map m →
  Learning.capability_gating m' = Learning.capability_gating m →
  eval (Learning.evaluate text e c t a) m = Some r →
  eval (Learning.evaluate text e c' t' a) m' = Some r' →
  Learning.required_unlock r' = Learning.required_unlock r ∧
  Learning.requested_action r' = Learning.requested_action r.
Proof.
  intros Hkm Hcg Hr Hr'.
  apply LearningFacts.evaluate_gate in Hr as (_ & _ & Hres & Hpred).
  apply LearningFacts.evaluate_gate in Hr' as (_ & _ & Hres' & Hpred').
  rewrite Hkm, <- Hpred in Hpred'.
  rewrite Hpred', (LearningFacts.resolve_required_unlock_ext m m') in Hres' by done.
  rewrite <- Hres in Hres'. by injection Hres' as -> ->.
Qed.

(** What a "generated" reply says about the run that made it. *)
Lemma edit_generate_generated env req text e a filename app
      fn base diff tok ttl stats report :
  (edit_generate env req text e a filename app).1
  = Generated fn base diff tok ttl stats report →
  fn = filename ∧
  eval (Learning.evaluate text e (Some base) (req_tests req) a) (model app)
  = Some report ∧
  Learning.allowed report = true ∧
  stats = _diff_stats diff ∧
  over_ceiling (patch_cfg app) (Learning.required_unlock report) stats = false ∧
  (∀ token, tok = Some token →
     default true (require_write_token (patch_cfg app)) = true ∧
     ttl = Some (default 120%Z (write_token_ttl_seconds (patch_cfg app))) ∧
     token = (Token.issue_write_token (write_token_secret app)
                (default 120%Z (write_token_ttl_seconds (patch_cfg app)))
                (env_now env) (env_nonce env) op_name
                (Learning.required_unlock report) filename base diff).1).
Proof.
  unfold edit_generate. run_step.
  destruct (read_old_code _ _ _ _) as [[old_code reads]|]; [|done].
  run_step. cbn beta iota. run_step.
  destruct (_ <? _)%Z; [done|]. destruct (_ && _); [done|].
  run_step. rewrite model_evaluate_run. run_step.
  destruct (eval _ (model app)) as [r|] eqn:Hr; [|done].
  destruct (Learning.allowed r) eqn:Hal; cbn [negb]; [|done].
  destruct (_ && _); [done|]. run_step.
  destruct (over_ceiling _ _ _) eqn:Hover; [done|].
  destruct (default true (require_write_token (patch_cfg app))) eqn:Hreq.
  - destruct (Token.issue_write_token _ _ _ _ _ _ _ _ _) as [token ttl'] eqn:Hissue.
    run_step. intros [= <- <- <- <- <- <- <-].
    do 5 (split; [done|]). intros tk [= <-]. split; [done|].
    rewrite Hissue. split; [|done].
    unfold Token.issue_write_token in Hissue. by injection Hissue as _ <-.
  - run_step. intros [= <- <- <- <- <- <- <-].
    do 5 (split; [done|]). by intros tk.
Qed.

(** The generation flow read forwards: a request that passes every
    check is answered with the diff and a token, and its effects are the
    reads of the old code, the statistics, the token and the audit row. *)
Lemma generate_flow_generates env req text e a filename app old_code reads
      report :
  let new_code := default EmptyString (req_new_code req) in
  let diff_text :=
    EditorEngine.generate_unified_diff get_grouped_opcodes old_code new_code in
  let ttl := default 120%Z (write_token_ttl_seconds (patch_cfg app)) in
  let token :=
    (Token.issue_write_token (write_token_secret app) ttl (env_now env)
       (env_nonce env) op_name (Learning.required_unlock report)
       filename old_code diff_text).1 in
  let row :=
    mkPatchRow (Learning.requested_action report) (Learning.required_unlock report)
               true (Token.sha256_text old_code) (Token.sha256_text new_code)
               diff_text MetaGenerate in
  read_old_code (fs app) (workspace_root app) filename
                (default EmptyString (req_old_code req)) = Some (old_code, reads) →
  eval (Learning.evaluate text e (Some old_code) (req_tests req) a) (model app)
  = Some report →
  (default 200000 (max_new_code_chars (patch_cfg app))
   <? Z.of_nat (String.length new_code))%Z = false →
  String.eqb old_code EmptyString && String.eqb new_code EmptyString = false →
  Learning.allowed report = true →
  default true (require_code_eval_pass (patch_cfg app))
  && negb (from_option Learning.ce_ok false (Learning.code_eval report)) = false →
  over_ceiling (patch_cfg app) (Learning.required_unlock report)
               (_diff_stats diff_text) = false →
  default true (require_write_token (patch_cfg app)) = true →
  let run := edit_generate env req text e a filename app in
  run.1 = Generated filename old_code diff_text (Some token) (Some ttl)
                    (_diff_stats diff_text) report ∧
  new_events app run.2
  = reads ++ [EvDiffStats (Learning.required_unlock report) diff_text
                          (total_changes (_diff_stats diff_text));
              EvIssueToken (Learning.required_unlock report) diff_text token;
              EvLogPatch row] ∧
  data run.2 = data app ++ [row].
Proof.
  intros new_code diff_text ttl token row
         Hread Hreport Hsize Hboth Hallowed Heval Hover Hreq run.
  unfold run, edit_generate. run_step. rewrite Hread. run_step. cbn beta iota.
  run_step. unfold new_code in *. rewrite Hsize, Hboth. run_step.
  rewrite model_evaluate_run. run_step. rewrite Hreport. run_step.
  unfold diff_text in *. rewrite Hallowed. cbn [negb].
  rewrite Heval. run_step. rewrite Hover, Hreq.
  fold ttl.
  assert (Token.issue_write_token (write_token_secret app) ttl (env_now env)
            (env_nonce env) op_name
            (Learning.required_unlock report)
            filename old_code
            (EditorEngine.generate_unified_diff get_grouped_opcodes old_code
               (default EmptyString (req_new_code req)))
          = (token, ttl)) as -> by reflexivity.
  run_step. events_of_run. done.
Qed.

Lemma edit_apply_not_generated env req text e a filename app
      fn base diff tok ttl stats report :
  (edit_apply env req text e a filename app).1
  ≠ Generated fn base diff tok ttl stats report.
Proof.
  unfold edit_apply. run_step. rewrite model_evaluate_run.
  repeat (run_step; cbn beta iota; branch; simplify_eq/=); done.
Qed.

(** What every request leaves alone. *)
Lemma do_POST_edit_frame env req app :
  let run := do_POST_edit env req app in
  model run.2 = model app ∧
  patch_cfg run.2 = patch_cfg app ∧
  write_token_secret run.2 = write_token_secret app.
Proof.
  intros run. unfold run. rewrite do_POST_edit_flows.
  destruct (req_diff req) as [d|], (req_base_code req) as [b|].
  1: destruct (edit_apply_frame env req (text_of req)
                 (strip_or_none (req_expected_intent req))
                 (strip_or_none (req_requested_action req))
                 (request_filename req) app) as (? & ? & ? & ? & ?).
  1: done.
  all: destruct (edit_generate_frame env req (text_of req)
                   (strip_or_none (req_expected_intent req))
                   (strip_or_none (req_requested_action req))
                   (request_filename req) app) as (? & ? & ? & ? & ?).
  all: done.
Qed.

End Runs.

Section Properties.
Context `{Learning.Scorer} `{Token.Lib} `{OS}.

(** X14: no [/edit] request changes the learning model, the patch
    configuration, the signing secret or the workspace root, whatever
    the reply is: editing never earns or costs proficiency.  A request
    of the generation flow changes no file either. *)
Theorem edit_leaves_model_and_config (env : Env) (req : EditRequest) (app : App) :
  let run := do_POST_edit env req app in
  model run.2 = model app ∧
  patch_cfg run.2 = patch_cfg app ∧
  write_token_secret run.2 = write_token_secret app ∧
  workspace_root run.2 = workspace_root app ∧
  trace app `prefix_of` trace run.2 ∧
  (req_diff req = None ∨ req_base_code req = None →
   fs run.2 = fs app ∧
   Forall (λ ev, ¬ is_fs_effect ev) (new_events app run.2)).
Proof.
  intros run. unfold run. rewrite do_POST_edit_flows.
  destruct (req_diff req) as [d|], (req_base_code req) as [b|].
  1: destruct (edit_apply_frame env req (text_of req)
                 (strip_or_none (req_expected_intent req))
                 (strip_or_none (req_requested_action req))
                 (request_filename req) app) as (? & ? & ? & ? & ?).
  1: { do 5 (split; [done|]). by intros [|]. }
  all: destruct (edit_generate_frame env req (text_of req)
                   (strip_or_none (req_expected_intent req))
                   (strip_or_none (req_requested_action req))
                   (request_filename req) app) as (? & ? & ? & ? & ?).
  all: destruct (edit_generate_writes env req (text_of req)
                   (strip_or_none (req_expected_intent req))
                   (strip_or_none (req_requested_action req))
                   (request_filename req) app) as [? ?].
  all: do 5 (split; [done|]); by intros _.
Qed.


(** X16: a file is written only at the end of the whole chain: the
    request carries a diff and a base, the gate has allowed the tier,
    the diff is within the ceiling of the tier, the write token has
    verified for exactly this file, base and diff (when tokens are
    required), the diff has applied strictly and the text written is its
    result, the path has passed the workspace check, and the audit row
    has been logged. *)
Theorem file_written_only_after_all_checks
        (env : Env) (req : EditRequest) (app : App)
        (target : list string) (new_text : string) :
  let run := do_POST_edit env req app in
  EvWriteText target new_text ∈ new_events app run.2 →
  ∃ diff_text base_code report,
    req_diff req = Some diff_text ∧ req_base_code req = Some base_code ∧
    eval (Learning.evaluate (text_of req)
            (strip_or_none (req_expected_intent req)) None None
            (strip_or_none (req_requested_action req))) (model app)
    = Some report ∧
    Learning.allowed report = true ∧
    over_ceiling (patch_cfg app) (Learning.required_unlock report)
                 (_diff_stats diff_text) = false ∧
    (default true (require_write_token (patch_cfg app)) = true →
     ∃ why,
       Token.verify_write_token (write_token_secret app) (env_now env)
         (default EmptyString (req_write_token req)) op_name
         (Learning.required_unlock report) (request_filename req)
         base_code diff_text = Some (true, why)) ∧
    EditorEngine.ok <$> EditorEngine.apply_unified_diff base_code diff_text
    = Some true ∧
    EditorEngine.new_text <$> EditorEngine.apply_unified_diff base_code diff_text
    = Some (Some new_text) ∧
    resolve_workspace_path (fs app) (workspace_root app) (request_filename req)
    = Some target ∧
    ∃ row, data run.2 = data app ++ [row] ∧
           row_allowed row = true ∧
           row_new_hash row = Token.sha256_text new_text ∧
           row_diff_text row = diff_text.
Proof.
  intros run. unfold run. rewrite do_POST_edit_flows.
  destruct (req_diff req) as [d|] eqn:Hd, (req_base_code req) as [b|] eqn:Hb.
  2-4: by intros ?%edit_generate_no_write.
  intros Hin.
  destruct (edit_apply_write_conditions env req (text_of req)
              (strip_or_none (req_expected_intent req))
              (strip_or_none (req_requested_action req))
              (request_filename req) app target new_text Hin)
    as (report & Hrep & Hal & Hover & Htok & Hok & Hnew & _ & Hres
        & row & Hrow & Hra & _ & _ & Hnh & Hdt).
  rewrite Hd, Hb in *. cbn [default from_option id] in *.
  exists d, b, report. do 2 (split; [done|]).
  do 7 (split; [done|]). by exists row.
Qed.


End Properties.

Section EndToEnd.
Context `{Learning.Scorer} `{Token.LibLaws} `{OS}.

(** X18: the token of a "generated" reply opens the application flow
    for as long as it has not expired and the gate still allows the
    tier.  Sent back with the file name, the base and the diff of the
    reply, under the same text and action, to an application that has
    the same secret, patch configuration, keyword map and capability
    gating and whose scores at that time unlock the tier of the reply,
    the request passes the gate, the ceiling and the token check: the
    token is verified, and when the application of the diff returns a
    result, a row with [allowed] true is logged for this diff and base.
    The gate is evaluated again at the second request, on the scores of
    that time. *)
Theorem generated_token_is_accepted
        (env env' : Env) (greq : EditRequest) (app later : App)
        (fn base diff token : string) (ttl : Z) (stats : nat * nat)
        (report : Learning.ScoreReport) :
  (do_POST_edit env greq app).1
  = Generated fn base diff (Some token) (Some ttl) stats report →
  (env_now env' ≤ env_now env + ttl)%Z →
  write_token_secret later = write_token_secret app →
  patch_cfg later = patch_cfg app →
  Learning.keyword_map (model later) = Learning.keyword_map (model app) →
  Learning.capability_gating (model later)
  = Learning.capability_gating (model app) →
  Learning._compute_unlocks (model later)
                            (LearningSpec.percent_before (model later))
    !! Learning.required_unlock report = Some true →
  let run := do_POST_edit env' (apply_generated greq fn base diff token) later in
  EvVerifyToken token true ∈ new_events later run.2 ∧
  (is_Some (EditorEngine.apply_unified_diff base diff) →
   ∃ row, data run.2 = data later ++ [row] ∧
          row_allowed row = true ∧ row_diff_text row = diff ∧
          row_old_hash row = Token.sha256_text base).
Proof.
  intros Hgen Hnow Hsec Hcfg Hkm Hcg Hunlocked run.
  rewrite do_POST_edit_flows in Hgen.
  assert ((edit_generate env greq (text_of greq)
             (strip_or_none (req_expected_intent greq))
             (strip_or_none (req_requested_action greq))
             (request_filename greq) app).1
          = Generated fn base diff (Some token) (Some ttl) stats report) as Hg.
  { destruct (req_diff greq), (req_base_code greq); try done.
    by apply edit_apply_not_generated in Hgen. }
  clear Hgen.
  apply edit_generate_generated in Hg
    as (-> & Hrep & Hal & -> & Hover & Htok).
  destruct (Htok token eq_refl) as (Hreq & [= ->] & ->). clear Htok.
  unfold run. rewrite do_POST_edit_flows. cbn [apply_generated req_diff req_base_code].
  assert (request_filename (apply_generated greq (request_filename greq)
                              base diff
                              (Token.issue_write_token (write_token_secret app)
                                 (default 120%Z (write_token_ttl_seconds (patch_cfg app)))
                                 (env_now env) (env_nonce env) op_name
                                 (Learning.required_unlock report)
                                 (request_filename greq) base diff).1)
          = request_filename greq) as ->.
  { unfold request_filename at 1. cbn [apply_generated req_filename default from_option id].
    pose proof (request_filename_nonempty greq).
    by destruct (request_filename greq). }
  change (text_of (apply_generated greq _ _ _ _)) with (text_of greq).
  cbn [apply_generated req_expected_intent req_requested_action].
  set (tok := (Token.issue_write_token _ _ _ _ _ _ _ _ _).1).
  unfold edit_apply. run_step. rewrite model_evaluate_run.
  destruct (LearningFacts.evaluate_without_code (text_of greq)
              (strip_or_none (req_expected_intent greq)) None
              (strip_or_none (req_requested_action greq)) (model later))
    as [r Hr].
  rewrite Hr.
  destruct (evaluate_tier _ _ _ _ _ _ _ _ _ _ _ Hkm Hcg Hrep Hr) as [Hru _].
  destruct (LearningFacts.evaluate_gate _ _ _ _ _ _ _ Hr) as (Hub & Hal' & _).
  rewrite Hal', Hub, Hru, Hunlocked. cbn [default from_option id negb].
  run_step. cbn beta iota. run_step.
  unfold apply_generated.
  cbn [req_diff req_base_code req_write_token from_option id].
  rewrite ?Hcfg, ?Hsec, ?Hru, Hover, Hreq.
  unfold tok. rewrite TokenFacts.verify_minted.
  rewrite !bool_decide_eq_true_2 by done. cbn [negb].
  destruct (Z.ltb_spec (env_now env + default 120%Z (write_token_ttl_seconds (patch_cfg app)))
              (env_now env')) as [Hlt|_]; [lia|].
  fold tok.
  repeat (run_step; cbn beta iota; try branch; simplify_eq/=).
  all: events_of_run.
  all: cbn [data set_data set_trace set_fs].
  all: split; [set_solver|].
  all: first [by intros [? ?]|intros _; eauto 10].
Qed.

End EndToEnd.

(** *** The properties at requests of the examples *)

Lemma file_written_witness :
  let app := list_app expert (toy_cfg None (Some false)) in
  let run := run_list (apply_request "refactor" "sub/x.py") app in
  ∃ row, data run.2 = data app ++ [row] ∧ row_allowed row = true.
Proof.
  intros app run.
  destruct (file_written_only_after_all_checks
              (H:=LearningSpec.perfect_scorer) (H0:=TokenToy.toy_lib) (H1:=list_os)
              toy_env (apply_request "refactor" "sub/x.py") app
              ["srv"; "workspace"; "sub"; "x.py"] ("b" +:+ LF))
    as (d & b & report & _ & _ & _ & _ & _ & _ & _ & _ & _ & row & Hrow & Hal & _).
  - vm_compute. apply list_elem_of_In. simpl. tauto.
  - exists row. split; [exact Hrow|exact Hal].
Defined.

(** The generation request of the examples, run forwards. *)
Lemma toy_generate_run :
  let app := toy_app expert (toy_cfg (Some false) None) in
  let req := generate_request "refactor" "a.py" in
  let run := run_toy req app in
  ∃ diff token stats report,
    run.1 = Generated "a.py" ("a" +:+ LF) diff (Some token) (Some 120%Z) stats report ∧
    ∃ evs, new_events app run.2
           = evs ++ [EvIssueToken (Learning.required_unlock report) diff token]
                 ++ [EvLogPatch (mkPatchRow (Learning.requested_action report)
                                   (Learning.required_unlock report) true
                                   (Token.sha256_text (H:=TokenToy.toy_lib) ("a" +:+ LF))
                                   (Token.sha256_text (H:=TokenToy.toy_lib) ("b" +:+ LF))
                                   diff MetaGenerate)].
Proof.
  intros app req run. unfold run, run_toy. rewrite do_POST_edit_flows.
  cbn [req generate_request req_diff req_base_code].
  destruct (generate_flow_generates
              (H:=LearningSpec.perfect_scorer) (H0:=TokenToy.toy_lib) (H1:=toy_os)
              toy_env req (text_of req)
              (strip_or_none (req_expected_intent req))
              (strip_or_none (req_requested_action req))
              (request_filename req) app ("a" +:+ LF) []
              (Learning.mkScoreReport "please edit" "unknown" None "refactor"
                 "refactor_lint" true 1
                 (<["code_score" := 1%float]>
                  (<["intent_total" := 1%float]>
                   (<["total" := 1%float]>
                    (<["correctness" := 1%float]>
                     (<["clarity" := 1%float]>
                      (<["safety" := 1%float]>
                       (<["confidence" := 1%float]> ∅)))))))
                 (Learning._compute_unlocks expert 1)
                 (Learning._compute_unlocks expert 1)
                 (Some (Learning.mkCodeEvalResult true 1 ∅ "" []
                          (Learning.mkMeta None None None)))))
    as (Hr & Hev & _); try reflexivity.
  do 4 eexists. split; [exact Hr|].
  eexists [_]. exact Hev.
Qed.


Lemma generated_token_witness :
  let app := toy_app expert (toy_cfg (Some false) None) in
  let gen := run_toy (generate_request "refactor" "a.py") app in
  ∃ token diff,
    let run :=
      run_toy (apply_generated (generate_request "refactor" "a.py")
                               "a.py" ("a" +:+ LF) diff token) gen.2 in
    EvVerifyToken token true ∈ new_events gen.2 run.2.
Proof.
  intros app gen.
  destruct toy_generate_run as (diff & token & stats & report & Hgen & _).
  exists token, diff. intros run.
  destruct (do_POST_edit_frame
              (H:=LearningSpec.perfect_scorer) (H0:=TokenToy.toy_lib) (H1:=toy_os)
              toy_env (generate_request "refactor" "a.py") app)
    as (Hm & Hcfg & Hsec).
  assert (Learning.required_unlock report = "refactor_lint") as Hru.
  { destruct (edit_generate_generated
                (H:=LearningSpec.perfect_scorer) (H0:=TokenToy.toy_lib) (H1:=toy_os)
                toy_env (generate_request "refactor" "a.py")
                (text_of (generate_request "refactor" "a.py"))
                (strip_or_none (req_expected_intent (generate_request "refactor" "a.py")))
                (strip_or_none (req_requested_action (generate_request "refactor" "a.py")))
                (request_filename (generate_request "refactor" "a.py")) app
                "a.py" ("a" +:+ LF) diff (Some token) (Some 120%Z) stats report)
      as (_ & Hrep & _).
    - exact Hgen.
    - vm_compute in Hrep. by injection Hrep as <-. }
  destruct (generated_token_is_accepted
              (H:=LearningSpec.perfect_scorer) (H1:=TokenFacts.toy_laws) (H2:=toy_os)
              toy_env toy_env (generate_request "refactor" "a.py") app gen.2
              "a.py" ("a" +:+ LF) diff token 120 stats report Hgen) as [Hin _].
  - simpl. lia.
  - exact Hsec.
  - exact Hcfg.
  - unfold gen, run_toy. by rewrite Hm.
  - unfold gen, run_toy. by rewrite Hm.
  - unfold gen, run_toy. rewrite Hm, Hru. vm_compute. reflexivity.
  - exact Hin.
Defined.

(** The gate is evaluated again when the token comes back: after one
    score of 0.0 the mean is 0.5, the tier of the token is locked, and
    the request is answered "Capability locked", whatever the token and
    the clock are. *)
Example token_refused_once_tier_is_locked (env : Env) (token diff : string) :
  let app := toy_app expert (toy_cfg (Some false) None) in
  let later :=
    set_model (exec (Learning.update_progress (score_report 0%float)) (model app))
              app in
  let run :=
    @do_POST_edit LearningSpec.perfect_scorer TokenToy.toy_lib toy_os env
      (apply_generated (generate_request "refactor" "a.py")
                       "a.py" ("a" +:+ LF) diff token) later in
  status run.1 = 403%Z ∧ error_text run.1 = Some "Capability locked" ∧
  run.2 = later.
Proof.
  intros app later run. unfold run. rewrite do_POST_edit_flows.
  cbn [apply_generated req_diff req_base_code].
  destruct (LearningFacts.evaluate_without_code (H:=LearningSpec.perfect_scorer)
              "please edit" None None (Some "refactor") (model later)) as [r Hr].
  erewrite (apply_flow_denial_not_logged (H:=LearningSpec.perfect_scorer)
              (H0:=TokenToy.toy_lib) (H1:=toy_os)).
  - done.
  - exact Hr.
  - vm_compute in Hr. by injection Hr as <-.
Qed.

End HandlerFacts.

(** ** More facts about the proficiency tracker *)

Module TrackerFacts.
Import State Learning LearningSpec.

Lemma compute_unlocks_thresholds self self' percent :
  thresholds self' = thresholds self →
  _compute_unlocks self' percent = _compute_unlocks self percent.
Proof. intros Hth. unfold _compute_unlocks. by rewrite Hth. Qed.

Lemma fold_in_slice w scores s :
  fold_in w scores s = Py.slice_from (scores ++ [s]) (- w).
Proof.
  unfold fold_in.
  destruct (Z.ltb_spec w (Z.of_nat (length (scores ++ [s])))); [done|].
  by rewrite LearningFacts.slice_from_short.
Qed.

Section Preview.
Context `{Scorer}.

Lemma evaluate_unlocks text exp code tests req self r :
  eval (evaluate text exp code tests req) self = Some r →
  unlocks r
  = _compute_unlocks self
      (mean (Py.slice_from (recent_scores self ++ [total_score r])
                           (- window_size self))).
Proof.
  unfold eval, evaluate, mbind, state_bind, bind, get.
  destruct (_predict_intent (keyword_map self) (_tokenize text)) as [pred conf].
  destruct (_resolve_required_unlock self pred req) as [action ru].
  cbn [fst snd].
  destruct (if nonblank code then _ else _); [|done].
  by intros [= <-].
Qed.

(** X19: the [unlocks] map of a report that [evaluate] returns is a
    faithful preview: folding the report in with [update_progress] makes
    exactly this map the unlocked map of the model, for every window
    size, and the proficiency is then the mean of the window that the
    preview was computed from. *)
Theorem report_previews_update (text : string)
        (exp code tests req : option string) (self : LearningModel)
        (r : ScoreReport) :
  eval (evaluate text exp code tests req) self = Some r →
  let self' := exec (update_progress r) self in
  unlocked self' = unlocks r ∧
  recent_scores self'
  = Py.slice_from (recent_scores self ++ [total_score r]) (- window_size self) ∧
  current_percent self' = mean (recent_scores self').
Proof.
  intros Hr self'.
  destruct (LearningFacts.update_progress_spec r self)
    as (Hrs & Hcp & Hun & _ & Hth & _).
  fold self' in Hrs, Hcp, Hun, Hth.
  rewrite fold_in_slice in Hrs.
  split; [|by split].
  rewrite Hun, (compute_unlocks_thresholds self self') by done.
  rewrite Hcp, Hrs. by rewrite (evaluate_unlocks _ _ _ _ _ _ _ Hr).
Qed.

End Preview.

Lemma report_previews_update_witness :
  let self := fresh_model (Some 2%Z) half_threshold in
  ∃ r,
    eval (evaluate (H:=perfect_scorer) "explain" None None None (Some "assist")) self
    = Some r ∧
    unlocked (exec (update_progress r) self) = unlocks r.
Proof.
  intros self.
  destruct (eval (evaluate (H:=perfect_scorer) "explain" None None None
                           (Some "assist")) self) as [r|] eqn:Hr;
    [|vm_compute in Hr; discriminate Hr].
  exists r. split; [reflexivity|].
  by destruct (report_previews_update (H:=perfect_scorer) _ _ _ _ _ _ r Hr)
    as (Hun & _).
Defined.

Lemma update_all_snoc reports report self :
  update_all (reports ++ [report]) self
  = exec (update_progress report) (update_all reports self).
Proof. unfold update_all. by rewrite foldl_app. Qed.

Lemma update_all_window_size reports self :
  window_size (update_all reports self) = window_size self.
Proof.
  induction reports as [|r reports IH] using rev_ind; [done|].
  rewrite update_all_snoc.
  by destruct (LearningFacts.update_progress_spec r (update_all reports self))
    as (_ & _ & _ & -> & _).
Qed.

Lemma fold_in_last w (scores : list float) s :
  (1 ≤ w)%Z →
  fold_in w (drop (length scores - Z.to_nat w) scores) s
  = drop (length (scores ++ [s]) - Z.to_nat w) (scores ++ [s]).
Proof.
  intros Hw. rewrite fold_in_slice, LearningFacts.slice_from_last by done.
  rewrite !length_app, length_drop. simpl.
  destruct (decide (length scores < Z.to_nat w)%nat) as [Hlt|Hge].
  - replace (length scores - Z.to_nat w)%nat with 0%nat by lia.
    replace (length scores - 0 + 1 - Z.to_nat w)%nat with 0%nat by lia.
    replace (length scores + 1 - Z.to_nat w)%nat with 0%nat by lia.
    done.
  - rewrite drop_app_le by (rewrite length_drop; lia).
    rewrite drop_drop.
    rewrite drop_app_le by lia.
    f_equal. f_equal. lia.
Qed.

(** X20: with a window of at least one score, a model that starts with
    no history holds, after any sequence of [update_progress] calls,
    exactly the last [window_size] scores in the order of the calls (all
    of them while there are fewer); the proficiency is their mean and
    the unlocked map is computed from it. *)
Theorem window_holds_the_last_scores (reports : list ScoreReport)
        (self : LearningModel) :
  (1 ≤ window_size self)%Z →
  recent_scores self = [] →
  let self' := update_all reports self in
  let scores := map total_score reports in
  recent_scores self'
  = drop (length scores - Z.to_nat (window_size self)) scores ∧
  (reports ≠ [] →
   current_percent self' = mean (recent_scores self') ∧
   unlocked self' = _compute_unlocks self (current_percent self')).
Proof.
  intros Hw Hempty. cbv zeta.
  induction reports as [|r reports IH] using rev_ind.
  { split; [|done]. unfold update_all. simpl. by rewrite Hempty. }
  destruct IH as [IH _]. rewrite update_all_snoc.
  destruct (LearningFacts.update_progress_spec r (update_all reports self))
    as (Hrs & Hcp & Hun & _ & Hth & _).
  rewrite update_all_window_size in Hrs.
  assert (thresholds (update_all reports self) = thresholds self) as Hth0.
  { clear. induction reports as [|r reports IH] using rev_ind; [done|].
    rewrite update_all_snoc.
    by destruct (LearningFacts.update_progress_spec r (update_all reports self))
      as (_ & _ & _ & _ & -> & _). }
  split.
  - rewrite Hrs, IH, map_app. cbn [map]. by apply fold_in_last.
  - intros _. split; [done|]. rewrite Hun.
    apply compute_unlocks_thresholds. by rewrite Hth.
Qed.

Lemma window_holds_the_last_scores_witness :
  let report s := mkScoreReport "" "" None "" "" false s ∅ ∅ ∅ None in
  let self' :=
    update_all [report 0.1%float; report 0.2%float; report 0.3%float]
               (fresh_model (Some 2%Z) ∅) in
  recent_scores self' = [0.2%float; 0.3%float].
Proof.
  intros report self'.
  destruct (window_holds_the_last_scores
              [report 0.1%float; report 0.2%float; report 0.3%float]
              (fresh_model (Some 2%Z) ∅)) as [Hrs _].
  - simpl. lia.
  - reflexivity.
  - exact Hrs.
Defined.

(** X21: a negative [moving_window_size] disables the tracker: from a
    model with no history, no call of [update_progress] ever records a
    score, and the proficiency stays 0.0. *)
Theorem negative_window_records_nothing (reports : list ScoreReport)
        (self : LearningModel) :
  (window_size self < 0)%Z →
  recent_scores self = [] →
  let self' := update_all reports self in
  recent_scores self' = [] ∧
  (reports ≠ [] → current_percent self' = 0.0%float).
Proof.
  intros Hw Hempty. cbv zeta.
  induction reports as [|r reports IH] using rev_ind; [done|].
  destruct IH as [IH _]. rewrite update_all_snoc.
  destruct (LearningFacts.update_progress_spec r (update_all reports self))
    as (Hrs & Hcp & _).
  rewrite update_all_window_size, IH in Hrs.
  assert (fold_in (window_size self) [] (total_score r) = []) as Hnil.
  { unfold fold_in, Py.slice_from. cbn [app length].
    destruct (Z.ltb_spec (window_size self) (Z.of_nat 1)); [|lia].
    destruct (Z.ltb_spec (- window_size self) 0); [lia|].
    destruct (Z.to_nat (- window_size self)) eqn:Hn; [lia|].
    simpl. by rewrite drop_nil. }
  rewrite Hnil in Hrs. split; [done|]. intros _. by rewrite Hcp, Hrs.
Qed.

Lemma negative_window_witness :
  let report s := mkScoreReport "" "" None "" "" false s ∅ ∅ ∅ None in
  recent_scores (update_all [report 1.0%float; report 1.0%float]
                            (fresh_model (Some (-1)%Z) ∅)) = [].
Proof.
  intros report.
  destruct (negative_window_records_nothing
              [report 1.0%float; report 1.0%float]
              (fresh_model (Some (-1)%Z) ∅)) as [Hrs _].
  - simpl. lia.
  - reflexivity.
  - exact Hrs.
Defined.

(** X22: [_resolve_required_unlock] never refuses an action: a requested
    action that is a key of the actions map is kept and mapped to its
    tier; any other action, requested or defaulted, is replaced by
    "assist", whose tier is the one of the map or, when the map has no
    such key, "assist_mode". *)
Theorem resolve_required_unlock_fallback (self : LearningModel)
        (predicted_intent : string) (requested_action : option string) :
  let r := _resolve_required_unlock self predicted_intent requested_action in
  let actions_map := actions (capability_gating self) in
  let requested := Py.strip (default EmptyString requested_action) in
  (actions_map !! r.1 = Some r.2 ∨
   (r.1 = "assist" ∧ actions_map !! "assist" = None ∧ r.2 = "assist_mode")) ∧
  (requested ≠ EmptyString →
   (is_Some (actions_map !! requested) → r.1 = requested) ∧
   (actions_map !! requested = None → r.1 = "assist")).
Proof.
  cbv zeta. unfold _resolve_required_unlock.
  set (actions_map := actions (capability_gating self)).
  set (defaults := intent_default_action (capability_gating self)).
  set (requested := Py.strip (default EmptyString requested_action)).
  set (action := match requested with
                 | EmptyString => _
                 | _ => _
                 end).
  assert (requested ≠ EmptyString → action = requested) as Hreq.
  { intros Hne. unfold action. by destruct requested. }
  cbn [fst snd]. split.
  - destruct (decide (is_Some (actions_map !! action))) as [[ru Hru]|Hno].
    + left. by rewrite Hru.
    + destruct (actions_map !! "assist") as [ru|] eqn:Ha; [by left|by right].
  - intros Hne. rewrite (Hreq Hne). split.
    + intros Hin. by destruct (decide (is_Some (actions_map !! requested))).
    + intros Hnone.
      destruct (decide (is_Some (actions_map !! requested))) as [[? Hin]|]; [|done].
      by rewrite Hnone in Hin.
Qed.

End TrackerFacts.

(** ** More facts about the write-token authority *)

Module TokenSoundness.
Import Token.

Lemma py_eq_str_true x s : py_eq_str x s = true ↔ x = Some (JStr s).
Proof.
  destruct x as [[]|]; simpl; try (split; [done|by intros [=]]).
  rewrite String.eqb_eq. split; [by intros ->|by intros [= ->]].
Qed.

Section Verify.
Context `{Lib}.

(** X23: [verify_write_token] accepts a token only when its second part
    decodes to the HMAC of its first part under the secret of the
    server, and the first part decodes to a JSON object whose version
    is 1, whose op, tier and file name are the ones asked for, whose two
    hashes are the SHA-256 digests of the base and the diff, and whose
    expiry is an integer that is not before the clock.  The reason of an
    accepted token is [None], and a refusal always names its reason. *)
Theorem verify_accepts_only_signed_payloads
        (secret : string) (now : Z)
        (token op required_unlock filename base_code diff_text : string) :
  let verdict :=
    verify_write_token secret now token op required_unlock filename
                       base_code diff_text in
  (∀ why, verdict = Some (true, why) →
     why = None ∧
     ∃ payload_part sig_part payload_raw payload exp,
       split_dot token = Some (payload_part, sig_part) ∧
       _b64url_decode payload_part = Some payload_raw ∧
       _b64url_decode sig_part = Some (hmac_sha256 secret payload_part) ∧
       json_loads payload_raw = Some (JObject payload) ∧
       py_eq_one (payload !! "v") = true ∧
       payload !! "op" = Some (JStr op) ∧
       payload !! "ru" = Some (JStr required_unlock) ∧
       payload !! "fn" = Some (JStr filename) ∧
       payload !! "base_hash" = Some (JStr (sha256_text base_code)) ∧
       payload !! "diff_hash" = Some (JStr (sha256_text diff_text)) ∧
       as_int (payload !! "exp") = Some exp ∧
       (now ≤ exp)%Z) ∧
  verdict ≠ Some (false, None).
Proof.
  cbv zeta. unfold verify_write_token.
  destruct (split_dot token) as [[payload_part sig_part]|] eqn:Hsplit; [|by split].
  destruct (_ || _); [by split|].
  destruct (_b64url_decode payload_part) as [payload_raw|] eqn:Hp; [|by split].
  destruct (_b64url_decode sig_part) as [sig|] eqn:Hs; [|by split].
  destruct (String.eqb_spec sig (hmac_sha256 secret payload_part)) as [->|];
    cbn [negb]; [|by split].
  destruct (json_loads payload_raw) as [[payload|]|] eqn:Hj; [|by split|by split].
  destruct (py_eq_one (payload !! "v")) eqn:Hv; cbn [negb]; [|by split].
  destruct (py_eq_str (payload !! "op") op) eqn:Hop; cbn [negb]; [|by split].
  destruct (py_eq_str (payload !! "ru") required_unlock) eqn:Hru;
    cbn [negb]; [|by split].
  destruct (py_eq_str (payload !! "fn") filename) eqn:Hfn;
    cbn [negb]; [|by split].
  destruct (py_eq_str (payload !! "base_hash") _) eqn:Hbh;
    cbn [negb]; [|by split].
  destruct (py_eq_str (payload !! "diff_hash") _) eqn:Hdh;
    cbn [negb]; [|by split].
  destruct (as_int (payload !! "exp")) as [exp|] eqn:Hexp; [|by split].
  destruct (Z.ltb_spec exp now); [by split|].
  split; [|done]. intros why [= <-]. split; [done|].
  apply py_eq_str_true in Hop, Hru, Hfn, Hbh, Hdh.
  exists payload_part, sig_part, payload_raw, payload, exp.
  split_and!; first [done|lia].
Qed.

End Verify.

Lemma verify_accepts_witness :
  let minted :=
    issue_write_token (H:=TokenToy.toy_lib) "secret" 120 1000 "nonce"
                      "edit_apply_unified_diff" "minor_edits" "a.py" "old" "diff" in
  ∃ payload_part sig_part,
    split_dot minted.1 = Some (payload_part, sig_part) ∧
    _b64url_decode (H:=TokenToy.toy_lib) sig_part
    = Some (hmac_sha256 (Lib:=TokenToy.toy_lib) "secret" payload_part).
Proof.
  intros minted.
  destruct (verify_accepts_only_signed_payloads
              (H:=TokenToy.toy_lib) "secret" 1000 minted.1
              "edit_apply_unified_diff" "minor_edits" "a.py" "old" "diff")
    as [Hacc _].
  destruct (Hacc None) as (_ & pp & sp & _ & _ & _ & Hs & _ & Hsig & _).
  - unfold minted.
    rewrite (TokenFacts.verify_minted (H0:=TokenFacts.toy_laws)).
    rewrite !bool_decide_eq_true_2 by reflexivity. reflexivity.
  - exists pp, sp. split; [exact Hs|exact Hsig].
Defined.

End TokenSoundness.

(** ** More facts about the editor engine *)

Module PatchFacts.
Import EditorEngine DiffSpec PatchSpec.
Import EditorFacts StringFacts.
Import Token (forallb_string).

Lemma slice_cons (old : list string) pos pos' x :
  old !! pos = Some x → (S pos ≤ pos')%nat →
  Py.slice old pos pos' = x :: Py.slice old (S pos) pos'.
Proof.
  intros Hx Hle. unfold Py.slice.
  rewrite (drop_S _ _ _ Hx).
  replace (pos' - pos)%nat with (S (pos' - S pos)) by lia. done.
Qed.

Lemma slice_slice_drop {A} (l : list A) a b c :
  (a ≤ b)%nat → (b ≤ c)%nat →
  Py.slice l a b ++ Py.slice l b c ++ drop c l = drop a l.
Proof.
  intros Hab Hbc. unfold Py.slice.
  rewrite <- (take_drop (b - a) (drop a l)) at 2.
  f_equal. rewrite drop_drop. replace (a + (b - a))%nat with b by lia.
  rewrite <- (take_drop (c - b) (drop b l)) at 2.
  f_equal. rewrite drop_drop. f_equal. lia.
Qed.

Lemma startswith_first c tail :
  Py.startswith (String c tail) (String c EmptyString) = true.
Proof.
  unfold Py.startswith. simpl. destruct (ascii_dec c c); [|done].
  by destruct tail.
Qed.

Lemma body_keeps_is_slice old pos body pos' c p e :
  body_applies old pos body pos' c p e →
  Forall keeps body →
  e = Py.slice old pos pos' ∧ (pos ≤ pos')%nat.
Proof.
  induction 1 as [pos|pos line body pos' c p e Hm Hb IH
                  |pos tail body pos' c p e Hx Hb IH
                  |pos tail body pos' c p e Hx Hb IH
                  |pos tail body pos' c p e Hb IH]; intros Hk.
  - unfold Py.slice. rewrite Nat.sub_diag. split; [done|lia].
  - apply Forall_cons in Hk as [_ Hk]. by apply IH.
  - apply Forall_cons in Hk as [_ Hk]. destruct (IH Hk) as (-> & Hle).
    split; [|lia]. by rewrite (slice_cons _ _ _ _ Hx).
  - apply Forall_cons in Hk as [[_ Hminus] _].
    by rewrite startswith_first in Hminus.
  - apply Forall_cons in Hk as [[Hplus _] _].
    by rewrite startswith_first in Hplus.
Qed.

Lemma hunks_keep_is_drop old pos hs out :
  hunks_apply old pos hs out →
  Forall (λ h, Forall keeps (h_body h)) hs →
  out = drop pos old.
Proof.
  induction 1 as [pos|pos h hs pos' e out H1 Hle Hb Hrest IH]; intros Hk; [done|].
  apply Forall_cons in Hk as [Hh Hk].
  apply body_keeps_is_slice in Hb as (-> & Hle'); [|done].
  rewrite (IH Hk). by apply slice_slice_drop.
Qed.

Lemma parses_bodies (P : string → Prop) lines hs :
  parses lines hs → Forall P lines → Forall (λ h, Forall P (h_body h)) hs.
Proof.
  induction 1 as [|header os oc ns nc body rest hs Hre Hends Hparse IH];
    intros HP; [done|].
  apply Forall_cons in HP as [_ HP]. apply Forall_app in HP as [Hbody Hrest].
  constructor; [done|by apply IH].
Qed.

(** X24: a diff that neither adds nor removes a line changes nothing:
    when none of its hunk lines starts with "+" or "-" and it applies
    (the call returns a result whose [ok] is set), the new text is the
    old text, character for character. *)
Theorem context_only_diff_is_identity (old_text diff_text : string)
        (pr : PatchResult) :
  Forall keeps (hunk_lines diff_text) →
  apply_unified_diff old_text diff_text = Some pr →
  ok pr = true →
  new_text pr = Some old_text.
Proof.
  intros Hk. unfold apply_unified_diff.
  destruct (String.eqb _ _); [by intros [= <-]|]. fold (hunk_lines diff_text).
  destruct (apply_hunks _ _ _ _) as [[e|out]|] eqn:Hrun;
    [by intros [= <-]| |done].
  intros [= <-] _.
  apply apply_hunks_sound in Hrun as (hs & out' & Hp & Ha & ->).
  apply hunks_keep_is_drop in Ha; [|by apply (parses_bodies keeps _ _ Hp)].
  subst out'. cbn [new_text]. by rewrite app_nil_l, drop_0, join_splitlines.
Qed.

Lemma context_only_witness :
  new_text <$> apply_unified_diff ("a" +:+ LF +:+ "b")
                 ("--- a/code.py" +:+ LF +:+ "@@ -1 +1 @@" +:+ LF +:+ " a" +:+ LF)
  = Some (Some ("a" +:+ LF +:+ "b")).
Proof.
  destruct (apply_unified_diff _ _) as [pr|] eqn:Hrun;
    [|vm_compute in Hrun; discriminate Hrun].
  cbn [fmap option_fmap option_map]. f_equal.
  apply (context_only_diff_is_identity _ _ pr) in Hrun as Hnew.
  - exact Hnew.
  - vm_compute. repeat constructor.
  - vm_compute in Hrun. by injection Hrun as <-.
Defined.

(** *** Lines of a text that is built line by line *)

Lemma is_cr_linebreak c : Py.is_cr c = true → Py.is_linebreak c = true.
Proof.
  unfold Py.is_cr, Py.is_linebreak. intros Hc%Nat.eqb_eq. by rewrite Hc.
Qed.

Lemma splitlines_line keepends (l rest : string) :
  one_line l →
  Py.splitlines keepends (l +:+ LF +:+ rest)
  = (if keepends then l +:+ LF else l) :: Py.splitlines keepends rest.
Proof.
  unfold one_line. induction l as [|c l IH]; intros Hl.
  - change (EmptyString +:+ LF +:+ rest) with (String (ascii_of_nat 10) rest).
    cbn [Py.splitlines]. change (Py.is_cr (ascii_of_nat 10)) with false.
    change (Py.is_linebreak (ascii_of_nat 10)) with true. cbn [andb].
    by destruct keepends.
  - simpl in Hl. apply andb_true_iff in Hl as [Hc Hl].
    apply negb_true_iff in Hc.
    change (String c l +:+ LF +:+ rest) with (String c (l +:+ LF +:+ rest)).
    cbn [Py.splitlines]. rewrite (IH Hl), Hc.
    destruct (Py.is_cr c) eqn:Hcr.
    { apply is_cr_linebreak in Hcr. congruence. }
    cbn [andb]. by destruct keepends.
Qed.

Lemma strip_nonempty c s :
  Py.is_space c = false → Py.strip (String c s) ≠ EmptyString.
Proof.
  intros Hc. unfold Py.strip, Py.rstrip. cbn [Py.lstrip]. rewrite Hc.
  cbn [Py.rstrip_with]. rewrite Hc. by destruct (Py.rstrip_with _ s).
Qed.

Lemma insert_diff_cons c contents :
  insert_diff (c :: contents)
  = "@@ -1,0 +1 @@" +:+ LF +:+ String "+"%char c +:+ LF +:+ insert_diff contents.
Proof.
  unfold insert_diff. cbn [map]. rewrite join_empty_cons. unfold insert_hunk.
  by rewrite !append_assoc.
Qed.

Lemma insert_diff_lines contents :
  Forall one_line contents →
  Py.splitlines false (insert_diff contents) = insert_lines contents.
Proof.
  induction 1 as [|c contents Hc Hcs IH]; [done|].
  rewrite insert_diff_cons.
  rewrite (splitlines_line false "@@ -1,0 +1 @@") by done.
  rewrite (splitlines_line false (String "+"%char c)).
  - by rewrite IH.
  - unfold one_line in *. simpl. by rewrite Hc.
Qed.

Lemma insert_lines_parse contents :
  parses (insert_lines contents)
         (map (λ c, mkHunk 1 0 1 1 [String "+"%char c]) contents).
Proof.
  induction contents as [|c contents IH]; [constructor|].
  change (insert_lines (c :: contents))
    with ("@@ -1,0 +1 @@" :: [String "+"%char c] ++ insert_lines contents).
  cbn [map].
  apply (parses_cons "@@ -1,0 +1 @@" 1 0 1 1).
  - by exists ("1", Some "0", "1", None).
  - split.
    + constructor; [|constructor].
      unfold is_header_start, Py.startswith. by apply prefix_differs.
    + destruct contents as [|c' contents]; [by left|right].
      eexists _, _. split; [reflexivity|reflexivity].
  - exact IH.
Qed.

Lemma insert_lines_apply old_lines contents :
  hunks_apply old_lines 0
    (map (λ c, mkHunk 1 0 1 1 [String "+"%char c]) contents)
    (map (λ c, c +:+ LF) contents ++ old_lines).
Proof.
  induction contents as [|c contents IH]; [constructor|].
  cbn [map].
  apply (hunks_next old_lines 0 (mkHunk 1 0 1 1 [String "+"%char c])
           (map (λ c, mkHunk 1 0 1 1 [String "+"%char c]) contents)
           0 [c +:+ LF] (map (λ c, c +:+ LF) contents ++ old_lines)).
  - simpl. lia.
  - simpl. lia.
  - apply body_addition. constructor.
  - exact IH.
Qed.

Lemma text_of_lines_app contents (old_text : string) :
  Py.join EmptyString (map (λ c, c +:+ LF) contents ++ Py.splitlines true old_text)
  = text_of_lines contents +:+ old_text.
Proof.
  unfold text_of_lines. induction contents as [|c contents IH].
  - simpl. apply join_splitlines.
  - cbn [map app]. rewrite !join_empty_cons, IH. by rewrite !append_assoc.
Qed.

Lemma diff_stats_fold diff_text :
  Server._diff_stats diff_text
  = fold_left stats_step (Py.splitlines false diff_text) (0, 0)%nat.
Proof. reflexivity. Qed.

Lemma insert_lines_stats contents a d :
  fold_left stats_step (insert_lines contents) (a, d)
  = ((a + length (filter (λ c, Py.startswith c "++" = false) contents))%nat, d).
Proof.
  revert a. induction contents as [|c contents IH]; intros a.
  - simpl. by rewrite Nat.add_0_r.
  - change (insert_lines (c :: contents))
      with ("@@ -1,0 +1 @@" :: String "+"%char c :: insert_lines contents).
    cbn [fold_left].
    change (stats_step (a, d) "@@ -1,0 +1 @@") with (a, d).
    assert (stats_step (a, d) (String "+"%char c)
            = if Py.startswith c "++" then (a, d) else (S a, d)) as ->.
    { unfold stats_step, Py.startswith. cbn [String.eqb].
      rewrite (prefix_cons "+" "++" c).
      rewrite (prefix_differs "-" "+") by done.
      rewrite (prefix_differs "@" "+") by done.
      rewrite (prefix_cons "+" EmptyString c).
      rewrite !orb_false_r. by destruct (String.prefix "++" c), c. }
    rewrite filter_cons.
    destruct (Py.startswith c "++") eqn:Hpp.
    + rewrite IH. by destruct (decide _).
    + rewrite IH. destruct (decide _); [|done]. simpl. f_equal. lia.
Qed.

(** X25: hunks that insert at the top are applied one after the other:
    for lines without a line boundary, the diff with one hunk
    "@@ -1,0 +1 @@" for each line applies to every old text, and the new
    text is these lines followed by the old text.  [_diff_stats] counts
    such a line as an addition only when its content does not start with
    "++": an added line whose content starts with "++" is applied and
    not counted, so it does not weigh on the ceiling of the tier. *)
Theorem inserted_lines_and_their_count (old_text : string)
        (contents : list string) :
  contents ≠ [] →
  Forall one_line contents →
  let diff_text := insert_diff contents in
  apply_unified_diff old_text diff_text
  = Some (mkPatchResult true diff_text
            (Some (text_of_lines contents +:+ old_text)) None) ∧
  Server._diff_stats diff_text
  = (length (filter (λ c, Py.startswith c "++" = false) contents), 0%nat).
Proof.
  intros Hne Hlines diff_text. split.
  - unfold apply_unified_diff.
    destruct (String.eqb_spec (Py.strip diff_text) EmptyString) as [Hblank|_].
    { exfalso. destruct contents as [|c contents]; [done|].
      unfold diff_text in Hblank. rewrite insert_diff_cons in Hblank.
      by apply strip_nonempty in Hblank. }
    unfold diff_text. rewrite insert_diff_lines by done.
    assert (skip_line "+++ " (skip_line "--- " (insert_lines contents))
            = insert_lines contents) as ->.
    { by destruct contents. }
    rewrite (apply_hunks_complete _ _ _ (insert_lines_parse contents) [] 0 _
               (insert_lines_apply _ contents)).
    by rewrite app_nil_l, text_of_lines_app.
  - rewrite diff_stats_fold. unfold diff_text.
    rewrite insert_diff_lines by done. by rewrite insert_lines_stats.
Qed.

Lemma inserted_lines_witness :
  let diff_text := insert_diff ["++x"; "y"] in
  new_text <$> apply_unified_diff ("a" +:+ LF) diff_text
  = Some (Some ("++x" +:+ LF +:+ "y" +:+ LF +:+ "a" +:+ LF)) ∧
  Server._diff_stats diff_text = (1, 0)%nat.
Proof.
  intros diff_text.
  destruct (inserted_lines_and_their_count ("a" +:+ LF) ["++x"; "y"])
    as [Happly Hstats].
  - discriminate.
  - repeat constructor.
  - unfold diff_text. rewrite Happly. split; [reflexivity|exact Hstats].
Defined.

(** *** Decimal numbers *)

Lemma string_of_uint_digits d :
  forallb_string Py.is_digit (NilEmpty.string_of_uint d) = true.
Proof. induction d; simpl; by rewrite ?IHd. Qed.

Lemma fold_digits d acc :
  fold_left (λ acc c, (10 * acc + (Py.code c - 48))%nat)
            (list_ascii_of_string (NilEmpty.string_of_uint d)) acc
  = Nat.of_uint_acc d acc.
Proof.
  revert acc. induction d; intros acc; [done|..];
    cbn [NilEmpty.string_of_uint list_ascii_of_string fold_left Nat.of_uint_acc];
    rewrite IHd, Nat.tail_mul_spec; f_equal; unfold Py.code; simpl; lia.
Qed.

Lemma int_of_digits_of_nat n : Py.int_of_digits (Py.str_of_nat n) = n.
Proof.
  unfold Py.int_of_digits, Py.str_of_nat. rewrite fold_digits.
  apply DecimalNat.Unsigned.of_to.
Qed.

Lemma int_of_str_of_nat n :
  Py.int_of_str (Py.str_of_nat n) = if short n then Some n else None.
Proof.
  unfold Py.int_of_str, short. rewrite int_of_digits_of_nat.
  destruct (Nat.ltb_spec Py.int_max_str_digits (String.length (Py.str_of_nat n))),
           (Nat.leb_spec (String.length (Py.str_of_nat n)) Py.int_max_str_digits);
    first [done|lia].
Qed.

(** The numbers of a header that is written out. *)
Lemma header_numbers_of_nat a b c :
  header_numbers (Py.str_of_nat a, Some (Py.str_of_nat b),
                  Py.str_of_nat a, Some (Py.str_of_nat c))
  = if short a && short b && short c then Some (a, b, a, c) else None.
Proof.
  unfold header_numbers, int_or_1. rewrite !int_of_str_of_nat.
  by destruct (short a), (short b), (short c).
Qed.

Lemma str_of_nat_digits n : forallb_string Py.is_digit (Py.str_of_nat n) = true.
Proof. apply string_of_uint_digits. Qed.

Lemma str_of_nat_nonempty n : Py.str_of_nat n ≠ EmptyString.
Proof.
  unfold Py.str_of_nat. intros Hnil.
  assert (Nat.to_uint n = Decimal.Nil) as Hd
    by (by destruct (Nat.to_uint n)).
  pose proof (DecimalNat.Unsigned.of_to n) as Hn. rewrite Hd in Hn.
  simpl in Hn. subst n. discriminate Hd.
Qed.

Lemma digit_one_line c : Py.is_digit c = true → negb (Py.is_linebreak c) = true.
Proof.
  destruct c as [[] [] [] [] [] [] [] []]; vm_compute; congruence.
Qed.

(** *** The header pattern on a header that is written out *)

Lemma span_digits_app d rest :
  forallb_string Py.is_digit d = true →
  match rest with
  | String c _ => Py.is_digit c = false
  | EmptyString => True
  end →
  span_digits (d +:+ rest) = (d, rest).
Proof.
  intros Hd Hrest. induction d as [|c d IH].
  - change (EmptyString +:+ rest) with rest.
    destruct rest as [|c r]; [done|]. simpl. by rewrite Hrest.
  - simpl in Hd. apply andb_true_iff in Hd as [Hc Hd].
    change (String c d +:+ rest) with (String c (d +:+ rest)).
    simpl. by rewrite Hc, (IH Hd).
Qed.

Lemma digits1_app d rest :
  d ≠ EmptyString →
  forallb_string Py.is_digit d = true →
  match rest with
  | String c _ => Py.is_digit c = false
  | EmptyString => True
  end →
  digits1 (d +:+ rest) = Some (d, rest).
Proof.
  intros Hne Hd Hrest. unfold digits1. rewrite span_digits_app by done.
  by destruct d.
Qed.

Lemma substring_all s : String.substring 0 (String.length s) s = s.
Proof. induction s as [|c s IH]; [done|]. simpl. by rewrite IH. Qed.

Lemma prefix_app p s : String.prefix p (p +:+ s) = true.
Proof.
  induction p as [|c p IH]; [by destruct s|].
  change (String c p +:+ s) with (String c (p +:+ s)).
  by rewrite prefix_cons.
Qed.

Lemma substring_app p s :
  String.substring (String.length p) (String.length (p +:+ s) - String.length p)
                   (p +:+ s) = s.
Proof.
  induction p as [|c p IH].
  - change (EmptyString +:+ s) with s. simpl. rewrite Nat.sub_0_r.
    apply substring_all.
  - change (String c p +:+ s) with (String c (p +:+ s)). simpl. exact IH.
Qed.

Lemma expect_app p s : expect p (p +:+ s) = Some s.
Proof. unfold expect. by rewrite prefix_app, substring_app. Qed.

Lemma opt_count_app d rest :
  d ≠ EmptyString →
  forallb_string Py.is_digit d = true →
  match rest with
  | String c _ => Py.is_digit c = false
  | EmptyString => True
  end →
  opt_count ("," +:+ d +:+ rest) = (Some d, rest).
Proof.
  intros Hne Hd Hrest. unfold opt_count.
  rewrite (expect_app "," (d +:+ rest)). by rewrite digits1_app.
Qed.

Lemma hunk_header_match a b c d :
  hunk_re_match (hunk_header a b c d)
  = Some (Py.str_of_nat a, Some (Py.str_of_nat b),
          Py.str_of_nat c, Some (Py.str_of_nat d)).
Proof.
  unfold hunk_re_match, hunk_header.
  rewrite (expect_app "@@ -"). cbn [mbind option_bind].
  rewrite digits1_app
    by first [apply str_of_nat_nonempty|apply str_of_nat_digits|done].
  cbn [mbind option_bind].
  rewrite opt_count_app
    by first [apply str_of_nat_nonempty|apply str_of_nat_digits|done].
  rewrite (expect_app " +"). cbn [mbind option_bind].
  rewrite digits1_app
    by first [apply str_of_nat_nonempty|apply str_of_nat_digits|done].
  cbn [mbind option_bind].
  rewrite opt_count_app
    by first [apply str_of_nat_nonempty|apply str_of_nat_digits|done].
  by change (expect " @@" " @@") with (Some EmptyString).
Qed.

Lemma one_line_app a b : one_line a → one_line b → one_line (a +:+ b).
Proof.
  unfold one_line. intros Ha Hb. by rewrite TokenFacts.forallb_string_app, Ha, Hb.
Qed.

Lemma str_of_nat_one_line n : one_line (Py.str_of_nat n).
Proof.
  unfold one_line.
  eapply TokenFacts.forallb_string_impl; [apply digit_one_line|].
  apply str_of_nat_digits.
Qed.

Lemma hunk_header_one_line a b c d : one_line (hunk_header a b c d).
Proof.
  unfold hunk_header.
  repeat (apply one_line_app; [first [apply str_of_nat_one_line|done]|]).
  done.
Qed.

(** *** Texts that are given by their lines *)

Lemma text_of_lines_cons c contents :
  text_of_lines (c :: contents) = c +:+ LF +:+ text_of_lines contents.
Proof.
  unfold text_of_lines. cbn [map]. by rewrite join_empty_cons, append_assoc.
Qed.

Lemma splitlines_text_of_lines keepends contents :
  Forall one_line contents →
  Py.splitlines keepends (text_of_lines contents)
  = map (λ c, if keepends then c +:+ LF else c) contents.
Proof.
  induction 1 as [|c contents Hc Hcs IH]; [done|].
  rewrite text_of_lines_cons, splitlines_line by done.
  by rewrite IH.
Qed.

Lemma body_line_one_line entry : one_line entry.2 → one_line (body_line entry).
Proof.
  destruct entry as [[] c]; unfold one_line, body_line; simpl; by intros ->.
Qed.

Lemma body_line_not_header entry : is_header_start (body_line entry) = false.
Proof.
  destruct entry as [[] c]; unfold is_header_start, Py.startswith, body_line;
    by apply prefix_differs.
Qed.

(** The body of the hunk walks the old text from the line after
    [before]. *)
Lemma single_hunk_body before body after :
  body_applies (map (λ c, c +:+ LF) (before ++ old_part body ++ after))
               (length before) (map body_line body)
               (length before + length (old_part body))
               (length (old_part body)) (length (new_part body))
               (map (λ c, c +:+ LF) (new_part body)).
Proof.
  revert before. induction body as [|[k c] body IH]; intros before.
  - simpl. rewrite Nat.add_0_r. constructor.
  - assert (∀ rest : list string,
              map (λ c, c +:+ LF) (before ++ (c :: rest) ++ after)
              = map (λ c, c +:+ LF) ((before ++ [c]) ++ rest ++ after)) as Hshift.
    { intros rest. by rewrite <- !app_assoc. }
    assert (∀ rest : list string,
              map (λ c, c +:+ LF) (before ++ (c :: rest) ++ after) !! length before
              = Some (c +:+ LF)) as Hat.
    { intros rest. rewrite list_lookup_fmap.
      rewrite lookup_app_r by lia. by rewrite Nat.sub_diag. }
    pose proof (IH (before ++ [c])) as IHc.
    rewrite length_app in IHc. simpl in IHc.
    replace (length before + 1)%nat with (S (length before)) in IHc by lia.
    destruct k.
    + change (old_part ((Context, c) :: body)) with (c :: old_part body).
      change (new_part ((Context, c) :: body)) with (c :: new_part body).
      cbn [length map].
      replace (length before + S (length (old_part body)))%nat
        with (S (length before) + length (old_part body))%nat by lia.
      apply (body_context _ _ c); [apply Hat|].
      rewrite Hshift. exact IHc.
    + change (old_part ((Removal, c) :: body)) with (c :: old_part body).
      change (new_part ((Removal, c) :: body)) with (new_part body).
      cbn [length map].
      replace (length before + S (length (old_part body)))%nat
        with (S (length before) + length (old_part body))%nat by lia.
      apply (body_removal _ _ c); [apply Hat|].
      rewrite Hshift. exact IHc.
    + change (old_part ((Addition, c) :: body)) with (old_part body).
      change (new_part ((Addition, c) :: body)) with (c :: new_part body).
      cbn [length map].
      apply (body_addition _ _ c). apply IH.
Qed.

(** X26: a hunk with the right header applies as it reads.  For an old
    text of the lines [before], then the context and removal lines of
    the hunk, then [after], the diff of this one hunk, whose header
    names line [length before + 1] and the two line counts of the body,
    is applied, and the new text is [before], the context and addition
    lines of the hunk, and [after]; this as long as each number of the
    header has at most 4300 digits, and otherwise [int] raises and no
    result is returned. *)
Theorem single_hunk_applies (before after : list string)
        (body : list (Kind * string)) :
  Forall one_line before → Forall one_line after →
  Forall (λ entry, one_line entry.2) body →
  let old_text := text_of_lines (before ++ old_part body ++ after) in
  let diff_text := single_hunk_diff (length before) body in
  apply_unified_diff old_text diff_text
  = if short (length before + 1) && short (length (old_part body))
       && short (length (new_part body))
    then Some (mkPatchResult true diff_text
                 (Some (text_of_lines (before ++ new_part body ++ after))) None)
    else None.
Proof.
  intros Hbefore Hafter Hbody old_text diff_text.
  assert (Forall one_line (old_part body)) as Hold.
  { clear -Hbody. induction Hbody as [|[[] c] body Hc _ IH]; try done;
      by constructor. }
  unfold apply_unified_diff.
  destruct (String.eqb_spec (Py.strip diff_text) EmptyString) as [Hblank|_].
  { exfalso. unfold diff_text, single_hunk_diff in Hblank.
    rewrite text_of_lines_cons in Hblank. unfold hunk_header in Hblank.
    by apply strip_nonempty in Hblank. }
  unfold old_text, diff_text, single_hunk_diff.
  rewrite !splitlines_text_of_lines.
  2:{ constructor; [apply hunk_header_one_line|].
      apply Forall_fmap. eapply Forall_impl; [exact Hbody|].
      intros entry. apply body_line_one_line. }
  2:{ by repeat (apply Forall_app; split). }
  rewrite map_id.
  set (header := hunk_header _ _ _ _).
  assert (skip_line "+++ " (skip_line "--- " (header :: map body_line body))
          = header :: map body_line body) as ->.
  { unfold header, hunk_header. done. }
  set (old_lines := map (λ c, c +:+ LF) (before ++ old_part body ++ after)).
  pose proof (header_numbers_of_nat (length before + 1)
                (length (old_part body)) (length (new_part body))) as Hnum.
  destruct (short (length before + 1) && short (length (old_part body))
            && short (length (new_part body))).
  2:{ rewrite apply_hunks_cons. unfold header.
      by rewrite hunk_header_match, Hnum. }
  assert (parses (header :: map body_line body ++ [])
                 [mkHunk (length before + 1) (length (old_part body))
                         (length before + 1) (length (new_part body))
                         (map body_line body)]) as Hparse.
  { apply parses_cons.
    - eexists. split; [apply hunk_header_match|exact Hnum].
    - split; [|by left].
      apply Forall_fmap, Forall_forall. intros entry _. apply body_line_not_header.
    - constructor. }
  rewrite app_nil_r in Hparse.
  assert (hunks_apply old_lines 0
            [mkHunk (length before + 1) (length (old_part body))
                    (length before + 1) (length (new_part body))
                    (map body_line body)]
            (Py.slice old_lines 0 (length before + 1 - 1)
             ++ map (λ c, c +:+ LF) (new_part body)
             ++ drop (length before + length (old_part body)) old_lines))
    as Happly.
  { apply (hunks_next old_lines 0
                        (mkHunk (length before + 1) (length (old_part body))
                                (length before + 1) (length (new_part body))
                                (map body_line body))
                        [] (length before + length (old_part body))
                        (map (λ c, c +:+ LF) (new_part body))
                        (drop (length before + length (old_part body)) old_lines)).
    - simpl. lia.
    - simpl. lia.
    - cbn [h_old_start h_body h_old_count h_new_count].
      replace (length before + 1 - 1)%nat with (length before) by lia.
      apply single_hunk_body.
    - constructor. }
  rewrite (apply_hunks_complete _ _ _ Hparse [] 0 _ Happly).
  rewrite app_nil_l. f_equal. f_equal. f_equal.
  unfold text_of_lines. f_equal.
  replace (length before + 1 - 1)%nat with (length before) by lia.
  unfold old_lines, Py.slice. rewrite Nat.sub_0_r, drop_0.
  rewrite !map_app.
  rewrite take_app_length' by (by rewrite length_map).
  rewrite drop_app_add' by (by rewrite length_map).
  rewrite drop_app_length' by (by rewrite length_map).
  done.
Qed.

Lemma single_hunk_witness :
  new_text <$> apply_unified_diff
                 (text_of_lines ["z"; "a"; "b"; "y"])
                 (single_hunk_diff 1 [(Context, "a"); (Removal, "b"); (Addition, "c")])
  = Some (Some (text_of_lines ["z"; "a"; "c"; "y"])).
Proof.
  change (new_text <$> apply_unified_diff
            (text_of_lines (["z"] ++ old_part
               [(Context, "a"); (Removal, "b"); (Addition, "c")] ++ ["y"]))
            (single_hunk_diff (length ["z"])
               [(Context, "a"); (Removal, "b"); (Addition, "c")])
          = Some (Some (text_of_lines ["z"; "a"; "c"; "y"]))).
  rewrite (single_hunk_applies ["z"] ["y"]
             [(Context, "a"); (Removal, "b"); (Addition, "c")]);
    [reflexivity|repeat constructor..].
Defined.

End PatchFacts.
